(** * KMRL document test suite: classification, batch conversion and report

    A shallow embedding of [test_kmrl_documents.py]: the import check
    ([test_docling_import]), the directory scan and its classification of
    files ([get_test_documents]), the per-file conversion attempt
    ([test_document_conversion]), the per-category driver ([test_category]),
    the command-line exercise ([test_cli_interface]), the report
    ([generate_kmrl_report]), its persistence ([save_results]) and [main].

    Conventions.
    - A Python [str] is the list of its code points ([list N]); [len] is
      [length], a slice [s[:n]] is [firstn n s].
    - A Python [float] is a primitive binary64 float; the conversion of an
      [int] is exact below [2^53], which covers every list length met here.
      Rounding errors are measured on the real value [F2R] of a float.
    - A Python call either returns a value or raises: [pyresult].
    - The converter, the clock and the subprocess runner are outside the
      repository; they are variables of the section, threaded through an
      abstract [World].
    - The program is given twice.  The section [Pipeline] has it on a
      standard output that takes every line: its functions leave the
      [print]s out.  The module [Printing] has it with every [print] as a
      step that the standard output may refuse.  The two agree on a
      standard output that takes every line ([main_quiet]). *)

From Stdlib Require Import ZArith NArith List Lia Bool String Ascii.
From Stdlib Require Import Permutation Floats Uint63 DecimalString.
From Stdlib Require Import Reals Lra.
Import ListNotations.

Set Implicit Arguments.
Open Scope Z_scope.

(* ================================================================== *)
(** ** Python strings *)

Definition str := list N.

(** A string literal of the source (all of them are ASCII). *)
Definition lit (s : string) : str :=
  map N_of_ascii (list_ascii_of_string s).

Definition str_eqb (a b : str) : bool :=
  if list_eq_dec N.eq_dec a b then true else false.

(** [len(s)] *)
Definition len (s : str) : Z := Z.of_nat (List.length s).

(** [x in xs] for a list of strings. *)
Definition str_in (x : str) (xs : list str) : bool :=
  existsb (str_eqb x) xs.

Fixpoint startswith (prefix s : str) : bool :=
  match prefix, s with
  | [], _ => true
  | _ :: _, [] => false
  | a :: prefix', b :: s' => N.eqb a b && startswith prefix' s'
  end.

(** [needle in hay] for two strings: substring search. *)
Fixpoint contains (needle hay : str) : bool :=
  startswith needle hay
  || match hay with
     | [] => false
     | _ :: hay' => contains needle hay'
     end.

(** [str.isspace] on one code point: the whitespace of CPython's
    [str.strip()] with no argument. *)
Definition is_space (c : N) : bool :=
  ((9 <=? c) && (c <=? 13) || (28 <=? c) && (c <=? 32)
   || (c =? 133) || (c =? 160) || (c =? 5760)
   || (8192 <=? c) && (c <=? 8202)
   || (c =? 8232) || (c =? 8233) || (c =? 8239) || (c =? 8287)
   || (c =? 12288))%N.

Fixpoint lstrip (s : str) : str :=
  match s with
  | [] => []
  | c :: s' => if is_space c then lstrip s' else s
  end.

Definition rstrip (s : str) : str := rev (lstrip (rev s)).

(** [s.strip()] *)
Definition strip (s : str) : str := rstrip (lstrip s).

(** [str(n)] for an integer. *)
Definition str_of_Z (z : Z) : str :=
  lit (NilZero.string_of_int (Z.to_int z)).

(** ASCII case folding: what [str.lower] does on ASCII text.  The models
    below take [lower] as a variable; this is the instance used in the
    worked examples. *)
Definition ascii_lower (s : str) : str :=
  map (fun c => if ((65 <=? c) && (c <=? 90))%N then (c + 32)%N else c) s.

(* ================================================================== *)
(** ** Results of Python calls *)

(** An exception, as the handlers of the source observe it:
    [type(e).__name__] and [str(e)]. *)
Record exn := { exn_type : str; exn_msg : str }.

Inductive pyresult (A : Type) : Type :=
| Return (a : A)
| Raise (e : exn).
Arguments Return {A} a.
Arguments Raise {A} e.

Definition ZeroDivisionError : exn :=
  {| exn_type := lit "ZeroDivisionError"; exn_msg := lit "division by zero" |}.

(* ================================================================== *)
(** ** Floats: true division and the [.1f] format *)

(** [float(n)] for an [int]. *)
Definition float_of_int (z : Z) : float := PrimFloat.of_uint63 (Uint63.of_Z z).

(** [a / b] on two ints. *)
Definition truediv (a b : Z) : pyresult float :=
  if b =? 0 then Raise ZeroDivisionError
  else Return (float_of_int a / float_of_int b)%float.

(** Rounding of [n / d] ([d > 0]) to the nearest integer, ties to even. *)
Definition round_half_even (n d : Z) : Z :=
  let q := n / d in
  let r := n mod d in
  match 2 * r ?= d with
  | Lt => q
  | Gt => q + 1
  | Eq => if Z.even q then q else q + 1
  end.

(** The number of tenths nearest to the absolute value of a finite float. *)
Definition tenths_of (m : positive) (e : Z) : Z :=
  if 0 <=? e then 10 * Zpos m * 2 ^ e
  else round_half_even (10 * Zpos m) (2 ^ (- e)).

Definition render_tenths (neg : bool) (t : Z) : str :=
  (if neg then lit "-" else []) ++ str_of_Z (t / 10) ++ lit "." ++ str_of_Z (t mod 10).

(** [f"{x:.1f}"]: the decimal with one fractional digit nearest to the exact
    value of [x]. *)
Definition format_1f (x : float) : str :=
  match Prim2SF x with
  | S754_zero s => render_tenths s 0
  | S754_finite s m e => render_tenths s (tenths_of m e)
  | S754_infinity s => if s then lit "-inf" else lit "inf"
  | S754_nan => lit "nan"
  end.

(* ================================================================== *)
(** ** Classification (lines 53-75 of [get_test_documents]) *)

Section Classifier.

(** [str.lower] of the interpreter (its Unicode case table). *)
Variable lower : str -> str.

(** The [if]/[elif] chain on [file_ext] (already lower-cased) and
    [file_name]. *)
Definition categorize (file_ext file_name : str) : str :=
  if str_in file_ext [lit ".jpg"; lit ".jpeg"; lit ".png"] then
    if contains (lit "mal") (lower file_name) then lit "malayalam_ocr"
    else if contains (lit "handwrite") (lower file_name)
            || contains (lit "handwritten") (lower file_name)
         then lit "handwritten_ocr"
    else if contains (lit "scan") (lower file_name) then lit "scanned_document"
    else lit "image_ocr"
  else if str_eqb file_ext (lit ".dwg") then lit "engineering_drawing"
  else if str_eqb file_ext (lit ".docx") then lit "word_document"
  else if str_eqb file_ext (lit ".pptx") then lit "powerpoint_presentation"
  else if str_eqb file_ext (lit ".csv") then lit "data_file"
  else lit "other".

End Classifier.


(* ================================================================== *)
(** ** Dictionaries in insertion order *)

Section Dict.
Variable V : Type.

Definition dict := list (str * V).

(** [d.get(k)] *)
Fixpoint dict_get (k : str) (d : dict) : option V :=
  match d with
  | [] => None
  | (k', v) :: d' => if str_eqb k k' then Some v else dict_get k d'
  end.

(** [k in d] *)
Definition dict_mem (k : str) (d : dict) : bool :=
  match dict_get k d with Some _ => true | None => false end.

(** [d[k] = v]: replaces in place, or adds a new last key. *)
Fixpoint dict_set (k : str) (v : V) (d : dict) : dict :=
  match d with
  | [] => [(k, v)]
  | (k', v') :: d' =>
      if str_eqb k k' then (k', v) :: d' else (k', v') :: dict_set k v d'
  end.

(** [d.keys()], [d.values()] *)
Definition dict_keys (d : dict) : list str := map fst d.
Definition dict_values (d : dict) : list V := map snd d.
End Dict.

(** [d[k].append(x)] on a dictionary of lists, for a key that may be
    missing (then nothing is changed: the source never does that). *)
Fixpoint dict_append (A : Type) (k : str) (x : A) (d : dict (list A)) : dict (list A) :=
  match d with
  | [] => []
  | (k', l) :: d' =>
      if str_eqb k k' then (k', l ++ [x]) :: d' else (k', l) :: dict_append k x d'
  end.

(* ================================================================== *)
(** ** The directory and the file records *)

(** What a directory entry is on disk. [NSymlink t] is a symbolic link
    whose target is [t]; [NAbsent] is a target that does not exist. *)
Inductive node : Type :=
| NRegular
| NDirectory
| NOther
| NAbsent
| NSymlink (target : node).

(** [Path.is_file()]: follows symbolic links. *)
Fixpoint is_file (n : node) : bool :=
  match n with
  | NRegular => true
  | NSymlink t => is_file t
  | _ => false
  end.

(** The entry itself is a regular file (not a link to one). *)
Definition is_regular (n : node) : bool :=
  match n with NRegular => true | _ => false end.

(** One [Path] yielded by [iterdir()]: [str(p)], [p.name], [p.suffix],
    the node behind it and [p.stat().st_size]. *)
Record dir_entry := {
  p_str : str;
  p_name : str;
  p_suffix : str;
  p_node : node;
  p_size : Z
}.

(** The dictionary appended at lines 80-85. *)
Record doc_info := {
  path : str;
  name : str;
  size : Z;
  extension : str
}.

(* ================================================================== *)
(** ** Outcome records *)

(** A value stored in a result dictionary. *)
Inductive pyval : Type :=
| VStr (s : str)
| VInt (z : Z)
| VBool (b : bool).

(** The two dictionaries returned by [test_document_conversion]:
    [success_info] (lines 108-118) and [error_info] (lines 133-141). *)
Inductive outcome : Type :=
| success_info (file_name category : str) (file_size : Z)
               (markdown_length text_length : Z) (has_content : bool)
               (preview timestamp : str)
| error_info (file_name category : str) (file_size : Z)
             (error error_type timestamp : str).

(** The keys and values of the dictionary, in the order of the literal. *)
Definition outcome_items (o : outcome) : list (string * pyval) :=
  match o with
  | success_info n c sz ml tl hc pv ts =>
      [("file_name", VStr n); ("category", VStr c); ("file_size", VInt sz);
       ("conversion_successful", VBool true);
       ("markdown_length", VInt ml); ("text_length", VInt tl);
       ("has_content", VBool hc); ("preview", VStr pv); ("timestamp", VStr ts)]%string
  | error_info n c sz er et ts =>
      [("file_name", VStr n); ("category", VStr c); ("file_size", VInt sz);
       ("conversion_successful", VBool false);
       ("error", VStr er); ("error_type", VStr et); ("timestamp", VStr ts)]%string
  end.

(** [r['conversion_successful']], [r['file_name']] *)
Definition conversion_successful (r : outcome) : bool :=
  match r with success_info _ _ _ _ _ _ _ _ => true | error_info _ _ _ _ _ _ => false end.

Definition file_name (r : outcome) : str :=
  match r with success_info n _ _ _ _ _ _ _ => n | error_info n _ _ _ _ _ => n end.

(** The dictionaries appended to [cli_results]: success (lines 210-215),
    non-zero exit (lines 220-225), and the two handlers (lines 231-235 and
    238-242), which build the same three keys. *)
Inductive cli_result : Type :=
| cli_success (file_name : str) (output_length : Z) (preview : str)
| cli_failure (file_name error : str) (return_code : Z)
| cli_error (file_name error : str).


Definition cli_successful (r : cli_result) : bool :=
  match r with cli_success _ _ _ => true | _ => false end.

Definition cli_file_name (r : cli_result) : str :=
  match r with cli_success n _ _ => n | cli_failure n _ _ => n | cli_error n _ => n end.

(** [s[:200] + "..." if len(s) > 200 else s] *)
Definition preview_of (s : str) : str :=
  if len s >? 200 then firstn 200 s ++ lit "..." else s.

(** How [subprocess.run(..., timeout=...)] ends. *)
Inductive run_outcome : Type :=
| Completed (returncode : Z) (stdout stderr : str)
| TimeoutExpired
| RunError (e : exn).

(* ================================================================== *)
(** ** Counting *)

(** [sum(1 for r in results if r['conversion_successful'])] *)
Definition count_successful (results : list outcome) : Z :=
  Z.of_nat (List.length (filter conversion_successful results)).

(** [sum(len(results) for results in all_results.values())] *)
Definition sum_len (A : Type) (d : dict (list A)) : Z :=
  fold_right (fun l acc => Z.of_nat (List.length l) + acc) 0 (dict_values d).

Definition sum_successful (d : dict (list outcome)) : Z :=
  fold_right (fun l acc => count_successful l + acc) 0 (dict_values d).

Definition sum_failed (d : dict (list outcome)) : Z :=
  fold_right
    (fun l acc =>
       Z.of_nat (List.length (filter (fun r => negb (conversion_successful r)) l)) + acc)
    0 (dict_values d).

(** [len(results)] *)
Definition len_results (A : Type) (results : list A) : Z :=
  Z.of_nat (List.length results).

(** [a / b * 100] on two ints. *)
Definition percentage (a b : Z) : pyresult float :=
  match truediv a b with
  | Return q => Return (q * float_of_int 100)%float
  | Raise e => Raise e
  end.

(* ================================================================== *)
(** ** The report *)

(** One line of the category breakdown (lines 267-277): category,
    successful, total, the rate as printed, and the failed file names. *)
Record breakdown_line := {
  bl_category : str;
  bl_successful : Z;
  bl_total : Z;
  bl_rate : str;
  bl_failed : list str
}.

(** Everything [generate_kmrl_report] prints. *)
Record kmrl_report := {
  rep_total_documents : Z;
  rep_total_successful : Z;
  rep_total_failed : Z;
  rep_overall_rate : str;
  rep_breakdown : list breakdown_line;
  rep_cli : option (Z * Z * str);
  rep_critical : list (str * bool);
  rep_ocr : option (Z * Z * str * bool);
  rep_engineering : option (Z * Z * bool);
  rep_ready : bool
}.

(** The dictionary built by [save_results] (lines 351-367, 371). *)
Record report_data := {
  test_timestamp : str;
  docling_version : option str;
  total_documents : Z;
  categories : dict (list outcome);
  cli_results : list cli_result;
  summary_total_successful : Z;
  summary_total_failed : Z
}.

(** The file [kmrl_docling_test_results.json] and the device under it:
    [report_file] is the content of the file ([None]: no such file),
    [openable] tells whether [open(..., 'w')] succeeds, and [capacity] how
    many more characters the device accepts ([None]: no limit). *)
Record storage := {
  report_file : option str;
  openable : bool;
  capacity : option nat
}.

Definition PermissionError : exn :=
  {| exn_type := lit "PermissionError"; exn_msg := lit "Permission denied" |}.

Definition OSError : exn :=
  {| exn_type := lit "OSError"; exn_msg := lit "No space left on device" |}.

(** [with open(name, 'w') as f: f.write(text)]: opening truncates the file;
    the characters the device accepts are written in order. *)
Definition write_file (text : str) (d : storage) : pyresult unit * storage :=
  if negb (openable d) then (Raise PermissionError, d)
  else
    match capacity d with
    | None =>
        (Return tt, {| report_file := Some text; openable := true; capacity := None |})
    | Some k =>
        if (List.length text <=? k)%nat then
          (Return tt,
           {| report_file := Some text; openable := true;
              capacity := Some (k - List.length text)%nat |})
        else
          (Raise OSError,
           {| report_file := Some (firstn k text); openable := true;
              capacity := Some 0%nat |})
    end.

(* ================================================================== *)
(** ** The pipeline *)

Section Pipeline.

Variable lower : str -> str.

(** The state of everything outside the program. *)
Variable World : Type.

(** Lines 97-105 as one call of the converter: the import, the
    construction of [DocumentConverter], [convert(file_path)] and the two
    exports.  It returns [(markdown_content, text_content)] or raises an
    [Exception]. *)
Variable convert_document : str -> World -> pyresult (str * str) * World.

(** [datetime.now().isoformat()] *)
Variable now_isoformat : World -> str * World.

(** [subprocess.run(argv, capture_output=True, text=True, timeout=t)] *)
Variable subprocess_run : list str -> Z -> World -> run_outcome * World.

(** [sys.executable] *)
Variable sys_executable : str.

(** [json.dump(report_data, f, indent=2)]: the text it writes. *)
Variable json_dump : report_data -> str.

(** What the program has done so far: the paths handed to the converter
    and the subprocess invocations, oldest first, the report printed, and
    the output file. *)
Record state := {
  world : World;
  converted : list str;
  invoked : list (list str * Z);
  printed : option kmrl_report;
  disk : storage
}.

Definition M (A : Type) : Type := state -> pyresult A * state.

Definition ret (A : Type) (a : A) : M A := fun st => (Return a, st).

Definition bind (A B : Type) (m : M A) (f : A -> M B) : M B :=
  fun st =>
    match m st with
    | (Return a, st') => f a st'
    | (Raise e, st') => (Raise e, st')
    end.

Definition lift (A : Type) (r : pyresult A) : M A := fun st => (r, st).

Notation "x <- m ;; k" := (bind m (fun x => k))
  (at level 61, m at next level, right associativity).

(** *** [get_test_documents] *)

(** The body of the [for] loop (lines 52-85) on one entry. *)
Definition scan_entry (documents : dict (list doc_info)) (file_path : dir_entry)
  : dict (list doc_info) :=
  if is_file (p_node file_path) then
    let file_ext := lower (p_suffix file_path) in
    let file_name := p_name file_path in
    let category := categorize lower file_ext file_name in
    let documents :=
      if negb (dict_mem category documents) then dict_set category [] documents
      else documents in
    dict_append category
      {| path := p_str file_path; name := file_name;
         size := p_size file_path; extension := file_ext |}
      documents
  else documents.

(** [listing] is [None] when [test-docs] does not exist, else what
    [iterdir()] yields. *)
Definition get_test_documents (listing : option (list dir_entry))
  : dict (list doc_info) :=
  match listing with
  | None => []
  | Some entries => fold_left scan_entry entries []
  end.

(** *** [test_document_conversion] *)

Definition test_document_conversion (file_path category : str) (doc : doc_info)
  : M outcome :=
  fun st =>
    let (r, w1) := convert_document file_path (world st) in
    let (ts, w2) := now_isoformat w1 in
    let st' :=
      {| world := w2; converted := converted st ++ [file_path];
         invoked := invoked st; printed := printed st; disk := disk st |} in
    match r with
    | Return (markdown_content, text_content) =>
        (Return
           (success_info (name doc) category (size doc)
              (len markdown_content) (len text_content)
              (len (strip text_content) >? 0)
              (preview_of text_content) ts),
         st')
    | Raise e =>
        (Return
           (error_info (name doc) category (size doc)
              (exn_msg e) (exn_type e) ts),
         st')
    end.

(** *** [test_category] *)

(** The [for] loop of lines 156-158. *)
Fixpoint test_category_loop (category : str) (documents : list doc_info)
  : M (list outcome) :=
  match documents with
  | [] => ret []
  | doc :: rest =>
      result <- test_document_conversion (path doc) category doc ;;
      results <- test_category_loop category rest ;;
      ret (result :: results)
  end.

(** The summary printed at lines 161-167: successful, failed and the
    success rate. *)
Definition category_summary (results : list outcome) : pyresult (Z * Z * str) :=
  let successful := count_successful results in
  let failed := len_results results - successful in
  match percentage successful (len_results results) with
  | Return rate => Return (successful, failed, format_1f rate)
  | Raise e => Raise e
  end.

Definition test_category (category : str) (documents : list doc_info)
  : M (list outcome) :=
  results <- test_category_loop category documents ;;
  _ <- lift (category_summary results) ;;
  ret results.

(** *** [test_cli_interface] *)

(** The first loop (lines 183-187), with its [break]. *)
Fixpoint select_cli_files (entries cli_test_files : list dir_entry)
  : list dir_entry :=
  match entries with
  | [] => cli_test_files
  | file_path :: rest =>
      if str_in (lower (p_suffix file_path)) [lit ".txt"; lit ".csv"; lit ".md"] then
        let cli_test_files := cli_test_files ++ [file_path] in
        if len_results cli_test_files >=? 3 then cli_test_files
        else select_cli_files rest cli_test_files
      else select_cli_files rest cli_test_files
  end.

(** The command line of one invocation (line 203). *)
Definition cli_argv (file_path : dir_entry) : list str :=
  [sys_executable; lit "-m"; lit "docling"; p_str file_path].

(** One iteration of the second loop (lines 196-242). *)
Definition cli_attempt (file_path : dir_entry) : M cli_result :=
  fun st =>
    let (result, w) := subprocess_run (cli_argv file_path) 30 (world st) in
    let st' :=
      {| world := w; converted := converted st;
         invoked := invoked st ++ [(cli_argv file_path, 30)];
         printed := printed st; disk := disk st |} in
    match result with
    | Completed returncode stdout stderr =>
        if returncode =? 0 then
          (Return (cli_success (p_name file_path) (len stdout) (preview_of stdout)), st')
        else
          (Return (cli_failure (p_name file_path) stderr returncode), st')
    | TimeoutExpired =>
        (Return (cli_error (p_name file_path) (lit "Timeout")), st')
    | RunError e =>
        (Return (cli_error (p_name file_path) (exn_msg e)), st')
    end.

Fixpoint cli_loop (files : list dir_entry) : M (list cli_result) :=
  match files with
  | [] => ret []
  | file_path :: rest =>
      cli_result <- cli_attempt file_path ;;
      cli_results <- cli_loop rest ;;
      ret (cli_result :: cli_results)
  end.

Definition test_cli_interface (listing : option (list dir_entry))
  : M (list cli_result) :=
  match listing with
  | None => ret []
  | Some entries =>
      let cli_test_files := select_cli_files entries [] in
      match cli_test_files with
      | [] => ret []
      | _ :: _ => cli_loop (firstn 3 cli_test_files)
      end
  end.

(** *** [generate_kmrl_report] *)

Definition rbind (A B : Type) (r : pyresult A) (f : A -> pyresult B) : pyresult B :=
  match r with
  | Return a => f a
  | Raise e => Raise e
  end.

Notation "x <~ r ;; k" := (rbind r (fun x => k))
  (at level 61, r at next level, right associativity).

(** One iteration of the category breakdown (lines 268-277). *)
Definition breakdown_of (item : str * list outcome) : pyresult breakdown_line :=
  let (category, results) := item in
  let successful := count_successful results in
  let total := len_results results in
  success_rate <~ (if total >? 0 then percentage successful total
                   else Return (float_of_int 0)) ;;
  Return {| bl_category := category; bl_successful := successful;
            bl_total := total; bl_rate := format_1f success_rate;
            bl_failed :=
              map file_name
                (filter (fun r => negb (conversion_successful r)) results) |}.

Fixpoint breakdown (items : list (str * list outcome))
  : pyresult (list breakdown_line) :=
  match items with
  | [] => Return []
  | item :: rest =>
      line <~ breakdown_of item ;;
      lines <~ breakdown rest ;;
      Return (line :: lines)
  end.

Definition critical_categories : list str :=
  [lit "word_document"; lit "powerpoint_presentation"; lit "data_file"].

Definition ocr_categories : list str :=
  [lit "malayalam_ocr"; lit "handwritten_ocr"; lit "scanned_document"; lit "image_ocr"].

(** One iteration of the loop of lines 293-301: the flag and the lines
    printed so far. *)
Definition critical_step (all_results : dict (list outcome))
    (acc : bool * list (str * bool)) (category : str) : bool * list (str * bool) :=
  let (critical_success, lines) := acc in
  match dict_get category all_results with
  | Some results =>
      let successful := count_successful results in
      if successful =? 0 then (false, lines ++ [(category, false)])
      else (critical_success, lines ++ [(category, true)])
  | None => acc
  end.

(** One iteration of the loop of lines 308-312: [(ocr_success, ocr_total)]. *)
Definition ocr_step (all_results : dict (list outcome))
    (acc : Z * Z) (category : str) : Z * Z :=
  let (ocr_success, ocr_total) := acc in
  match dict_get category all_results with
  | Some results => (ocr_success + count_successful results, ocr_total + len_results results)
  | None => acc
  end.

(** [0.7], the binary64 nearest to seven tenths. *)
Definition threshold : float := 0x1.6666666666666p-1%float.

(** [total_successful >= total_documents * 0.7] *)
Definition meets_threshold (total_successful total_documents : Z) : bool :=
  (float_of_int total_documents * threshold <=? float_of_int total_successful)%float.

Definition generate_kmrl_report (all_results : dict (list outcome))
    (cli_results : list cli_result) : pyresult kmrl_report :=
  let total_documents := sum_len all_results in
  let total_successful := sum_successful all_results in
  let total_failed := total_documents - total_successful in
  overall <~ percentage total_successful total_documents ;;
  lines <~ breakdown all_results ;;
  cli <~ (match cli_results with
          | [] => Return None
          | _ :: _ =>
              let cli_ok :=
                Z.of_nat (List.length (filter cli_successful cli_results)) in
              rate <~ percentage cli_ok (len_results cli_results) ;;
              Return (Some (cli_ok, len_results cli_results, format_1f rate))
          end) ;;
  let (critical_success, critical_lines) :=
    fold_left (critical_step all_results) critical_categories (true, []) in
  let (ocr_success, ocr_total) :=
    fold_left (ocr_step all_results) ocr_categories (0, 0) in
  ocr <~ (if ocr_total >? 0 then
            ocr_rate <~ percentage ocr_success ocr_total ;;
            Return (Some (ocr_success, ocr_total, format_1f ocr_rate,
                          (float_of_int 50 <=? ocr_rate)%float))
          else Return None) ;;
  let engineering :=
    match dict_get (lit "engineering_drawing") all_results with
    | Some eng_results =>
        let eng_successful := count_successful eng_results in
        Some (eng_successful, len_results eng_results, eng_successful >? 0)
    | None => None
    end in
  Return {| rep_total_documents := total_documents;
            rep_total_successful := total_successful;
            rep_total_failed := total_failed;
            rep_overall_rate := format_1f overall;
            rep_breakdown := lines;
            rep_cli := cli;
            rep_critical := critical_lines;
            rep_ocr := ocr;
            rep_engineering := engineering;
            rep_ready :=
              critical_success && meets_threshold total_successful total_documents |}.

(** *** [save_results] *)

(** [docling.__version__], when the import and the attribute exist. *)
Variable docling__version__ : option str.

Definition save_results (all_results : dict (list outcome))
    (cli_results : list cli_result) : M unit :=
  fun st =>
    let (ts, w) := now_isoformat (world st) in
    let data :=
      {| test_timestamp := ts;
         docling_version := docling__version__;
         total_documents := sum_len all_results;
         categories := all_results;
         cli_results := cli_results;
         summary_total_successful := sum_successful all_results;
         summary_total_failed := sum_failed all_results |} in
    let (r, d) := write_file (json_dump data) (disk st) in
    (r, {| world := w; converted := converted st; invoked := invoked st;
           printed := printed st; disk := d |}).

(** *** [main] *)

(** How [main] returns. *)
Inductive run_end : Type :=
| NoDocling
| NoDocuments
| Complete (all_results : dict (list outcome)) (cli_results : list cli_result).

(** The loop of lines 403-405. *)
Fixpoint test_categories (items : list (str * list doc_info))
    (all_results : dict (list outcome)) : M (dict (list outcome)) :=
  match items with
  | [] => ret all_results
  | (category, docs) :: rest =>
      results <- test_category category docs ;;
      test_categories rest (dict_set category results all_results)
  end.

Definition print_report (r : kmrl_report) : M unit :=
  fun st =>
    (Return tt,
     {| world := world st; converted := converted st; invoked := invoked st;
        printed := Some r; disk := disk st |}).

(** [docling_installed]: what [test_docling_import()] returns. *)
Definition main (docling_installed : bool) (listing : option (list dir_entry))
  : M run_end :=
  if negb docling_installed then ret NoDocling
  else
    let documents := get_test_documents listing in
    match documents with
    | [] => ret NoDocuments
    | _ :: _ =>
        all_results <- test_categories documents [] ;;
        cli_results <- test_cli_interface listing ;;
        report <- lift (generate_kmrl_report all_results cli_results) ;;
        _ <- print_report report ;;
        _ <- save_results all_results cli_results ;;
        ret (Complete all_results cli_results)
    end.

End Pipeline.

(* ================================================================== *)
(** ** The classification rules as a table

    The rule order of the specification, to be compared with [categorize]:
    a rule is a test on the lower-cased file name and extension and the
    category it gives; the first rule whose test holds wins. *)

Definition is_image_ext (ext : str) : bool :=
  str_in ext [lit ".jpg"; lit ".jpeg"; lit ".png"].

Definition classifier_rules : list ((str -> str -> bool) * str) :=
  [ (fun n e => is_image_ext e && contains (lit "mal") n, lit "malayalam_ocr");
    (fun n e => is_image_ext e
                && (contains (lit "handwrite") n || contains (lit "handwritten") n),
     lit "handwritten_ocr");
    (fun n e => is_image_ext e && contains (lit "scan") n, lit "scanned_document");
    (fun n e => is_image_ext e, lit "image_ocr");
    (fun n e => str_eqb e (lit ".dwg"), lit "engineering_drawing");
    (fun n e => str_eqb e (lit ".docx"), lit "word_document");
    (fun n e => str_eqb e (lit ".pptx"), lit "powerpoint_presentation");
    (fun n e => str_eqb e (lit ".csv"), lit "data_file") ].

Fixpoint first_match (rules : list ((str -> str -> bool) * str))
    (lname lext : str) (default : str) : str :=
  match rules with
  | [] => default
  | (test, category) :: rules' =>
      if test lname lext then category else first_match rules' lname lext default
  end.

Definition classify_by_rules (lname lext : str) : str :=
  first_match classifier_rules lname lext (lit "other").

Definition all_categories : list str :=
  [lit "malayalam_ocr"; lit "handwritten_ocr"; lit "scanned_document";
   lit "image_ocr"; lit "engineering_drawing"; lit "word_document";
   lit "powerpoint_presentation"; lit "data_file"; lit "other"].

(** The record made from a directory entry (lines 80-85). *)
Definition record_of (lower : str -> str) (p : dir_entry) : doc_info :=
  {| path := p_str p; name := p_name p; size := p_size p;
     extension := lower (p_suffix p) |}.

(* ================================================================== *)
(** ** Vocabulary of the statements *)

(** What holds of the grouping at every point of the scan: no key is
    repeated, no key has an empty list, and every record sits under the
    category computed from its own name and extension. *)
Definition well_grouped (lower : str -> str) (documents : dict (list doc_info)) : Prop :=
  NoDup (dict_keys documents)
  /\ Forall (fun kv =>
               snd kv <> []
               /\ Forall (fun doc =>
                            categorize lower (extension doc) (name doc) = fst kv)
                         (snd kv))
            documents.

(** What a conversion step leaves alone: the invocations, the printed
    report and the disk. *)
Definition same_outside (World : Type) (st st' : state World) : Prop :=
  invoked st' = invoked st /\ printed st' = printed st /\ disk st' = disk st.

(** The record [test_document_conversion] returns, from what the converter
    did and the time read. *)
Definition outcome_for (category : str) (doc : doc_info)
    (r : pyresult (str * str)) (ts : str) : outcome :=
  match r with
  | Return (markdown_content, text_content) =>
      success_info (name doc) category (size doc)
        (len markdown_content) (len text_content)
        (len (strip text_content) >? 0) (preview_of text_content) ts
  | Raise e =>
      error_info (name doc) category (size doc) (exn_msg e) (exn_type e) ts
  end.

(** An entry whose lower-cased extension is one the command-line exercise
    accepts (line 184). *)
Definition cli_candidate (lower : str -> str) (p : dir_entry) : bool :=
  str_in (lower (p_suffix p)) [lit ".txt"; lit ".csv"; lit ".md"].

(** The record [cli_attempt] appends for an entry, from how the invocation
    ended. *)
Definition cli_record_for (p : dir_entry) (o : run_outcome) : cli_result :=
  match o with
  | Completed returncode stdout stderr =>
      if returncode =? 0 then cli_success (p_name p) (len stdout) (preview_of stdout)
      else cli_failure (p_name p) stderr returncode
  | TimeoutExpired => cli_error (p_name p) (lit "Timeout")
  | RunError e => cli_error (p_name p) (exn_msg e)
  end.

(** The line of the category breakdown for one category. *)
Definition breakdown_line_of (item : str * list outcome) : breakdown_line :=
  let (category, results) := item in
  {| bl_category := category;
     bl_successful := count_successful results;
     bl_total := len_results results;
     bl_rate :=
       format_1f
         (if len_results results >? 0 then
            (float_of_int (count_successful results)
             / float_of_int (len_results results) * float_of_int 100)%float
          else float_of_int 0);
     bl_failed :=
       map file_name (filter (fun r => negb (conversion_successful r)) results) |}.

(** A category passes the critical check when it is absent or has a
    successful conversion. *)
Definition category_ready (all_results : dict (list outcome)) (category : str) : bool :=
  match dict_get category all_results with
  | Some results => negb (count_successful results =? 0)
  | None => true
  end.

Definition critical_ready (all_results : dict (list outcome)) : bool :=
  forallb (category_ready all_results) critical_categories.

(** The record [r] is the rational [N / D] shifted right by [k] bits: its
    mantissa is the integer part of [N / (2^k * D)] and its two flags locate
    [N / D] between two consecutive multiples of [2^k]. *)
Definition shr_inv (N D k : Z) (r : shr_record) : Prop :=
  let m := shr_m r in
  0 <= m
  /\ m * (2 ^ k * D) <= N < (m + 1) * (2 ^ k * D)
  /\ match shr_r r, shr_s r with
     | false, false => N = m * (2 ^ k * D)
     | false, true => m * (2 ^ k * D) < N /\ 2 * N < (2 * m + 1) * (2 ^ k * D)
     | true, false => 2 * N = (2 * m + 1) * (2 ^ k * D)
     | true, true => (2 * m + 1) * (2 ^ k * D) < 2 * N
     end.

(** The real value of a mantissa and a binary exponent. *)
Definition F2R (m e : Z) : R := (IZR m * powerRZ 2 e)%R.

(** The elements of a list in the order of their first appearance, each
    once. *)
Definition first_seen (categories : list str) : list str :=
  fold_left (fun seen c => if str_in c seen then seen else seen ++ [c]) categories [].

(** The category the scan computes for a directory entry (lines 53-75). *)
Definition entry_category (lower : str -> str) (p : dir_entry) : str :=
  categorize lower (lower (p_suffix p)) (p_name p).

(** The files of a listing grouped by category: the categories in the
    order in which the listing first shows them, and under each one the
    records of its files in the order of the listing. *)
Definition group_by_category (lower : str -> str) (entries : list dir_entry)
  : dict (list doc_info) :=
  let files := filter (fun p => is_file (p_node p)) entries in
  map (fun c =>
         (c, map (record_of lower)
               (filter (fun p => str_eqb (entry_category lower p) c) files)))
      (first_seen (map (entry_category lower) files)).

(** Whether [test-docs] exists and holds an entry [Path.is_file()]
    accepts. *)
Definition has_file (listing : option (list dir_entry)) : bool :=
  match listing with
  | None => false
  | Some entries => existsb (fun p => is_file (p_node p)) entries
  end.

(** [r['category']], [r['file_size']] *)
Definition result_category (r : outcome) : str :=
  match r with success_info _ c _ _ _ _ _ _ => c | error_info _ c _ _ _ _ => c end.

Definition result_file_size (r : outcome) : Z :=
  match r with success_info _ _ sz _ _ _ _ _ => sz | error_info _ _ sz _ _ _ => sz end.

(** [all_results[category]] when the key is present, no result when it is
    not: what the guarded loops of lines 293-296 and 308-312 go through. *)
Definition results_of (all_results : dict (list outcome)) (category : str)
  : list outcome :=
  match dict_get category all_results with
  | Some results => results
  | None => []
  end.

(** The results of the four OCR categories. *)
Definition ocr_results (all_results : dict (list outcome)) : list outcome :=
  flat_map (results_of all_results) ocr_categories.

(** [sum(...)] of a list of integers. *)
Definition zsum (l : list Z) : Z := fold_right Z.add 0 l.

(** The outcome [r] is the one of the document [doc] tested under
    [category]: it carries the name and the size of the document and the
    category. *)
Definition mirrors (category : str) (doc : doc_info) (r : outcome) : Prop :=
  file_name r = name doc /\ result_category r = category
  /\ result_file_size r = size doc.

(** Two directory entries with the same path, name and suffix. *)
Definition same_names (p q : dir_entry) : Prop :=
  p_str p = p_str q /\ p_name p = p_name q /\ p_suffix p = p_suffix q.

(** The results of a category after some of its failures have become
    successes: the same category, as many results, at least as many
    successes. *)
Definition no_worse (before after : str * list outcome) : Prop :=
  fst after = fst before
  /\ len_results (snd after) = len_results (snd before)
  /\ count_successful (snd before) <= count_successful (snd after).

(** The line of the assessment for one critical category (lines 294-301):
    none when the category is absent, else the category and whether it is
    ready. *)
Definition critical_line (all_results : dict (list outcome)) (category : str)
  : list (str * bool) :=
  match dict_get category all_results with
  | Some results => [(category, negb (count_successful results =? 0))]
  | None => []
  end.

(* ================================================================== *)
(** ** [test_docling_import] and the program *)

(** What the statements of lines 20-31 do in the interpreter at hand:
    [import docling], the access to [docling.__version__], and the two
    [from ... import ...]. *)
Record import_env := {
  import_docling : pyresult unit;
  docling_version_attr : pyresult str;
  import_DocumentConverter : pyresult unit;
  import_InputFormat : pyresult unit
}.

(** The lines [test_docling_import] prints after its heading. *)
Inductive import_message : Type :=
| MsgImported
| MsgVersion (v : str)
| MsgVersionUnavailable
| MsgConverterImported
| MsgInputFormatImported
| MsgImportFailed (e : str).

Section DoclingImport.

(** [isinstance(e, ImportError)] and [isinstance(e, AttributeError)]. *)
Variable is_ImportError : exn -> bool.
Variable is_AttributeError : exn -> bool.

(** The handler of lines 35-38, for an exception raised in the [try]. *)
Definition on_import_error (e : exn) (out : list import_message)
  : pyresult bool * list import_message :=
  if is_ImportError e then (Return false, out ++ [MsgImportFailed (exn_msg e)])
  else (Raise e, out).

(** Lines 23-26: the inner [try], which handles [AttributeError] only. *)
Definition version_line (env : import_env) : pyresult import_message :=
  match docling_version_attr env with
  | Return v => Return (MsgVersion v)
  | Raise e => if is_AttributeError e then Return MsgVersionUnavailable else Raise e
  end.

Definition test_docling_import (env : import_env)
  : pyresult bool * list import_message :=
  match import_docling env with
  | Raise e => on_import_error e []
  | Return _ =>
      let out := [MsgImported] in
      match version_line env with
      | Raise e => on_import_error e out
      | Return line =>
          let out := out ++ [line] in
          match import_DocumentConverter env with
          | Raise e => on_import_error e out
          | Return _ =>
              let out := out ++ [MsgConverterImported] in
              match import_InputFormat env with
              | Raise e => on_import_error e out
              | Return _ => (Return true, out ++ [MsgInputFormatImported])
              end
          end
      end
  end.

(** Lines 369-373: the version stored in the report, [None] when the
    import or the attribute fails in any way. *)
Definition stored_version (env : import_env) : option str :=
  match import_docling env, docling_version_attr env with
  | Return _, Return v => Some v
  | _, _ => None
  end.

Variable lower : str -> str.
Variable World : Type.
Variable convert_document : str -> World -> pyresult (str * str) * World.
Variable now_isoformat : World -> str * World.
Variable subprocess_run : list str -> Z -> World -> run_outcome * World.
Variable sys_executable : str.
Variable json_dump : report_data -> str.

(** The program: [main] with its import check (lines 387-389). *)
Definition kmrl_main (env : import_env) (listing : option (list dir_entry))
  : M World run_end :=
  fun st =>
    match fst (test_docling_import env) with
    | Return docling_installed =>
        main lower convert_document now_isoformat subprocess_run sys_executable
             json_dump (stored_version env) docling_installed listing st
    | Raise e => (Raise e, st)
    end.

End DoclingImport.

(* ================================================================== *)
(** ** The program with its prints

    The functions above take every [print] of the source to succeed and to
    leave no trace.  Here each [print] is a step of its own, which the
    standard output may refuse by raising (a text it cannot encode, a
    closed pipe); the functions are those of the source, statement by
    statement, under the names of the source in the module [Printing]. *)

(** A [print] of the source: the line of the source it stands on and the
    values its text interpolates, in the order of the text (an [int] as
    itself, a rate as the text its format [.1f] gives, a list of names as
    its members; [category.upper()] and
    [category.replace('_', ' ').title()] as the category). *)
Record line := { at_line : Z; shown : list pyval }.

Definition say (n : Z) (vs : list pyval) : line := {| at_line := n; shown := vs |}.

(** [test-docs] as [exists()] and [iterdir()] find it: no such path; a
    path that exists and that [iterdir()] cannot list (a regular file, a
    directory without read permission), raising [e]; or a directory with
    its entries, each with the kind and the size that [is_file()] and
    [stat()] report. *)
Inductive directory : Type :=
| Missing
| Unlistable (e : exn)
| Listed (entries : list dir_entry).

Module Printing.
Section Program.

Variable lower : str -> str.
Variable World : Type.
Variable convert_document : str -> World -> pyresult (str * str) * World.
Variable now_isoformat : World -> str * World.
Variable subprocess_run : list str -> Z -> World -> run_outcome * World.
Variable sys_executable : str.
Variable json_dump : report_data -> str.

(** [print(text)] on [sys.stdout]: it returns, or raises an [Exception]
    (never a [subprocess.TimeoutExpired]). *)
Variable stdout_print : line -> World -> pyresult unit * World.

(** [isinstance(e, ImportError)] and [isinstance(e, AttributeError)]. *)
Variable is_ImportError : exn -> bool.
Variable is_AttributeError : exn -> bool.

Notation "x <- m ;; k" := (bind m (fun x => k))
  (at level 61, m at next level, right associativity).

Definition print (l : line) : M World unit :=
  fun st =>
    let (r, w) := stdout_print l (world st) in
    (r, {| world := w; converted := converted st; invoked := invoked st;
           printed := printed st; disk := disk st |}).

(** [try: body except <caught> as e: handler]. *)
Definition try_except (A : Type) (caught : exn -> bool) (body : M World A)
    (handler : exn -> M World A) : M World A :=
  fun st =>
    match body st with
    | (Return a, st') => (Return a, st')
    | (Raise e, st') => if caught e then handler e st' else (Raise e, st')
    end.

(** [isinstance(e, Exception)]: every exception met here. *)
Definition is_Exception (e : exn) : bool := true.

(** *** [test_docling_import] *)

Definition test_docling_import (env : import_env) : M World bool :=
  _ <- print (say 16 []) ;;
  _ <- print (say 17 []) ;;
  try_except is_ImportError
    (_ <- lift (import_docling env) ;;
     _ <- print (say 21 []) ;;
     _ <- try_except is_AttributeError
            (v <- lift (docling_version_attr env) ;;
             print (say 24 [VStr v]))
            (fun _ => print (say 26 [])) ;;
     _ <- lift (import_DocumentConverter env) ;;
     _ <- print (say 29 []) ;;
     _ <- lift (import_InputFormat env) ;;
     _ <- print (say 32 []) ;;
     ret true)
    (fun e =>
       _ <- print (say 36 [VStr (exn_msg e)]) ;;
       _ <- print (say 37 []) ;;
       ret false).

(** *** [get_test_documents] *)

Definition get_test_documents (dir : directory) : M World (dict (list doc_info)) :=
  match dir with
  | Missing =>
      _ <- print (say 45 []) ;;
      ret []
  | Unlistable e => lift (Raise e)
  | Listed entries => ret (fold_left (scan_entry lower) entries [])
  end.

(** *** [test_document_conversion] *)

(** Lines 97-105 as one call of the converter, on record in [converted]. *)
Definition convert (file_path : str) : M World (str * str) :=
  fun st =>
    let (r, w) := convert_document file_path (world st) in
    (r, {| world := w; converted := converted st ++ [file_path];
           invoked := invoked st; printed := printed st; disk := disk st |}).

(** [datetime.now().isoformat()] *)
Definition now : M World str :=
  fun st =>
    let (ts, w) := now_isoformat (world st) in
    (Return ts, {| world := w; converted := converted st; invoked := invoked st;
                   printed := printed st; disk := disk st |}).

Definition test_document_conversion (file_path category : str) (doc : doc_info)
  : M World outcome :=
  _ <- print (say 91 [VStr (name doc)]) ;;
  _ <- print (say 92 [VStr category]) ;;
  _ <- print (say 93 [VInt (size doc)]) ;;
  _ <- print (say 94 [VStr (extension doc)]) ;;
  try_except is_Exception
    (contents <- convert file_path ;;
     let (markdown_content, text_content) := contents in
     let has_content := len (strip text_content) >? 0 in
     let preview := preview_of text_content in
     timestamp <- now ;;
     let info :=
       success_info (name doc) category (size doc)
         (len markdown_content) (len text_content) has_content preview timestamp in
     _ <- print (say 120 []) ;;
     _ <- print (say 121 [VInt (len markdown_content)]) ;;
     _ <- print (say 122 [VInt (len text_content)]) ;;
     _ <- print (say 123 [VBool has_content]) ;;
     _ <- (if has_content then print (say 126 [VStr preview])
           else print (say 128 [])) ;;
     ret info)
    (fun e =>
       timestamp <- now ;;
       let info :=
         error_info (name doc) category (size doc) (exn_msg e) (exn_type e) timestamp in
       _ <- print (say 143 [VStr (exn_msg e)]) ;;
       _ <- print (say 144 [VStr (exn_type e)]) ;;
       ret info).

(** *** [test_category] *)

Fixpoint test_category_loop (category : str) (documents : list doc_info)
  : M World (list outcome) :=
  match documents with
  | [] => ret []
  | doc :: rest =>
      result <- test_document_conversion (path doc) category doc ;;
      results <- test_category_loop category rest ;;
      ret (result :: results)
  end.

Definition test_category (category : str) (documents : list doc_info)
  : M World (list outcome) :=
  _ <- print (say 150 [VStr category]) ;;
  _ <- print (say 151 []) ;;
  _ <- print (say 152 [VInt (len_results documents)]) ;;
  results <- test_category_loop category documents ;;
  let successful := count_successful results in
  let failed := len_results results - successful in
  _ <- print (say 164 []) ;;
  _ <- print (say 165 [VInt successful]) ;;
  _ <- print (say 166 [VInt failed]) ;;
  rate <- lift (percentage successful (len_results results)) ;;
  _ <- print (say 167 [VStr (format_1f rate)]) ;;
  ret results.

(** *** [test_cli_interface] *)

(** The handlers of lines 229-235 and 236-242. *)
Definition on_timeout (file_path : dir_entry) : M World cli_result :=
  _ <- print (say 230 [VStr (p_name file_path)]) ;;
  ret (cli_error (p_name file_path) (lit "Timeout")).

Definition on_exception (file_path : dir_entry) (e : exn) : M World cli_result :=
  _ <- print (say 237 [VStr (exn_msg e)]) ;;
  ret (cli_error (p_name file_path) (exn_msg e)).

(** Lines 209-227, once [subprocess.run] has returned. *)
Definition on_completed (file_path : dir_entry) (returncode : Z) (stdout stderr : str)
  : M World cli_result :=
  if returncode =? 0 then
    _ <- print (say 216 []) ;;
    _ <- print (say 217 [VInt (len stdout)]) ;;
    ret (cli_success (p_name file_path) (len stdout) (preview_of stdout))
  else
    _ <- print (say 226 [VStr (firstn 100 stderr)]) ;;
    ret (cli_failure (p_name file_path) stderr returncode).

(** One iteration of the loop of lines 195-242. *)
Definition cli_attempt (file_path : dir_entry) : M World cli_result :=
  fun st =>
    match print (say 199 [VStr (p_name file_path)]) st with
    | (Raise e, st1) => on_exception file_path e st1
    | (Return _, st1) =>
        let (result, w) :=
          subprocess_run (cli_argv sys_executable file_path) 30 (world st1) in
        let st2 :=
          {| world := w; converted := converted st1;
             invoked := invoked st1 ++ [(cli_argv sys_executable file_path, 30)];
             printed := printed st1; disk := disk st1 |} in
        match result with
        | Completed returncode stdout stderr =>
            try_except is_Exception
              (on_completed file_path returncode stdout stderr)
              (on_exception file_path) st2
        | TimeoutExpired => on_timeout file_path st2
        | RunError e => on_exception file_path e st2
        end
    end.

Fixpoint cli_loop (files : list dir_entry) : M World (list cli_result) :=
  match files with
  | [] => ret []
  | file_path :: rest =>
      cli_result <- cli_attempt file_path ;;
      cli_results <- cli_loop rest ;;
      ret (cli_result :: cli_results)
  end.

Definition test_cli_interface (dir : directory) : M World (list cli_result) :=
  _ <- print (say 173 []) ;;
  _ <- print (say 174 []) ;;
  match dir with
  | Missing =>
      _ <- print (say 178 []) ;;
      ret []
  | Unlistable e => lift (Raise e)
  | Listed entries =>
      let cli_test_files := select_cli_files lower entries [] in
      match cli_test_files with
      | [] =>
          _ <- print (say 190 []) ;;
          ret []
      | _ :: _ => cli_loop (firstn 3 cli_test_files)
      end
  end.

(** *** [generate_kmrl_report] *)

(** The loop of lines 267-277. *)
Fixpoint breakdown (items : list (str * list outcome))
  : M World (list breakdown_line) :=
  match items with
  | [] => ret []
  | item :: rest =>
      entry <- lift (breakdown_of item) ;;
      _ <- print (say 272 [VStr (bl_category entry); VInt (bl_successful entry);
                           VInt (bl_total entry); VStr (bl_rate entry)]) ;;
      _ <- (match bl_failed entry with
            | [] => ret tt
            | _ :: _ => print (say 277 (map VStr (bl_failed entry)))
            end) ;;
      entries <- breakdown rest ;;
      ret (entry :: entries)
  end.

(** Lines 280-284. *)
Definition cli_section (cli_results : list cli_result)
  : M World (option (Z * Z * str)) :=
  match cli_results with
  | [] => ret None
  | _ :: _ =>
      let cli_ok := Z.of_nat (List.length (filter cli_successful cli_results)) in
      _ <- print (say 282 []) ;;
      _ <- print (say 283 [VInt cli_ok; VInt (len_results cli_results)]) ;;
      rate <- lift (percentage cli_ok (len_results cli_results)) ;;
      _ <- print (say 284 [VStr (format_1f rate)]) ;;
      ret (Some (cli_ok, len_results cli_results, format_1f rate))
  end.

(** The loop of lines 293-301: the flag and the lines printed so far. *)
Fixpoint critical_loop (all_results : dict (list outcome)) (categories : list str)
    (acc : bool * list (str * bool)) : M World (bool * list (str * bool)) :=
  match categories with
  | [] => ret acc
  | category :: rest =>
      match dict_get category all_results with
      | Some results =>
          if count_successful results =? 0 then
            _ <- print (say 299 [VStr category]) ;;
            critical_loop all_results rest (false, snd acc ++ [(category, false)])
          else
            _ <- print (say 301 [VStr category]) ;;
            critical_loop all_results rest (fst acc, snd acc ++ [(category, true)])
      | None => critical_loop all_results rest acc
      end
  end.

(** Lines 314-320. *)
Definition ocr_section (ocr_success ocr_total : Z)
  : M World (option (Z * Z * str * bool)) :=
  if ocr_total >? 0 then
    ocr_rate <- lift (percentage ocr_success ocr_total) ;;
    _ <- print (say 316 [VInt ocr_success; VInt ocr_total; VStr (format_1f ocr_rate)]) ;;
    _ <- (if (float_of_int 50 <=? ocr_rate)%float then print (say 318 [])
          else print (say 320 [])) ;;
    ret (Some (ocr_success, ocr_total, format_1f ocr_rate,
               (float_of_int 50 <=? ocr_rate)%float))
  else ret None.

(** Lines 323-330. *)
Definition engineering_section (all_results : dict (list outcome))
  : M World (option (Z * Z * bool)) :=
  match dict_get (lit "engineering_drawing") all_results with
  | Some eng_results =>
      let eng_successful := count_successful eng_results in
      _ <- print (say 326 [VInt eng_successful; VInt (len_results eng_results)]) ;;
      _ <- (if eng_successful >? 0 then print (say 328 []) else print (say 330 [])) ;;
      ret (Some (eng_successful, len_results eng_results, eng_successful >? 0))
  | None => ret None
  end.

(** Lines 333-347. *)
Definition recommendation (ready : bool) : M World unit :=
  _ <- print (say 333 []) ;;
  if ready then
    _ <- print (say 335 []) ;;
    _ <- print (say 336 []) ;;
    _ <- print (say 337 []) ;;
    _ <- print (say 338 []) ;;
    _ <- print (say 339 []) ;;
    print (say 340 [])
  else
    _ <- print (say 342 []) ;;
    _ <- print (say 343 []) ;;
    _ <- print (say 344 []) ;;
    _ <- print (say 345 []) ;;
    _ <- print (say 346 []) ;;
    print (say 347 []).

(** The function prints its report; its value here is the report it has
    printed. *)
Definition generate_kmrl_report (all_results : dict (list outcome))
    (cli_results : list cli_result) : M World kmrl_report :=
  _ <- print (say 248 []) ;;
  _ <- print (say 249 []) ;;
  let total_documents := sum_len all_results in
  let total_successful := sum_successful all_results in
  let total_failed := total_documents - total_successful in
  _ <- print (say 259 []) ;;
  _ <- print (say 260 [VInt total_documents]) ;;
  _ <- print (say 261 [VInt total_successful]) ;;
  _ <- print (say 262 [VInt total_failed]) ;;
  overall <- lift (percentage total_successful total_documents) ;;
  _ <- print (say 263 [VStr (format_1f overall)]) ;;
  _ <- print (say 266 []) ;;
  entries <- breakdown all_results ;;
  cli <- cli_section cli_results ;;
  _ <- print (say 287 []) ;;
  critical <- critical_loop all_results critical_categories (true, []) ;;
  let (ocr_success, ocr_total) :=
    fold_left (ocr_step all_results) ocr_categories (0, 0) in
  ocr <- ocr_section ocr_success ocr_total ;;
  engineering <- engineering_section all_results ;;
  let ready := fst critical && meets_threshold total_successful total_documents in
  _ <- recommendation ready ;;
  ret {| rep_total_documents := total_documents;
         rep_total_successful := total_successful;
         rep_total_failed := total_failed;
         rep_overall_rate := format_1f overall;
         rep_breakdown := entries;
         rep_cli := cli;
         rep_critical := snd critical;
         rep_ocr := ocr;
         rep_engineering := engineering;
         rep_ready := ready |}.

(** *** [save_results] *)

(** Lines 351-376 print nothing: they are [save_results] above.  Line 378
    follows them. *)
Definition save_results (docling__version__ : option str)
    (all_results : dict (list outcome)) (cli_results : list cli_result)
  : M World unit :=
  _ <- save_results now_isoformat json_dump docling__version__
         all_results cli_results ;;
  print (say 378 []).

(** *** [main] *)

Fixpoint test_categories (items : list (str * list doc_info))
    (all_results : dict (list outcome)) : M World (dict (list outcome)) :=
  match items with
  | [] => ret all_results
  | (category, docs) :: rest =>
      results <- test_category category docs ;;
      test_categories rest (dict_set category results all_results)
  end.

Definition main (env : import_env) (dir : directory) : M World run_end :=
  _ <- print (say 382 []) ;;
  _ <- print (say 383 []) ;;
  _ <- print (say 384 []) ;;
  docling_installed <- test_docling_import env ;;
  if negb docling_installed then
    _ <- print (say 388 []) ;;
    ret NoDocling
  else
    documents <- get_test_documents dir ;;
    match documents with
    | [] =>
        _ <- print (say 395 []) ;;
        ret NoDocuments
    | _ :: _ =>
        _ <- print (say 398 [VInt (sum_len documents)]) ;;
        _ <- print (say 399 (map VStr (dict_keys documents))) ;;
        all_results <- test_categories documents [] ;;
        cli_results <- test_cli_interface dir ;;
        report <- generate_kmrl_report all_results cli_results ;;
        _ <- print_report report ;;
        _ <- save_results (stored_version env) all_results cli_results ;;
        _ <- print (say 416 []) ;;
        _ <- print (say 417 []) ;;
        ret (Complete all_results cli_results)
    end.

End Program.
End Printing.

(** The listing the functions above take, for a directory that can be
    listed. *)
Definition listing_of (dir : directory) : option (list dir_entry) :=
  match dir with
  | Listed entries => Some entries
  | _ => None
  end.

Definition listable (dir : directory) : bool :=
  match dir with Unlistable _ => false | _ => true end.

(** The standard output takes the line [l], whatever came before, and the
    rest of the world does not see it; it refuses the line [l] with the
    exception [e]. *)
Definition accepts (World : Type) (stdout_print : line -> World -> pyresult unit * World)
    (l : line) : Prop :=
  forall w, stdout_print l w = (Return tt, w).

Definition refuses (World : Type) (stdout_print : line -> World -> pyresult unit * World)
    (l : line) (e : exn) : Prop :=
  forall w, stdout_print l w = (Raise e, w).

(** A step that converts nothing, starts no subprocess, prints no report
    and writes nothing. *)
Definition untouched (World : Type) (st st' : state World) : Prop :=
  converted st' = converted st /\ same_outside st st'.

(** A run that stopped before the tests: it did nothing of the above and
    did not complete. *)
Definition stopped_early (World : Type) (st : state World)
    (r : pyresult run_end * state World) : Prop :=
  untouched st (snd r)
  /\ forall all_results cli_results, fst r <> Return (Complete all_results cli_results).

(* ================================================================== *)
(** ** A worked run

    A directory, a converter, a clock, a subprocess runner and an encoder to
    run the model on: the scenario of the specification ([report.docx],
    [data.csv], [scan_invoice.png], [drawing.dwg], the converter failing on
    the drawing with "unsupported format"), with a sub-directory added. *)

Definition entry (file_name suffix : string) (n : node) (sz : Z) : dir_entry :=
  {| p_str := lit "test-docs/" ++ lit file_name; p_name := lit file_name;
     p_suffix := lit suffix; p_node := n; p_size := sz |}.

Definition sample_directory : list dir_entry :=
  [ entry "report.docx" ".docx" NRegular 2048;
    entry "data.csv" ".csv" NRegular 96;
    entry "archive" "" NDirectory 4096;
    entry "scan_invoice.png" ".png" NRegular 51200;
    entry "drawing.dwg" ".dwg" NRegular 7000 ].

(** A directory whose only entry is a symbolic link to a regular file. *)
Definition linked_directory : list dir_entry :=
  [ entry "notes.docx" ".docx" (NSymlink NRegular) 512 ].

(** The world of the worked run: the number of subprocesses started. *)
Definition sample_world : Type := nat.

Definition sample_convert (file_path : str) (w : sample_world)
  : pyresult (str * str) * sample_world :=
  if contains (lit ".dwg") file_path then
    (Raise {| exn_type := lit "ConversionError"; exn_msg := lit "unsupported format" |}, w)
  else (Return (lit "# Title" ++ [10%N] ++ file_path, lit "Title " ++ file_path), w).

Definition sample_now (w : sample_world) : str * sample_world :=
  (lit "2025-01-01T09:00:00", w).

(** The first subprocess exceeds the timeout, the later ones succeed. *)
Definition sample_run (argv : list str) (timeout : Z) (w : sample_world)
  : run_outcome * sample_world :=
  match w with
  | O => (TimeoutExpired, S w)
  | S _ => (Completed 0 (lit "converted") [], S w)
  end.

(** A stand-in for the JSON encoder. *)
Definition sample_dump (data : report_data) : str :=
  lit "{total_documents: " ++ str_of_Z (total_documents data) ++ lit "}".

Definition sample_state (d : storage) : state sample_world :=
  {| world := O; converted := []; invoked := []; printed := None; disk := d |}.

Definition sample_main (listing : option (list dir_entry)) (d : storage)
  : pyresult run_end * state sample_world :=
  main ascii_lower sample_convert sample_now sample_run (lit "python3")
       sample_dump None true listing (sample_state d).

(** A disk with room for everything, and one that accepts five more
    characters and already holds an earlier report. *)
Definition roomy_disk : storage :=
  {| report_file := None; openable := true; capacity := None |}.

Definition full_disk : storage :=
  {| report_file := Some (lit "{total_documents: 9}"); openable := true;
     capacity := Some 5%nat |}.

(** Three results of which two succeeded. *)
Definition two_of_three : list outcome :=
  [ success_info (lit "a.docx") (lit "word_document") 10 5 4 true (lit "text") (lit "t0");
    success_info (lit "b.docx") (lit "word_document") 10 5 4 true (lit "text") (lit "t1");
    error_info (lit "c.docx") (lit "word_document") 10 (lit "corrupt") (lit "ValueError")
               (lit "t2") ].

(** The value a call returned, if it returned. *)
Definition option_map_result (A B : Type) (f : A -> B) (r : pyresult A) : option B :=
  match r with
  | Return a => Some (f a)
  | Raise _ => None
  end.

(** The readiness scenario of the specification: the three critical
    categories each with a success, one failure elsewhere (3 of 4). *)
Definition readiness_scenario : dict (list outcome) :=
  [ (lit "word_document",
     [success_info (lit "a.docx") (lit "word_document") 10 5 4 true (lit "text") (lit "t0")]);
    (lit "powerpoint_presentation",
     [success_info (lit "b.pptx") (lit "powerpoint_presentation") 10 5 4 true
                   (lit "text") (lit "t1")]);
    (lit "data_file",
     [success_info (lit "c.csv") (lit "data_file") 10 5 4 true (lit "text") (lit "t2")]);
    (lit "engineering_drawing",
     [error_info (lit "d.dwg") (lit "engineering_drawing") 10 (lit "unsupported format")
                 (lit "ConversionError") (lit "t3")]) ].

(** Two files queued for the command-line exercise. *)
Definition queued_first : dir_entry := entry "data.csv" ".csv" NRegular 96.

(** A directory called [data.csv], beside the file of that name in
    [queued_first]. *)
Definition queued_directory : dir_entry := entry "data.csv" ".csv" NDirectory 4096.

(** The readiness scenario with the drawing converted as well. *)
Definition flawless_scenario : dict (list outcome) :=
  [ (lit "word_document",
     [success_info (lit "a.docx") (lit "word_document") 10 5 4 true (lit "text") (lit "t0")]);
    (lit "powerpoint_presentation",
     [success_info (lit "b.pptx") (lit "powerpoint_presentation") 10 5 4 true
                   (lit "text") (lit "t1")]);
    (lit "data_file",
     [success_info (lit "c.csv") (lit "data_file") 10 5 4 true (lit "text") (lit "t2")]);
    (lit "engineering_drawing",
     [success_info (lit "d.dwg") (lit "engineering_drawing") 10 5 4 true
                   (lit "text") (lit "t3")]) ].

(** Two images, one read and one not, and a spreadsheet. *)
Definition ocr_scenario : dict (list outcome) :=
  [ (lit "scanned_document",
     [success_info (lit "scan_1.png") (lit "scanned_document") 10 5 4 true
                   (lit "text") (lit "t0")]);
    (lit "data_file",
     [success_info (lit "c.csv") (lit "data_file") 10 5 4 true (lit "text") (lit "t1")]);
    (lit "malayalam_ocr",
     [error_info (lit "mal_note.jpg") (lit "malayalam_ocr") 10 (lit "no text")
                 (lit "ConversionError") (lit "t2")]) ].

(** *** The worked run with its prints *)

(** A code point that UTF-8 does not encode: a surrogate, as a file name
    with a byte that is no UTF-8 holds one after [os.listdir]. *)
Definition is_surrogate (c : N) : bool := ((55296 <=? c) && (c <=? 57343))%N.

Definition encodable (v : pyval) : bool :=
  match v with
  | VStr s => forallb (fun c => negb (is_surrogate c)) s
  | _ => true
  end.

Definition UnicodeEncodeError : exn :=
  {| exn_type := lit "UnicodeEncodeError";
     exn_msg := lit "'utf-8' codec can't encode character: surrogates not allowed" |}.

(** A standard output in UTF-8: it takes a line unless a text to
    interpolate holds a surrogate. *)
Definition utf8_print (l : line) (w : sample_world) : pyresult unit * sample_world :=
  if forallb encodable (shown l) then (Return tt, w) else (Raise UnicodeEncodeError, w).

(** A converter that fails on a drawing with a message that quotes a byte
    of the file as a surrogate, and returns for the other files. *)
Definition quoting_convert (file_path : str) (w : sample_world)
  : pyresult (str * str) * sample_world :=
  if contains (lit ".dwg") file_path then
    (Raise {| exn_type := lit "ConversionError";
              exn_msg := lit "cannot decode " ++ [56575%N] |}, w)
  else (Return (lit "# Title" ++ [10%N] ++ file_path, lit "Title " ++ file_path), w).

(** A converter whose text holds a lone surrogate. *)
Definition surrogate_convert (file_path : str) (w : sample_world)
  : pyresult (str * str) * sample_world :=
  (Return (lit "data", lit "data " ++ [55296%N] ++ lit " more"), w).

(** Every import succeeds. *)
Definition sample_env : import_env :=
  {| import_docling := Return tt;
     docling_version_attr := Return (lit "2.0.0");
     import_DocumentConverter := Return tt;
     import_InputFormat := Return tt |}.

Definition named_ImportError (e : exn) : bool :=
  str_in (exn_type e) [lit "ImportError"; lit "ModuleNotFoundError"].

Definition named_AttributeError (e : exn) : bool :=
  str_eqb (exn_type e) (lit "AttributeError").

(** A drawing, then a document. *)
Definition drawing_first : list dir_entry :=
  [ entry "drawing.dwg" ".dwg" NRegular 7000;
    entry "report.docx" ".docx" NRegular 2048 ].

(** The program with its prints, on a standard output in UTF-8. *)
Definition printing_main (convert : str -> sample_world -> pyresult (str * str) * sample_world)
    (dir : directory) (d : storage) : pyresult run_end * state sample_world :=
  Printing.main ascii_lower convert sample_now sample_run (lit "python3") sample_dump
                utf8_print named_ImportError named_AttributeError sample_env dir
                (sample_state d).

(** A standard output that takes every line. *)
Definition quiet_print (l : line) (w : sample_world) : pyresult unit * sample_world :=
  (Return tt, w).

(** Two drawings. *)
Definition drawing_doc : doc_info :=
  record_of ascii_lower (entry "drawing.dwg" ".dwg" NRegular 7000).

Definition plan_doc : doc_info :=
  record_of ascii_lower (entry "plan.dwg" ".dwg" NRegular 9000).

(** A directory whose first file has a name with a byte that is no UTF-8,
    listed as the surrogate U+DCFF. *)
Definition badly_named : list dir_entry :=
  [ {| p_str := lit "test-docs/report" ++ [56575%N] ++ lit ".docx";
       p_name := lit "report" ++ [56575%N] ++ lit ".docx";
       p_suffix := lit ".docx"; p_node := NRegular; p_size := 2048 |};
    entry "data.csv" ".csv" NRegular 96 ].

(* ================================================================== *)
(** ** Proof steps *)

(** [step H] runs the first [bind] of the goal with the equation [H] of its
    first computation. *)
Ltac step H := unfold bind at 1; rewrite H.

(* ================================================================== *)
(** * Properties *)

(** ** Strings *)

Lemma str_eqb_eq (a b : str) : str_eqb a b = true <-> a = b.
Proof.
  unfold str_eqb. destruct (list_eq_dec N.eq_dec a b); split; congruence.
Qed.

Lemma str_eqb_refl (a : str) : str_eqb a a = true.
Proof. now apply str_eqb_eq. Qed.

Lemma str_eqb_neq (a b : str) : str_eqb a b = false <-> a <> b.
Proof.
  unfold str_eqb. destruct (list_eq_dec N.eq_dec a b); split; congruence.
Qed.

Lemma startswith_app (p s : str) :
  startswith p s = true <-> exists post, s = p ++ post.
Proof.
  revert s. induction p as [|a p IH]; intros s; simpl.
  - split; [intros _; now exists s | reflexivity].
  - destruct s as [|b s].
    + split; [discriminate | intros [post H]; discriminate].
    + rewrite andb_true_iff, N.eqb_eq, IH. split.
      * intros [-> [post ->]]. now exists post.
      * intros [post H]. injection H as -> ->. split; [reflexivity | now exists post].
Qed.

(** [contains] is Python's substring test. *)
Lemma contains_spec (needle hay : str) :
  contains needle hay = true <-> exists pre post, hay = pre ++ needle ++ post.
Proof.
  induction hay as [|c hay IH].
  - simpl. rewrite orb_false_r, startswith_app. split.
    + intros [post H]. now exists [], post.
    + intros [pre [post H]]. destruct pre; [now exists post | discriminate].
  - cbn [contains]. rewrite orb_true_iff, startswith_app, IH. split.
    + intros [[post H] | [pre [post H]]].
      * now exists [], post.
      * exists (c :: pre), post. now rewrite H.
    + intros [pre [post H]]. destruct pre as [|c' pre].
      * left. now exists post.
      * right. injection H as _ H. now exists pre, post.
Qed.

Lemma lstrip_nil_iff (s : str) : lstrip s = [] <-> forallb is_space s = true.
Proof.
  induction s as [|c s IH]; simpl.
  - tauto.
  - destruct (is_space c); simpl; [exact IH | split; discriminate].
Qed.

Lemma lstrip_suffix (s : str) : exists pre, s = pre ++ lstrip s /\ forallb is_space pre = true.
Proof.
  induction s as [|c s [pre [H1 H2]]]; simpl.
  - now exists [].
  - destruct (is_space c) eqn:E.
    + exists (c :: pre). simpl. rewrite E, H2. split; [now f_equal | reflexivity].
    + now exists [].
Qed.

(** The trimmed text is empty exactly when every character is whitespace. *)
Lemma strip_nil_iff (s : str) : strip s = [] <-> forallb is_space s = true.
Proof.
  unfold strip, rstrip.
  destruct (lstrip_suffix s) as [pre [Hs Hpre]].
  split.
  - intros H.
    assert (H' : lstrip (rev (lstrip s)) = []).
    { destruct (lstrip (rev (lstrip s))) as [|x l]; [reflexivity|].
      simpl in H. now destruct (rev l). }
    apply lstrip_nil_iff in H'. rewrite forallb_forall in H'.
    rewrite Hs, forallb_app, Hpre. simpl.
    apply forallb_forall. intros x Hx. apply H'. now apply in_rev in Hx.
  - intros H. apply lstrip_nil_iff in H. now rewrite H.
Qed.

Lemma preview_of_length (s : str) : len (preview_of s) <= 203.
Proof.
  unfold preview_of, len. destruct (Z.gtb_spec (Z.of_nat (List.length s)) 200).
  - rewrite length_app, length_firstn.
    change (List.length (lit "...")) with 3%nat. lia.
  - lia.
Qed.

(** ** Dictionaries *)

Section DictFacts.
Variable V : Type.
Implicit Types (d : dict V) (k : str) (v : V).

Lemma dict_mem_true k d : dict_mem k d = true <-> In k (dict_keys d).
Proof.
  unfold dict_mem. induction d as [|[k' v'] d IH]; simpl.
  - split; [discriminate | tauto].
  - destruct (str_eqb k k') eqn:E.
    + apply str_eqb_eq in E. subst. tauto.
    + apply str_eqb_neq in E. rewrite IH. split; [tauto | intros [H|H]; congruence].
Qed.

Lemma dict_mem_false k d : dict_mem k d = false <-> ~ In k (dict_keys d).
Proof.
  rewrite <- dict_mem_true. destruct (dict_mem k d); split; congruence.
Qed.

Lemma dict_get_in k v d : dict_get k d = Some v -> In (k, v) d.
Proof.
  induction d as [|[k' v'] d IH]; simpl; [discriminate|].
  destruct (str_eqb k k') eqn:E.
  - apply str_eqb_eq in E. intros [= ->]. subst. now left.
  - intros H. right. now apply IH.
Qed.

Lemma in_dict_get k v d : NoDup (dict_keys d) -> In (k, v) d -> dict_get k d = Some v.
Proof.
  induction d as [|[k' v'] d IH]; simpl; [tauto|].
  intros Hnd [H|H].
  - injection H as -> ->. now rewrite str_eqb_refl.
  - inversion Hnd as [|? ? Hk Hnd']; subst.
    destruct (str_eqb k k') eqn:E.
    + apply str_eqb_eq in E. subst. exfalso. apply Hk.
      change k' with (fst (k', v)). now apply in_map.
    + now apply IH.
Qed.

Lemma dict_set_fresh k v d : dict_mem k d = false -> dict_set k v d = d ++ [(k, v)].
Proof.
  unfold dict_mem. induction d as [|[k' v'] d IH]; simpl; [reflexivity|].
  destruct (str_eqb k k'); [discriminate|]. intros H. now rewrite IH.
Qed.

Lemma dict_get_set_same k v d : dict_get k (dict_set k v d) = Some v.
Proof.
  induction d as [|[k' v'] d IH]; simpl.
  - now rewrite str_eqb_refl.
  - destruct (str_eqb k k') eqn:E; simpl; now rewrite E.
Qed.

Lemma dict_keys_set k v d :
  dict_keys (dict_set k v d) = if dict_mem k d then dict_keys d else dict_keys d ++ [k].
Proof.
  unfold dict_mem. induction d as [|[k' v'] d IH]; simpl; [reflexivity|].
  destruct (str_eqb k k'); simpl; [reflexivity|].
  rewrite IH. now destruct (dict_get k d).
Qed.
End DictFacts.

Section DictListFacts.
Variable A : Type.
Implicit Types (d : dict (list A)) (k : str) (x : A).

Lemma dict_keys_append k x d : dict_keys (dict_append k x d) = dict_keys d.
Proof.
  induction d as [|[k' l] d IH]; simpl; [reflexivity|].
  destruct (str_eqb k k'); simpl; [reflexivity | now rewrite IH].
Qed.

Lemma dict_append_last k x l d :
  dict_mem k d = false -> dict_append k x (d ++ [(k, l)]) = d ++ [(k, l ++ [x])].
Proof.
  unfold dict_mem. induction d as [|[k' l'] d IH]; simpl.
  - now rewrite str_eqb_refl.
  - destruct (str_eqb k k'); [discriminate|]. intros H. now rewrite IH.
Qed.

(** After [d[k].append(x)] on a present key, the lists of [d] hold one
    more element, [x]. *)
Lemma dict_append_perm k x d :
  dict_mem k d = true ->
  Permutation (List.concat (dict_values (dict_append k x d)))
                          (List.concat (dict_values d) ++ [x]).
Proof.
  unfold dict_mem. induction d as [|[k' l] d IH]; simpl; [discriminate|].
  destruct (str_eqb k k') eqn:E; simpl.
  - intros _. rewrite <- !app_assoc.
    apply Permutation_app_head, Permutation_app_comm.
  - intros H. rewrite <- app_assoc.
    apply Permutation_app_head, IH, H.
Qed.

Lemma dict_append_Forall (P : str -> list A -> Prop) k x d :
  (forall l, P k l -> P k (l ++ [x])) ->
  Forall (fun kv => P (fst kv) (snd kv)) d ->
  Forall (fun kv => P (fst kv) (snd kv)) (dict_append k x d).
Proof.
  intros HP. induction 1 as [|[k' l] d Hkl Hd IH]; simpl; [constructor|].
  destruct (str_eqb k k') eqn:E.
  - apply str_eqb_eq in E. subst. constructor; [now apply HP | assumption].
  - now constructor.
Qed.

Lemma sum_len_concat d : sum_len d = Z.of_nat (List.length (List.concat (dict_values d))).
Proof.
  unfold sum_len. induction (dict_values d) as [|l ls IH]; simpl; [reflexivity|].
  rewrite IH, length_app. lia.
Qed.
End DictListFacts.

(** ** The classifier *)

Lemma categorize_by_rules (lower : str -> str) (file_ext file_name : str) :
  categorize lower file_ext file_name = classify_by_rules (lower file_name) file_ext.
Proof.
  unfold categorize, classify_by_rules, classifier_rules, first_match, is_image_ext.
  destruct (str_in file_ext [lit ".jpg"; lit ".jpeg"; lit ".png"]) eqn:Himg; simpl.
  - destruct (contains (lit "mal") (lower file_name)); [reflexivity|].
    destruct (contains (lit "handwrite") (lower file_name)
              || contains (lit "handwritten") (lower file_name)); [reflexivity|].
    destruct (contains (lit "scan") (lower file_name)); reflexivity.
  - reflexivity.
Qed.

Lemma categorize_in_all (lower : str -> str) (file_ext file_name : str) :
  In (categorize lower file_ext file_name) all_categories.
Proof.
  unfold categorize, all_categories.
  repeat match goal with
         | |- context [if ?b then _ else _] => destruct b
         end; simpl; tauto.
Qed.

(** ** The directory scan *)

Section ScanFacts.
Variable lower : str -> str.

Local Abbreviation category_of p :=
  (categorize lower (lower (p_suffix p)) (p_name p)).

Local Abbreviation entry_is_file := (fun p : dir_entry => is_file (p_node p)).

Lemma scan_entry_cases (documents : dict (list doc_info)) (p : dir_entry) :
  scan_entry lower documents p =
    if entry_is_file p then
      if dict_mem (category_of p) documents
      then dict_append (category_of p) (record_of lower p) documents
      else documents ++ [(category_of p, [record_of lower p])]
    else documents.
Proof.
  unfold scan_entry, record_of. cbv beta.
  destruct (is_file (p_node p)); [|reflexivity].
  destruct (dict_mem _ documents) eqn:E; simpl; [reflexivity|].
  rewrite dict_set_fresh by assumption.
  now rewrite dict_append_last.
Qed.

Lemma well_grouped_scan_entry documents p :
  well_grouped lower documents -> well_grouped lower (scan_entry lower documents p).
Proof.
  intros [Hnd Hall]. rewrite scan_entry_cases.
  destruct (entry_is_file p); [|now split].
  destruct (dict_mem (category_of p) documents) eqn:E; split.
  - now rewrite dict_keys_append.
  - apply (dict_append_Forall
             (fun k l => l <> []
                         /\ Forall (fun doc =>
                                      categorize lower (extension doc) (name doc) = k) l));
      [|exact Hall].
    intros l [Hne Hl]. split.
    + now destruct l.
    + apply Forall_app. split; [exact Hl|]. now constructor.
  - unfold dict_keys. rewrite map_app. simpl.
    apply NoDup_incl_NoDup with (l := category_of p :: dict_keys documents).
    + constructor; [now apply dict_mem_false | exact Hnd].
    + rewrite length_app. simpl. unfold dict_keys. rewrite length_map. lia.
    + intros k Hk. apply in_or_app. simpl in *. tauto.
  - apply Forall_app. split; [exact Hall|].
    constructor; [|constructor]. simpl. split; [discriminate|].
    now constructor.
Qed.

Lemma well_grouped_fold entries documents :
  well_grouped lower documents ->
  well_grouped lower (fold_left (scan_entry lower) entries documents).
Proof.
  revert documents. induction entries as [|p entries IH]; intros documents H; simpl.
  - exact H.
  - now apply IH, well_grouped_scan_entry.
Qed.

Lemma well_grouped_scan listing : well_grouped lower (get_test_documents lower listing).
Proof.
  destruct listing as [entries|]; simpl.
  - apply well_grouped_fold. split; constructor.
  - split; constructor.
Qed.

Lemma scan_entry_perm documents p :
  Permutation (List.concat (dict_values (scan_entry lower documents p)))
              (List.concat (dict_values documents)
               ++ map (record_of lower) (filter entry_is_file [p])).
Proof.
  rewrite scan_entry_cases. simpl. destruct (entry_is_file p); simpl.
  - destruct (dict_mem (category_of p) documents) eqn:E.
    + now apply dict_append_perm.
    + unfold dict_values. rewrite map_app, concat_app. simpl. reflexivity.
  - now rewrite app_nil_r.
Qed.

Lemma scan_fold_perm entries documents :
  Permutation (List.concat (dict_values (fold_left (scan_entry lower) entries documents)))
              (List.concat (dict_values documents)
               ++ map (record_of lower) (filter entry_is_file entries)).
Proof.
  revert documents. induction entries as [|p entries IH]; intros documents.
  - simpl. now rewrite app_nil_r.
  - cbn [fold_left]. rewrite IH, scan_entry_perm.
    change (p :: entries) with ([p] ++ entries).
    rewrite filter_app, map_app, app_assoc. reflexivity.
Qed.

(** The records of the grouping are the records of the entries that
    [is_file] accepts, each once. *)
Lemma scan_records entries :
  Permutation (List.concat (dict_values (get_test_documents lower (Some entries))))
              (map (record_of lower) (filter entry_is_file entries)).
Proof. apply (scan_fold_perm entries []). Qed.

Lemma scan_count entries :
  sum_len (get_test_documents lower (Some entries))
  = Z.of_nat (List.length (filter entry_is_file entries)).
Proof.
  rewrite sum_len_concat, (Permutation_length (scan_records entries)).
  now rewrite length_map.
Qed.

Lemma scan_group_nonempty listing category docs :
  dict_get category (get_test_documents lower listing) = Some docs -> docs <> [].
Proof.
  intros H. apply dict_get_in in H.
  destruct (well_grouped_scan listing) as [_ Hall].
  rewrite Forall_forall in Hall. now apply (Hall _ H).
Qed.

End ScanFacts.

(** ** Percentages *)

Lemma percentage_returns (a b : Z) :
  b <> 0 -> percentage a b = Return (float_of_int a / float_of_int b * float_of_int 100)%float.
Proof.
  intros Hb. unfold percentage, truediv.
  destruct (Z.eqb_spec b 0); [contradiction | reflexivity].
Qed.

Lemma percentage_zero (a : Z) : percentage a 0 = Raise ZeroDivisionError.
Proof. reflexivity. Qed.

Lemma len_results_zero (A : Type) (l : list A) : len_results l = 0 <-> l = [].
Proof.
  unfold len_results. destruct l; simpl; split; try reflexivity; try discriminate; lia.
Qed.

(** ** Conversion of one file and of one category *)

Section ConversionFacts.
Variable World : Type.
Variable convert_document : str -> World -> pyresult (str * str) * World.
Variable now_isoformat : World -> str * World.

Local Abbreviation convert_one := (test_document_conversion convert_document now_isoformat).
Local Abbreviation convert_each := (test_category_loop convert_document now_isoformat).
Local Abbreviation convert_category := (test_category convert_document now_isoformat).

Lemma convert_one_spec file_path category doc st :
  exists ts st',
    convert_one file_path category doc st
    = (Return (outcome_for category doc (fst (convert_document file_path (world st))) ts),
       st')
    /\ converted st' = converted st ++ [file_path]
    /\ same_outside st st'.
Proof.
  unfold test_document_conversion.
  destruct (convert_document file_path (world st)) as [r w1].
  destruct (now_isoformat w1) as [ts w2].
  exists ts. simpl fst.
  destruct r as [[md txt]|e];
    (eexists; split; [reflexivity | split; [reflexivity | repeat split]]).
Qed.

Lemma file_name_outcome_for category doc r ts :
  file_name (outcome_for category doc r ts) = name doc.
Proof. destruct r as [[md txt]|e]; reflexivity. Qed.

Lemma convert_each_spec category docs st :
  exists results st',
    convert_each category docs st = (Return results, st')
    /\ map file_name results = map name docs
    /\ converted st' = converted st ++ map path docs
    /\ same_outside st st'.
Proof.
  revert st. induction docs as [|doc docs IH]; intros st.
  - exists [], st. simpl. rewrite app_nil_r. repeat split.
  - destruct (convert_one_spec (path doc) category doc st)
      as [ts [st1 [H1 [Hc1 [Hi1 [Hp1 Hd1]]]]]].
    destruct (IH st1) as [results [st2 [H2 [Hn2 [Hc2 [Hi2 [Hp2 Hd2]]]]]]].
    eexists. exists st2. cbn [test_category_loop]. step H1. step H2. unfold ret.
    split; [reflexivity|]. split; [|split].
    + simpl. now rewrite file_name_outcome_for, Hn2.
    + rewrite Hc2, Hc1, <- app_assoc. reflexivity.
    + repeat split; congruence.
Qed.

Lemma convert_each_length category docs st results st' :
  convert_each category docs st = (Return results, st') ->
  List.length results = List.length docs.
Proof.
  intros H. destruct (convert_each_spec category docs st) as [rs [st2 [H2 [Hn _]]]].
  rewrite H in H2. injection H2 as -> _.
  rewrite <- (length_map file_name), Hn. apply length_map.
Qed.

(** With at least one document, the summary of [test_category] is
    computed and the results are returned. *)
Lemma convert_category_nonempty category docs st :
  docs <> [] -> convert_category category docs st = convert_each category docs st.
Proof.
  intros Hne. unfold test_category, bind.
  destruct (convert_each category docs st) as [[results|e] st'] eqn:E; [|reflexivity].
  unfold lift, category_summary. rewrite percentage_returns.
  - reflexivity.
  - rewrite len_results_zero. intros ->.
    apply convert_each_length in E. now destruct docs.
Qed.

(** With no document, the division of line 167 raises. *)
Lemma convert_category_empty category st :
  convert_category category [] st = (Raise ZeroDivisionError, st).
Proof. reflexivity. Qed.

End ConversionFacts.

(** ** The command-line exercise *)

Section CliFacts.
Variable lower : str -> str.
Variable World : Type.
Variable subprocess_run : list str -> Z -> World -> run_outcome * World.
Variable sys_executable : str.

Local Abbreviation attempt := (cli_attempt subprocess_run sys_executable).
Local Abbreviation attempts := (cli_loop subprocess_run sys_executable).
Local Abbreviation argv := (cli_argv sys_executable).

Lemma select_cli_files_firstn entries acc :
  (List.length acc < 3)%nat ->
  select_cli_files lower entries acc
  = firstn 3 (acc ++ filter (cli_candidate lower) entries).
Proof.
  revert acc. induction entries as [|p entries IH]; intros acc Hacc.
  - cbn [select_cli_files filter]. rewrite app_nil_r. symmetry. apply firstn_all2. lia.
  - cbn [select_cli_files filter]. unfold cli_candidate at 1.
    destruct (str_in (lower (p_suffix p)) [lit ".txt"; lit ".csv"; lit ".md"]).
    + unfold len_results. rewrite length_app. simpl List.length.
      destruct (Z.geb_spec (Z.of_nat (List.length acc + 1)) 3) as [Hge|Hlt].
      * change (p :: filter (cli_candidate lower) entries)
          with ([p] ++ filter (cli_candidate lower) entries).
        rewrite app_assoc, firstn_app.
        assert (Hlen : List.length (acc ++ [p]) = 3%nat)
          by (rewrite length_app; simpl List.length; lia).
        rewrite Hlen, Nat.sub_diag, firstn_O, app_nil_r.
        symmetry. apply firstn_all2. lia.
      * rewrite IH by (rewrite length_app; simpl; lia).
        now rewrite <- app_assoc.
    + now apply IH.
Qed.

(** The files the exercise runs on: the first three candidates of the
    listing. *)
Lemma cli_selection entries :
  firstn 3 (select_cli_files lower entries [])
  = firstn 3 (filter (cli_candidate lower) entries).
Proof.
  rewrite select_cli_files_firstn by (simpl; lia). cbn [app].
  rewrite firstn_firstn. reflexivity.
Qed.

Lemma attempt_spec p st :
  exists st',
    attempt p st
    = (Return (cli_record_for p (fst (subprocess_run (argv p) 30 (world st)))), st')
    /\ invoked st' = invoked st ++ [(argv p, 30)]
    /\ world st' = snd (subprocess_run (argv p) 30 (world st))
    /\ converted st' = converted st /\ printed st' = printed st /\ disk st' = disk st.
Proof.
  unfold cli_attempt, cli_record_for.
  destruct (subprocess_run (argv p) 30 (world st)) as [o w]. simpl fst.
  destruct o as [rc out err| |e]; [destruct (rc =? 0)| |];
    (eexists; split; [reflexivity | repeat split]).
Qed.

Lemma cli_file_name_record p o : cli_file_name (cli_record_for p o) = p_name p.
Proof.
  destruct o as [rc out err| |e]; simpl; [destruct (rc =? 0)| |]; reflexivity.
Qed.

Lemma attempts_spec files st :
  exists results st',
    attempts files st = (Return results, st')
    /\ map cli_file_name results = map p_name files
    /\ invoked st' = invoked st ++ map (fun p => (argv p, 30)) files
    /\ converted st' = converted st /\ printed st' = printed st /\ disk st' = disk st.
Proof.
  revert st. induction files as [|p files IH]; intros st.
  - exists [], st. simpl. rewrite app_nil_r. repeat split.
  - destruct (attempt_spec p st) as [st1 [H1 [Hi1 [_ [Hc1 [Hp1 Hd1]]]]]].
    destruct (IH st1) as [results [st2 [H2 [Hn2 [Hi2 [Hc2 [Hp2 Hd2]]]]]]].
    eexists. exists st2. cbn [cli_loop]. step H1. step H2. unfold ret.
    split; [reflexivity|]. split; [|split].
    + simpl. now rewrite cli_file_name_record, Hn2.
    + rewrite Hi2, Hi1, <- app_assoc. reflexivity.
    + repeat split; congruence.
Qed.


Lemma test_cli_interface_eq entries st :
  test_cli_interface lower subprocess_run sys_executable (Some entries) st
  = attempts (firstn 3 (filter (cli_candidate lower) entries)) st.
Proof.
  unfold test_cli_interface. rewrite <- cli_selection.
  destruct (select_cli_files lower entries []); reflexivity.
Qed.

End CliFacts.

(** ** The report *)

Lemma breakdown_of_returns (item : str * list outcome) :
  breakdown_of item = Return (breakdown_line_of item).
Proof.
  destruct item as [category results]. unfold breakdown_of, breakdown_line_of.
  destruct (Z.gtb_spec (len_results results) 0) as [Hpos|Hzero].
  - rewrite percentage_returns by lia. reflexivity.
  - reflexivity.
Qed.

(** The category breakdown never raises. *)
Lemma breakdown_returns (items : list (str * list outcome)) :
  breakdown items = Return (map breakdown_line_of items).
Proof.
  induction items as [|item items IH]; simpl.
  - reflexivity.
  - now rewrite breakdown_of_returns, IH.
Qed.

Lemma critical_fold (all_results : dict (list outcome)) (cats : list str)
    (flag : bool) (lines : list (str * bool)) :
  fst (fold_left (critical_step all_results) cats (flag, lines))
  = flag && forallb (category_ready all_results) cats.
Proof.
  revert flag lines. induction cats as [|c cats IH]; intros flag lines.
  - simpl. now rewrite andb_true_r.
  - cbn [fold_left forallb].
    assert (Hstep : critical_step all_results (flag, lines) c
                    = (flag && category_ready all_results c,
                       snd (critical_step all_results (flag, lines) c))).
    { unfold critical_step, category_ready.
      destruct (dict_get c all_results) as [results|];
        [destruct (count_successful results =? 0)|];
        simpl; rewrite ?andb_false_r, ?andb_true_r; reflexivity. }
    rewrite Hstep, IH, andb_assoc. reflexivity.
Qed.

Lemma critical_ready_iff (all_results : dict (list outcome)) :
  critical_ready all_results = true
  <-> forall category results,
        In category critical_categories ->
        dict_get category all_results = Some results ->
        1 <= count_successful results.
Proof.
  unfold critical_ready. rewrite forallb_forall. split.
  - intros H category results Hin Hget. specialize (H category Hin).
    unfold category_ready in H. rewrite Hget in H.
    unfold count_successful in *.
    destruct (Z.eqb_spec (Z.of_nat (List.length (filter conversion_successful results))) 0);
      [discriminate | lia].
  - intros H category Hin. unfold category_ready.
    destruct (dict_get category all_results) as [results|] eqn:Hget; [|reflexivity].
    specialize (H category results Hin Hget).
    destruct (Z.eqb_spec (count_successful results) 0); [lia | reflexivity].
Qed.

Lemma count_successful_bounds (results : list outcome) :
  0 <= count_successful results <= len_results results.
Proof.
  unfold count_successful, len_results.
  pose proof (filter_length_le conversion_successful results). lia.
Qed.

Lemma sum_successful_bounds (all_results : dict (list outcome)) :
  0 <= sum_successful all_results <= sum_len all_results.
Proof.
  unfold sum_successful, sum_len.
  induction (dict_values all_results) as [|l ls IH]; simpl.
  - lia.
  - pose proof (count_successful_bounds l). unfold len_results in *. lia.
Qed.

(** With at least one document the report is produced, with these
    contents. *)
Lemma generate_kmrl_report_returns (all_results : dict (list outcome))
    (cli_results : list cli_result) :
  sum_len all_results <> 0 ->
  exists report,
    generate_kmrl_report all_results cli_results = Return report
    /\ rep_total_documents report = sum_len all_results
    /\ rep_total_successful report = sum_successful all_results
    /\ rep_total_failed report = sum_len all_results - sum_successful all_results
    /\ rep_breakdown report = map breakdown_line_of all_results
    /\ rep_ready report
       = critical_ready all_results
         && meets_threshold (sum_successful all_results) (sum_len all_results).
Proof.
  intros Htotal. unfold generate_kmrl_report.
  rewrite percentage_returns by assumption. cbn [rbind].
  rewrite breakdown_returns. cbn [rbind].
  assert (Hcli : exists cli,
             match cli_results with
             | [] => Return None
             | _ :: _ =>
                 rbind (percentage
                          (Z.of_nat (List.length (filter cli_successful cli_results)))
                          (len_results cli_results))
                       (fun rate =>
                          Return (Some (Z.of_nat (List.length
                                                    (filter cli_successful cli_results)),
                                        len_results cli_results, format_1f rate)))
             end = Return cli).
  { destruct cli_results as [|r rs]; [now eexists|].
    rewrite percentage_returns.
    - now eexists.
    - rewrite len_results_zero. discriminate. }
  destruct Hcli as [cli ->]. cbn [rbind].
  pose proof (critical_fold all_results critical_categories true []) as Hcrit.
  destruct (fold_left (critical_step all_results) critical_categories (true, []))
    as [critical_success critical_lines].
  simpl in Hcrit. subst critical_success.
  destruct (fold_left (ocr_step all_results) ocr_categories (0, 0))
    as [ocr_success ocr_total].
  destruct (Z.gtb_spec ocr_total 0) as [Hocr|Hocr].
  - rewrite percentage_returns by lia. cbn [rbind].
    eexists. split; [reflexivity|]. cbn. repeat split.
  - cbn [rbind]. eexists. split; [reflexivity|]. cbn. repeat split.
Qed.

(** With no document at all, the division of line 263 raises. *)
Lemma generate_kmrl_report_empty (all_results : dict (list outcome))
    (cli_results : list cli_result) :
  sum_len all_results = 0 ->
  generate_kmrl_report all_results cli_results = Raise ZeroDivisionError.
Proof.
  intros H. unfold generate_kmrl_report. rewrite H. reflexivity.
Qed.

(** ** Binary64 arithmetic

    What the float operations of the report compute, derived from the
    specification of the primitive floats ([SpecFloat]). *)

Unset Implicit Arguments.

Lemma digits2_pos_log2 (p : positive) :
  Zpos (digits2_pos p) = Z.log2 (Zpos p) + 1.
Proof.
  assert (H : forall q, digits2_pos q = Pos.size q).
  { induction q; simpl; congruence. }
  rewrite H. destruct p; simpl; lia.
Qed.

Lemma digits2_pos_bounds (p : positive) :
  2 ^ (Zpos (digits2_pos p) - 1) <= Zpos p < 2 ^ Zpos (digits2_pos p).
Proof.
  rewrite digits2_pos_log2.
  replace (Z.log2 (Zpos p) + 1 - 1) with (Z.log2 (Zpos p)) by lia.
  replace (Z.log2 (Zpos p) + 1) with (Z.succ (Z.log2 (Zpos p))) by lia.
  apply Z.log2_spec. lia.
Qed.

Lemma digits2_pos_unique (p : positive) (k : Z) :
  2 ^ (k - 1) <= Zpos p < 2 ^ k -> Zpos (digits2_pos p) = k.
Proof.
  intros H. rewrite digits2_pos_log2.
  assert (0 < k).
  { destruct (Z.ltb_spec 0 k); [assumption|].
    exfalso. destruct (Z.eq_dec k 0) as [->|]; [simpl in H; lia|].
    rewrite (Z.pow_neg_r 2 k) in H by lia. lia. }
  rewrite (Z.log2_unique (Zpos p) (k - 1)); [lia | lia |].
  replace (Z.succ (k - 1)) with k by lia. exact H.
Qed.

Lemma pos_iter_xO (m d : positive) : Zpos (Pos.iter xO m d) = Zpos m * 2 ^ Zpos d.
Proof.
  induction d using Pos.peano_ind.
  - simpl. lia.
  - rewrite Pos.iter_succ, Pos2Z.inj_succ, Z.pow_succ_r by lia.
    rewrite Pos2Z.inj_xO, IHd. lia.
Qed.

Lemma shl_align_spec (mx : positive) (ex ex' : Z) :
  ex' <= ex ->
  Zpos (fst (shl_align mx ex ex')) = Zpos mx * 2 ^ (ex - ex')
  /\ snd (shl_align mx ex ex') = ex'.
Proof.
  intros H. unfold shl_align.
  destruct (ex' - ex) as [|d|d] eqn:E; cbn [fst snd].
  - replace (ex - ex') with 0 by lia. rewrite Z.pow_0_r. lia.
  - lia.
  - rewrite pos_iter_xO. replace (ex - ex') with (Zpos d) by lia. lia.
Qed.

(** A 53-bit mantissa with an exponent in range is already rounded. *)
Lemma binary_round_aux_exact (m : positive) (e : Z) :
  2 ^ 52 <= Zpos m < 2 ^ 53 -> -1074 <= e <= 971 ->
  binary_round_aux prec emax false (Zpos m) e loc_Exact = S754_finite false m e.
Proof.
  intros Hm He.
  assert (Hd : Zpos (digits2_pos m) = 53) by (apply digits2_pos_unique; exact Hm).
  unfold binary_round_aux, shr_fexp, Zdigits2, fexp, SpecFloat.emin, prec, emax.
  rewrite Hd.
  replace (Z.max (53 + e - 53) (3 - 1024 - 53) - e) with 0 by lia.
  cbn [shr shr_record_of_loc loc_of_shr_record shr_m round_nearest_even Zdigits2].
  rewrite Hd.
  replace (Z.max (53 + e - 53) (3 - 1024 - 53) - e) with 0 by lia.
  cbn [shr shr_m].
  destruct (Z.leb_spec e (1024 - 53)); [reflexivity | lia].
Qed.

Lemma float_of_int_zero : Prim2SF (float_of_int 0) = S754_zero false.
Proof. reflexivity. Qed.

Lemma float_of_int_pos (t : Z) :
  0 < t < 2 ^ 53 ->
  exists m : positive,
    Prim2SF (float_of_int t) = S754_finite false m (Z.log2 t + 1 - 53)
    /\ Zpos m = t * 2 ^ (53 - (Z.log2 t + 1))
    /\ 2 ^ 52 <= Zpos m < 2 ^ 53.
Proof.
  intros Ht. unfold float_of_int. rewrite of_uint63_spec.
  rewrite Uint63.of_Z_spec.
  rewrite Z.mod_small by (change wB with (2 ^ 63); lia).
  destruct t as [|p|p]; try lia.
  unfold binary_normalize, binary_round.
  pose proof (digits2_pos_bounds p) as Hb.
  rewrite digits2_pos_log2 in *. set (d := Z.log2 (Zpos p) + 1) in *.
  assert (Hd : 1 <= d <= 53).
  { subst d. pose proof (Z.log2_nonneg (Zpos p)).
    assert (Z.log2 (Zpos p) < 53) by (apply Z.log2_lt_pow2; lia). lia. }
  assert (Hf : fexp prec emax (d + 0) = d - 53).
  { unfold fexp, SpecFloat.emin, prec, emax. lia. }
  rewrite Hf.
  destruct (shl_align_spec p 0 (d - 53)) as [Hm He]; [lia|].
  destruct (shl_align p 0 (d - 53)) as [mz ez]. cbn [fst snd] in Hm, He. subst ez.
  replace (0 - (d - 53)) with (53 - d) in Hm by lia.
  assert (Hmz : 2 ^ 52 <= Zpos mz < 2 ^ 53); [|exists mz; split; [|split; assumption]].
  2: { apply binary_round_aux_exact; [assumption | lia]. }
  rewrite Hm. split.
  - replace (2 ^ 52) with (2 ^ (d - 1) * 2 ^ (53 - d)).
    + apply Z.mul_le_mono_nonneg_r; [apply Z.pow_nonneg; lia | lia].
    + rewrite <- Z.pow_add_r by lia. f_equal. lia.
  - replace (2 ^ 53) with (2 ^ d * 2 ^ (53 - d)).
    + apply Z.mul_lt_mono_pos_r; [apply Z.pow_pos_nonneg; lia | lia].
    + rewrite <- Z.pow_add_r by lia. f_equal. lia.
Qed.

Lemma shr_inv_exact (m : Z) : 0 <= m -> shr_inv m 1 0 (shr_record_of_loc m loc_Exact).
Proof. intros H. unfold shr_inv. simpl. lia. Qed.

Lemma shr_inv_step (N D k : Z) (r : shr_record) :
  0 < D -> 0 <= k -> shr_inv N D k r -> shr_inv N D (k + 1) (shr_1 r).
Proof.
  intros HD Hk. unfold shr_inv. rewrite Z.pow_add_r, Z.pow_1_r by lia.
  assert (HK : 0 < 2 ^ k * D).
  { apply Z.mul_pos_pos; [apply Z.pow_pos_nonneg; lia | exact HD]. }
  replace (2 ^ k * 2 * D) with (2 * (2 ^ k * D)) by ring.
  set (K := 2 ^ k * D) in *. clearbody K.
  destruct r as [m r s]. cbn [shr_m shr_r shr_s].
  intros [Hm [Hb Hloc]].
  destruct m as [|[p|p|]|p]; try lia; cbn [shr_1 shr_m shr_r shr_s orb].
  - destruct r, s; cbn [orb]; nia.
  - change (Zpos p~1) with (2 * Zpos p + 1) in *.
    pose proof (Pos2Z.is_pos p). set (q := Zpos p) in *. clearbody q.
    destruct r, s; cbn [orb]; nia.
  - change (Zpos p~0) with (2 * Zpos p) in *.
    pose proof (Pos2Z.is_pos p). set (q := Zpos p) in *. clearbody q.
    destruct r, s; cbn [orb]; nia.
  - destruct r, s; cbn [orb]; nia.
Qed.

Lemma shr_inv_iter (N D : Z) (n : positive) :
  0 < D ->
  forall k r, 0 <= k -> shr_inv N D k r -> shr_inv N D (k + Zpos n) (SpecFloat.iter_pos shr_1 n r).
Proof.
  intros HD. induction n as [n IH|n IH|]; intros k r Hk Hr; cbn [SpecFloat.iter_pos].
  - replace (k + Zpos n~1) with (k + 1 + Zpos n + Zpos n) by lia.
    apply IH; [lia|]. apply IH; [lia|]. now apply shr_inv_step.
  - replace (k + Zpos n~0) with (k + Zpos n + Zpos n) by lia.
    apply IH; [lia|]. now apply IH.
  - now apply shr_inv_step.
Qed.

(** [shr_fexp] on a mantissa of at least 53 bits keeps 53 bits. *)
Lemma shr_fexp_spec (N D : Z) (m : positive) (l : location) (e : Z) :
  0 < D -> shr_inv N D 0 (shr_record_of_loc (Zpos m) l) ->
  53 <= Zpos (digits2_pos m) -> -1074 <= e ->
  exists r,
    shr_fexp prec emax (Zpos m) e l = (r, e + (Zpos (digits2_pos m) - 53))
    /\ shr_inv N D (Zpos (digits2_pos m) - 53) r.
Proof.
  intros HD H0 Hd He. unfold shr_fexp, Zdigits2, fexp, SpecFloat.emin, prec, emax.
  set (d := Zpos (digits2_pos m)) in *.
  replace (Z.max (d + e - 53) (3 - 1024 - 53) - e) with (d - 53) by lia.
  destruct (d - 53) as [|n|n] eqn:E; try lia.
  - exists (shr_record_of_loc (Zpos m) l). split; [|exact H0].
    cbn [shr]. f_equal. lia.
  - exists (SpecFloat.iter_pos shr_1 n (shr_record_of_loc (Zpos m) l)). split; [reflexivity|].
    apply (shr_inv_iter N D n HD 0); [lia | exact H0].
Qed.

(** Rounding to nearest, ties to even, of the value a record locates. *)
Lemma round_nearest_even_spec (N D k : Z) (r : shr_record) :
  0 < D -> 0 <= k -> shr_inv N D k r ->
  let q := round_nearest_even (shr_m r) (loc_of_shr_record r) in
  shr_m r <= q <= shr_m r + 1
  /\ 2 * N <= 2 * (q * (2 ^ k * D)) + 2 ^ k * D
  /\ 2 * (q * (2 ^ k * D)) <= 2 * N + 2 ^ k * D
  /\ (forall g, N <= g * (2 ^ k * D) -> q <= g)
  /\ (forall g, g * (2 ^ k * D) <= N -> g <= q).
Proof.
  intros HD Hk. unfold shr_inv.
  assert (HK : 0 < 2 ^ k * D).
  { apply Z.mul_pos_pos; [apply Z.pow_pos_nonneg; lia | exact HD]. }
  set (K := 2 ^ k * D) in *. clearbody K.
  destruct r as [m r s]. cbn [shr_m shr_r shr_s].
  intros [Hm [Hb Hloc]].
  destruct r, s; cbn [loc_of_shr_record round_nearest_even];
    try destruct (Z.even m);
    (split; [lia|]); (split; [nia|]); (split; [nia|]);
    (split; intros g Hg; nia).
Qed.

(** What [binary_round_aux] returns on a positive mantissa of 53 to 110
    bits that locates [N / D]: a normal float whose mantissa, scaled back,
    is [N / D] rounded to a multiple of [2^k], [k] the number of bits
    dropped. *)
Lemma binary_round_aux_spec (N D : Z) (m0 : positive) (l0 : location) (e0 : Z) :
  0 < D -> shr_inv N D 0 (shr_record_of_loc (Zpos m0) l0) ->
  53 <= Zpos (digits2_pos m0) <= 110 -> -1000 <= e0 <= 800 ->
  exists (m' : positive) (e' q : Z),
    binary_round_aux prec emax false (Zpos m0) e0 l0 = S754_finite false m' e'
    /\ 2 ^ 52 <= Zpos m' < 2 ^ 53
    /\ e0 + (Zpos (digits2_pos m0) - 53) <= e' <= e0 + (Zpos (digits2_pos m0) - 53) + 1
    /\ Zpos m' * 2 ^ (e' - e0) = q * 2 ^ (Zpos (digits2_pos m0) - 53)
    /\ 2 ^ 52 <= q <= 2 ^ 53
    /\ 2 * N <= 2 * (q * (2 ^ (Zpos (digits2_pos m0) - 53) * D))
                + 2 ^ (Zpos (digits2_pos m0) - 53) * D
    /\ 2 * (q * (2 ^ (Zpos (digits2_pos m0) - 53) * D))
       <= 2 * N + 2 ^ (Zpos (digits2_pos m0) - 53) * D
    /\ (forall g, N <= g * (2 ^ (Zpos (digits2_pos m0) - 53) * D) -> q <= g)
    /\ (forall g, g * (2 ^ (Zpos (digits2_pos m0) - 53) * D) <= N -> g <= q).
Proof.
  intros HD H0 Hd0 He.
  pose proof (digits2_pos_bounds m0) as Hd.
  set (d := Zpos (digits2_pos m0)) in *.
  destruct (shr_fexp_spec N D m0 l0 e0 HD H0) as [r1 [E1 I1]]; [fold d; lia | lia |].
  fold d in E1, I1.
  set (n1 := d - 53) in *.
  assert (Hn1 : 0 <= n1) by (subst n1; lia).
  destruct (round_nearest_even_spec N D n1 r1 HD Hn1 I1) as [Hq [R1 [R1' [R2 R2']]]].
  set (q := round_nearest_even (shr_m r1) (loc_of_shr_record r1)) in *.
  assert (HK : 0 < 2 ^ n1) by (apply Z.pow_pos_nonneg; lia).
  (* the mantissa before rounding has 53 bits *)
  assert (Hm1' : 2 ^ 52 <= shr_m r1 < 2 ^ 53).
  { destruct H0 as [_ [Hb0 _]]. cbn [shr_m] in Hb0.
    assert (Hs : shr_m (shr_record_of_loc (Zpos m0) l0) = Zpos m0)
      by (destruct l0 as [|[| |]]; reflexivity).
    rewrite Hs, Z.pow_0_r, Z.mul_1_l in Hb0.
    destruct I1 as [Hm1 [Hb1 _]].
    assert (Hlo : 2 ^ (d - 1) = 2 ^ 52 * 2 ^ n1).
    { rewrite <- Z.pow_add_r by lia. f_equal. lia. }
    assert (Hhi : 2 ^ d = 2 ^ 53 * 2 ^ n1).
    { rewrite <- Z.pow_add_r by lia. f_equal. lia. }
    rewrite Hlo, Hhi in Hd.
    set (K := 2 ^ n1) in *. clearbody K.
    set (m1 := shr_m r1) in *. clearbody m1.
    set (c52 := 2 ^ 52) in *. set (c53 := 2 ^ 53) in *.
    assert (0 < c52) by reflexivity. assert (0 < c53) by reflexivity.
    clearbody c52 c53.
    split.
    - (* m1 + 1 > c52 *)
      assert (c52 * K * D < (m1 + 1) * (K * D)) by nia.
      assert (0 < K * D) by nia. nia.
    - assert (m1 * (K * D) < c53 * K * D) by nia.
      assert (0 < K * D) by nia. nia. }
  assert (Hq' : 2 ^ 52 <= q <= 2 ^ 53) by lia.
  destruct q as [|qp|qp] eqn:Eq; try lia.
  pose proof (digits2_pos_bounds qp) as Hdq.
  set (dq := Zpos (digits2_pos qp)) in *.
  assert (Hdq1 : 52 < dq).
  { apply (Z.pow_lt_mono_r_iff 2); lia. }
  assert (Hdq2 : dq - 1 < 54).
  { apply (Z.pow_lt_mono_r_iff 2); lia. }
  destruct (shr_fexp_spec (Zpos qp) 1 qp loc_Exact (e0 + n1)) as [r2 [E2 I2]];
    [lia | apply shr_inv_exact; lia | fold dq; lia | lia |].
  fold dq in E2, I2.
  destruct I2 as [Hm2 [Hb2 _]]. rewrite Z.mul_1_r in Hb2.
  assert (Hex : shr_m r2 * 2 ^ (dq - 53) = Zpos qp /\ 2 ^ 52 <= shr_m r2 < 2 ^ 53).
  { assert (Hc : dq = 53 \/ dq = 54) by lia.
    destruct Hc as [Hc|Hc]; rewrite Hc in *.
    - change (2 ^ (53 - 53)) with 1 in *. change (2 ^ 53) with 9007199254740992 in *.
      change (2 ^ 52) with 4503599627370496 in *. lia.
    - change (2 ^ (54 - 53)) with 2 in *. change (2 ^ (54 - 1)) with 9007199254740992 in *.
      change (2 ^ 53) with 9007199254740992 in *.
      change (2 ^ 52) with 4503599627370496 in *. lia. }
  destruct Hex as [Hex Hm2'].
  unfold binary_round_aux. rewrite E1. cbv beta iota. fold q. rewrite Eq, E2.
  cbv beta iota.
  destruct (shr_m r2) as [|m2|m2] eqn:Em2; try lia.
  exists m2, (e0 + n1 + (dq - 53)), (Zpos qp).
  destruct (Z.leb_spec (e0 + n1 + (dq - 53)) (emax - prec)) as [_|Hbad];
    [|unfold emax, prec in Hbad; lia].
  split; [reflexivity|]. split; [exact Hm2'|]. split; [lia|].
  split.
  { replace (e0 + n1 + (dq - 53) - e0) with ((dq - 53) + n1) by lia.
    rewrite Z.pow_add_r by lia. rewrite Z.mul_assoc, Hex. reflexivity. }
  split; [exact Hq'|].
  repeat split; assumption.
Qed.

(** The location [SFdiv] computes from a remainder. *)
Lemma new_location_spec (d q r : Z) :
  0 < d -> 0 <= r < d -> 0 <= q ->
  shr_inv (q * d + r) d 0 (shr_record_of_loc q (new_location d r)).
Proof.
  intros Hd Hr Hq. unfold shr_inv, new_location, new_location_even, new_location_odd.
  rewrite Z.pow_0_r, Z.mul_1_l.
  destruct (Z.even d) eqn:Ev.
  - destruct (Z.eqb_spec r 0) as [->|Hr0].
    + cbn [shr_record_of_loc shr_m shr_r shr_s]. nia.
    + destruct (Z.compare_spec (2 * r) d);
        cbn [shr_record_of_loc shr_m shr_r shr_s]; nia.
  - assert (Hodd : Z.odd d = true) by (rewrite <- Z.negb_even, Ev; reflexivity).
    apply Z.odd_spec in Hodd. destruct Hodd as [h Hh].
    destruct (Z.eqb_spec r 0) as [->|Hr0].
    + cbn [shr_record_of_loc shr_m shr_r shr_s]. nia.
    + destruct (Z.compare_spec (2 * r + 1) d);
        cbn [shr_record_of_loc shr_m shr_r shr_s]; nia.
Qed.

(** The quotient of two normal positive floats. *)
Lemma SFdiv_normal (mx my : positive) (ex ey : Z) :
  2 ^ 52 <= Zpos mx < 2 ^ 53 -> 2 ^ 52 <= Zpos my < 2 ^ 53 ->
  -400 <= ex <= 400 -> -400 <= ey <= 400 ->
  exists (m' : positive) (e' q k : Z),
    SFdiv prec emax (S754_finite false mx ex) (S754_finite false my ey)
    = S754_finite false m' e'
    /\ 2 ^ 52 <= Zpos m' < 2 ^ 53
    /\ 0 <= k
    /\ Zpos m' * 2 ^ (e' - (ex - ey - 53)) = q * 2 ^ k
    /\ ex - ey - 53 <= e' <= ex - ey - 51
    /\ 2 ^ 52 <= q
    /\ 2 * (Zpos mx * 2 ^ 53) <= 2 * (q * (2 ^ k * Zpos my)) + 2 ^ k * Zpos my
    /\ 2 * (q * (2 ^ k * Zpos my)) <= 2 * (Zpos mx * 2 ^ 53) + 2 ^ k * Zpos my.
Proof.
  intros Hx Hy Hex Hey.
  assert (Hdx : Zpos (digits2_pos mx) = 53) by (apply digits2_pos_unique; exact Hx).
  assert (Hdy : Zpos (digits2_pos my) = 53) by (apply digits2_pos_unique; exact Hy).
  unfold SFdiv, SFdiv_core_binary. cbn [xorb Zdigits2]. rewrite Hdx, Hdy.
  replace (Z.min (fexp prec emax (53 + ex - (53 + ey))) (ex - ey)) with (ex - ey - 53)
    by (unfold fexp, SpecFloat.emin, prec, emax; lia).
  replace (ex - ey - (ex - ey - 53)) with 53 by lia.
  rewrite Z.shiftl_mul_pow2 by lia.
  pose proof (Z_div_mod (Zpos mx * 2 ^ 53) (Zpos my) eq_refl) as Hdiv.
  destruct (Z.div_eucl (Zpos mx * 2 ^ 53) (Zpos my)) as [q r].
  destruct Hdiv as [Hqr Hr].
  change (2 ^ 52) with 4503599627370496 in *.
  change (2 ^ 53) with 9007199254740992 in *.
  assert (Hq : 4503599627370496 <= q < 4 * 4503599627370496) by nia.
  destruct q as [|qp|qp]; try lia.
  pose proof (digits2_pos_bounds qp) as Hdq.
  assert (Hdq1 : 52 < Zpos (digits2_pos qp)).
  { apply (Z.pow_lt_mono_r_iff 2); [lia | lia |].
    change (2 ^ 52) with 4503599627370496. lia. }
  assert (Hdq2 : Zpos (digits2_pos qp) - 1 < 54).
  { apply (Z.pow_lt_mono_r_iff 2); [lia | lia |].
    change (2 ^ 54) with (4 * 4503599627370496). lia. }
  destruct (binary_round_aux_spec (Zpos mx * 9007199254740992) (Zpos my) qp
              (new_location (Zpos my) r) (ex - ey - 53))
    as [m' [e' [q' [E [Hm' [He' [Hv [Hq' [R1 [R1' _]]]]]]]]]].
  - lia.
  - rewrite Hqr. replace (Zpos my * Zpos qp + r) with (Zpos qp * Zpos my + r) by ring.
    apply new_location_spec; lia.
  - lia.
  - lia.
  - exists m', e', q', (Zpos (digits2_pos qp) - 53).
    rewrite E. repeat split; try assumption; try lia.
Qed.

(** Rounding an exact product of two 53-bit mantissas: the result is
    normal, at most half a unit of [2^53] below the product, and never above
    a multiple of [2^53] that the product does not exceed. *)
Lemma binary_round_aux_wide (P : positive) (e0 : Z) :
  2 ^ 104 <= Zpos P < 2 ^ 106 -> -1000 <= e0 <= 800 ->
  exists (m' : positive) (e' : Z),
    binary_round_aux prec emax false (Zpos P) e0 loc_Exact = S754_finite false m' e'
    /\ 2 ^ 52 <= Zpos m' < 2 ^ 53
    /\ e0 <= e'
    /\ 2 * Zpos P <= 2 * (Zpos m' * 2 ^ (e' - e0)) + 2 ^ 53
    /\ forall g, Zpos P <= g * 2 ^ 53 -> Zpos m' * 2 ^ (e' - e0) <= g * 2 ^ 53.
Proof.
  intros HP He.
  pose proof (digits2_pos_bounds P) as Hd.
  assert (Hd1 : 104 < Zpos (digits2_pos P)).
  { apply (Z.pow_lt_mono_r_iff 2); lia. }
  assert (Hd2 : Zpos (digits2_pos P) - 1 < 106).
  { apply (Z.pow_lt_mono_r_iff 2); lia. }
  destruct (binary_round_aux_spec (Zpos P) 1 P loc_Exact e0)
    as [m' [e' [q [E [Hm' [He' [Hv [Hq [R1 [_ [R2 _]]]]]]]]]]];
    [lia | apply shr_inv_exact; lia | lia | lia |].
  set (k := Zpos (digits2_pos P) - 53) in *.
  assert (Hk : 52 <= k <= 53) by (subst k; lia).
  assert (HK : 0 < 2 ^ k) by (apply Z.pow_pos_nonneg; lia).
  assert (H53 : 2 ^ 53 = 2 ^ (53 - k) * 2 ^ k).
  { rewrite <- Z.pow_add_r by lia. f_equal. lia. }
  assert (HK' : 0 < 2 ^ (53 - k)) by (apply Z.pow_pos_nonneg; lia).
  exists m', e'. split; [exact E|]. split; [exact Hm'|]. split; [lia|].
  rewrite Hv, Z.mul_1_r in *. split.
  - rewrite H53. set (K := 2 ^ k) in *. clearbody K. nia.
  - intros g Hg. rewrite H53 in *. rewrite Z.mul_assoc in Hg.
    apply R2 in Hg. set (K := 2 ^ k) in *. clearbody K. nia.
Qed.

(** Two normal positive floats compare as their values do. *)
Lemma SFleb_normal (m1 m2 : positive) (e1 e2 b : Z) :
  2 ^ 52 <= Zpos m1 < 2 ^ 53 -> 2 ^ 52 <= Zpos m2 < 2 ^ 53 ->
  b <= e1 -> b <= e2 ->
  SFleb (S754_finite false m1 e1) (S754_finite false m2 e2) = true
  <-> Zpos m1 * 2 ^ (e1 - b) <= Zpos m2 * 2 ^ (e2 - b).
Proof.
  intros H1 H2 Hb1 Hb2. unfold SFleb, SFcompare.
  change (2 ^ 52) with 4503599627370496 in *.
  change (2 ^ 53) with 9007199254740992 in *.
  destruct (Z.compare_spec e1 e2) as [He|He|He].
  - subst e2. assert (HA : 0 < 2 ^ (e1 - b)) by (apply Z.pow_pos_nonneg; lia).
    change (Pos.compare_cont Eq m1 m2) with (Pos.compare m1 m2).
    destruct (Pos.compare_spec m1 m2) as [Hc|Hc|Hc].
    + subst. split; [lia | reflexivity].
    + split; [intros _; nia | reflexivity].
    + split; [discriminate | intros H; exfalso; nia].
  - assert (HA : 0 < 2 ^ (e1 - b)) by (apply Z.pow_pos_nonneg; lia).
    assert (HB : 2 <= 2 ^ (e2 - e1)).
    { change 2 with (2 ^ 1) at 1. apply Z.pow_le_mono_r; lia. }
    replace (e2 - b) with ((e2 - e1) + (e1 - b)) by lia.
    rewrite Z.pow_add_r by lia.
    set (A := 2 ^ (e1 - b)) in *. set (B := 2 ^ (e2 - e1)) in *. clearbody A B.
    split; [intros _ | reflexivity].
    assert (H3 : 2 * A <= B * A) by nia.
    assert (H4 : 4503599627370496 * (B * A) <= Zpos m2 * (B * A))
      by (apply Z.mul_le_mono_nonneg_r; nia).
    assert (H5 : Zpos m1 * A <= 9007199254740992 * A) by nia.
    lia.
  - assert (HA : 0 < 2 ^ (e2 - b)) by (apply Z.pow_pos_nonneg; lia).
    assert (HB : 2 <= 2 ^ (e1 - e2)).
    { change 2 with (2 ^ 1) at 1. apply Z.pow_le_mono_r; lia. }
    replace (e1 - b) with ((e1 - e2) + (e2 - b)) by lia.
    rewrite Z.pow_add_r by lia.
    set (A := 2 ^ (e2 - b)) in *. set (B := 2 ^ (e1 - e2)) in *. clearbody A B.
    split; [discriminate | intros H; exfalso].
    assert (H3 : 2 * A <= B * A) by nia.
    assert (H4 : 4503599627370496 * (B * A) <= Zpos m1 * (B * A))
      by (apply Z.mul_le_mono_nonneg_r; nia).
    assert (H5 : Zpos m2 * A < 9007199254740992 * A) by nia.
    lia.
Qed.

Lemma threshold_bits : Prim2SF threshold = S754_finite false 6305039478318694 (-53).
Proof. reflexivity. Qed.

(** The float comparison of line 334 decides [7 * total <= 10 * successful]. *)
Lemma meets_threshold_spec (s t : Z) :
  0 <= s < 2 ^ 53 -> 0 <= t < 2 ^ 48 ->
  meets_threshold s t = true <-> 7 * t <= 10 * s.
Proof.
  intros Hs Ht. unfold meets_threshold.
  rewrite FloatAxioms.leb_spec, FloatAxioms.mul_spec, threshold_bits.
  destruct (Z.eq_dec t 0) as [->|Htpos].
  { rewrite float_of_int_zero.
    destruct (Z.eq_dec s 0) as [->|Hspos].
    - rewrite float_of_int_zero. split; [lia | reflexivity].
    - destruct (float_of_int_pos s) as [ms [-> _]]; [lia|].
      split; [lia | reflexivity]. }
  destruct (float_of_int_pos t) as [mt [-> [Hmt Bmt]]]; [lia|].
  set (dt := Z.log2 t + 1) in *.
  assert (Hdt : 1 <= dt <= 48).
  { subst dt. pose proof (Z.log2_nonneg t).
    assert (Z.log2 t < 48) by (apply Z.log2_lt_pow2; lia). lia. }
  unfold SF64mul, SFmul. cbn [xorb].
  destruct (binary_round_aux_wide (mt * 6305039478318694) (dt - 53 + -53))
    as [m' [e' [-> [Bm' [He' [R1 R2]]]]]].
  { rewrite Pos2Z.inj_mul.
    change (2 ^ 52) with 4503599627370496 in *.
    change (2 ^ 53) with 9007199254740992 in *.
    change (2 ^ 104) with (4503599627370496 * 4503599627370496).
    change (2 ^ 106) with (9007199254740992 * 9007199254740992).
    nia. }
  { lia. }
  rewrite Pos2Z.inj_mul in R1, R2.
  assert (HA : 32 <= 2 ^ (53 - dt)).
  { change 32 with (2 ^ 5). apply Z.pow_le_mono_r; lia. }
  destruct (Z.eq_dec s 0) as [->|Hspos].
  { rewrite float_of_int_zero. split; [discriminate | lia]. }
  destruct (float_of_int_pos s) as [ms [-> [Hms Bms]]]; [lia|].
  set (ds := Z.log2 s + 1) in *.
  assert (Hds : 1 <= ds <= 53).
  { subst ds. pose proof (Z.log2_nonneg s).
    assert (Z.log2 s < 53) by (apply Z.log2_lt_pow2; lia). lia. }
  rewrite (SFleb_normal m' ms e' (ds - 53) (dt - 53 + -53)) by (assumption || lia).
  replace (Zpos ms * 2 ^ (ds - 53 - (dt - 53 + -53)))
    with (s * 2 ^ (53 - dt) * 2 ^ 53).
  2: { rewrite Hms, <- !Z.mul_assoc, <- !Z.pow_add_r by lia. do 2 f_equal. lia. }
  set (V := Zpos m' * 2 ^ (e' - (dt - 53 + -53))) in *.
  set (A := 2 ^ (53 - dt)) in *.
  change (2 ^ 53) with 9007199254740992 in *.
  clearbody V A. rewrite Hmt in *.
  split.
  - intros HV. nia.
  - intros H. apply R2. nia.
Qed.

(** *** Values as real numbers *)

Lemma IZR_pow2 (k : Z) : 0 <= k -> IZR (2 ^ k) = powerRZ 2 k.
Proof.
  intros Hk. destruct k as [|p|p]; try lia.
  - reflexivity.
  - change (2 ^ Zpos p) with (Z.pow_pos 2 p). apply Zpower_pos_powerRZ.
Qed.

Lemma Rabs_le_between (x y : R) : (Rabs x <= y)%R -> (- y <= x <= y)%R.
Proof. unfold Rabs. destruct (Rcase_abs x); lra. Qed.

Lemma powerRZ2_pos (e : Z) : (0 < powerRZ 2 e)%R.
Proof. apply powerRZ_lt. lra. Qed.

Lemma F2R_scaled (m e e0 : Z) :
  e0 <= e -> F2R m e = (IZR (m * 2 ^ (e - e0)) * powerRZ 2 e0)%R.
Proof.
  intros H. unfold F2R. rewrite mult_IZR, IZR_pow2 by lia.
  rewrite Rmult_assoc, <- powerRZ_add by lra. do 2 f_equal. lia.
Qed.

(** A value rounded to the nearest multiple of [K], with a quotient of at
    least 52 bits, is within [2^-53] of itself from the exact value. *)
Lemma nearest_relative (q K N D : Z) :
  0 < D -> 0 < K -> 2 ^ 52 <= q ->
  2 * N <= 2 * (q * (K * D)) + K * D ->
  2 * (q * (K * D)) <= 2 * N + K * D ->
  (Rabs (IZR (q * K) - IZR N / IZR D) <= IZR (q * K) / 9007199254740992)%R.
Proof.
  intros HD HK Hq H1 H2.
  apply IZR_le in H1, H2, Hq. apply IZR_lt in HD, HK.
  rewrite ?plus_IZR, ?mult_IZR in *.
  change (IZR (2 ^ 52)) with 4503599627370496%R in Hq.
  set (a := IZR q) in *. set (k := IZR K) in *. set (d := IZR D) in *.
  set (n := IZR N) in *.
  assert (Hx : (n = (n / d) * d)%R) by (field; lra).
  set (x := (n / d)%R) in *. clearbody x a k d n. subst n.
  assert (Hkd : (0 < k * d)%R) by (apply Rmult_lt_0_compat; assumption).
  assert (H1' : (2 * x <= 2 * (a * k) + k)%R).
  { apply (Rmult_le_reg_r d); [assumption|]. lra. }
  assert (H2' : (2 * (a * k) <= 2 * x + k)%R).
  { apply (Rmult_le_reg_r d); [assumption|]. lra. }
  assert (Hak : (4503599627370496 * k <= a * k)%R).
  { apply Rmult_le_compat_r; lra. }
  apply Rabs_le. lra.
Qed.

Lemma SFmul_normal (mx my : positive) (ex ey : Z) :
  2 ^ 52 <= Zpos mx < 2 ^ 53 -> 2 ^ 52 <= Zpos my < 2 ^ 53 ->
  -400 <= ex <= 400 -> -400 <= ey <= 400 ->
  exists (m' : positive) (e' q k : Z),
    SFmul prec emax (S754_finite false mx ex) (S754_finite false my ey)
    = S754_finite false m' e'
    /\ 2 ^ 52 <= Zpos m' < 2 ^ 53
    /\ 0 <= k
    /\ Zpos m' * 2 ^ (e' - (ex + ey)) = q * 2 ^ k
    /\ ex + ey <= e'
    /\ 2 ^ 52 <= q
    /\ 2 * (Zpos mx * Zpos my) <= 2 * (q * (2 ^ k * 1)) + 2 ^ k * 1
    /\ 2 * (q * (2 ^ k * 1)) <= 2 * (Zpos mx * Zpos my) + 2 ^ k * 1.
Proof.
  intros Hx Hy Hex Hey. unfold SFmul. cbn [xorb].
  assert (HP : 2 ^ 104 <= Zpos (mx * my) < 2 ^ 106).
  { rewrite Pos2Z.inj_mul.
    change (2 ^ 52) with 4503599627370496 in *.
    change (2 ^ 53) with 9007199254740992 in *.
    change (2 ^ 104) with (4503599627370496 * 4503599627370496).
    change (2 ^ 106) with (9007199254740992 * 9007199254740992).
    nia. }
  pose proof (digits2_pos_bounds (mx * my)) as Hd.
  assert (Hd1 : 104 < Zpos (digits2_pos (mx * my))).
  { apply (Z.pow_lt_mono_r_iff 2); lia. }
  assert (Hd2 : Zpos (digits2_pos (mx * my)) - 1 < 106).
  { apply (Z.pow_lt_mono_r_iff 2); lia. }
  destruct (binary_round_aux_spec (Zpos (mx * my)) 1 (mx * my) loc_Exact (ex + ey))
    as [m' [e' [q [E [Hm' [He' [Hv [Hq [R1 [R1' _]]]]]]]]]];
    [lia | apply shr_inv_exact; lia | lia | lia |].
  exists m', e', q, (Zpos (digits2_pos (mx * my)) - 53).
  rewrite Pos2Z.inj_mul in R1, R1'.
  rewrite E. repeat split; try assumption; try lia.
Qed.

Lemma rounded_value_error (m' e' E0 q k N D : Z) :
  0 < D -> 0 <= k -> E0 <= e' ->
  m' * 2 ^ (e' - E0) = q * 2 ^ k -> 2 ^ 52 <= q ->
  2 * N <= 2 * (q * (2 ^ k * D)) + 2 ^ k * D ->
  2 * (q * (2 ^ k * D)) <= 2 * N + 2 ^ k * D ->
  (Rabs (F2R m' e' - IZR N / IZR D * powerRZ 2 E0) <= F2R m' e' / 9007199254740992)%R.
Proof.
  intros HD Hk He Hv Hq R1 R2.
  rewrite (F2R_scaled m' e' E0 He), Hv.
  assert (HK : 0 < 2 ^ k) by (apply Z.pow_pos_nonneg; lia).
  pose proof (nearest_relative q (2 ^ k) N D HD HK Hq R1 R2) as H.
  pose proof (powerRZ2_pos E0) as HP.
  set (P := powerRZ 2 E0) in *. set (a := IZR (q * 2 ^ k)) in *.
  set (b := (IZR N / IZR D)%R) in *. clearbody P a b.
  replace (a * P - b * P)%R with ((a - b) * P)%R by ring.
  rewrite Rabs_mult, (Rabs_pos_eq P) by lra.
  replace (a * P / 9007199254740992)%R with (a / 9007199254740992 * P)%R by field.
  apply Rmult_le_compat_r; lra.
Qed.

Lemma F2R_pos (m : positive) (e : Z) : (0 < F2R (Zpos m) e)%R.
Proof.
  unfold F2R. apply Rmult_lt_0_compat; [apply IZR_lt; lia | apply powerRZ2_pos].
Qed.

Lemma SFdiv_error (mx my : positive) (ex ey : Z) :
  2 ^ 52 <= Zpos mx < 2 ^ 53 -> 2 ^ 52 <= Zpos my < 2 ^ 53 ->
  -400 <= ex <= 400 -> -400 <= ey <= 400 ->
  exists (m' : positive) (e' : Z),
    SFdiv prec emax (S754_finite false mx ex) (S754_finite false my ey)
    = S754_finite false m' e'
    /\ 2 ^ 52 <= Zpos m' < 2 ^ 53
    /\ ex - ey - 53 <= e' <= ex - ey - 51
    /\ (Rabs (F2R (Zpos m') e' - F2R (Zpos mx) ex / F2R (Zpos my) ey)
        <= F2R (Zpos m') e' / 9007199254740992)%R.
Proof.
  intros Hx Hy Hex Hey.
  destruct (SFdiv_normal mx my ex ey Hx Hy Hex Hey)
    as [m' [e' [q [k [E [Hm' [Hk [Hv [He' [Hq [R1 R2]]]]]]]]]]].
  exists m', e'. split; [exact E|]. split; [exact Hm'|]. split; [exact He'|].
  pose proof (rounded_value_error (Zpos m') e' (ex - ey - 53) q k
                (Zpos mx * 2 ^ 53) (Zpos my)) as H.
  replace (F2R (Zpos mx) ex / F2R (Zpos my) ey)%R
    with (IZR (Zpos mx * 2 ^ 53) / IZR (Zpos my) * powerRZ 2 (ex - ey - 53))%R.
  - apply H; try assumption; lia.
  - unfold F2R. rewrite mult_IZR.
    replace (ex - ey - 53) with (ex + (- ey + - (53))) by lia.
    rewrite !powerRZ_add by lra. rewrite !powerRZ_neg'.
    rewrite <- (IZR_pow2 53) by lia.
    pose proof (powerRZ2_pos ey). pose proof (powerRZ2_pos ex).
    assert (0 < IZR (Zpos my))%R by (apply IZR_lt; lia).
    assert (0 < IZR (2 ^ 53))%R by (apply IZR_lt; lia).
    field. repeat split; lra.
Qed.

Lemma SFmul_error (mx my : positive) (ex ey : Z) :
  2 ^ 52 <= Zpos mx < 2 ^ 53 -> 2 ^ 52 <= Zpos my < 2 ^ 53 ->
  -400 <= ex <= 400 -> -400 <= ey <= 400 ->
  exists (m' : positive) (e' : Z),
    SFmul prec emax (S754_finite false mx ex) (S754_finite false my ey)
    = S754_finite false m' e'
    /\ 2 ^ 52 <= Zpos m' < 2 ^ 53
    /\ (Rabs (F2R (Zpos m') e' - F2R (Zpos mx) ex * F2R (Zpos my) ey)
        <= F2R (Zpos m') e' / 9007199254740992)%R.
Proof.
  intros Hx Hy Hex Hey.
  destruct (SFmul_normal mx my ex ey Hx Hy Hex Hey)
    as [m' [e' [q [k [E [Hm' [Hk [Hv [He' [Hq [R1 R2]]]]]]]]]]].
  exists m', e'. split; [exact E|]. split; [exact Hm'|].
  pose proof (rounded_value_error (Zpos m') e' (ex + ey) q k
                (Zpos mx * Zpos my) 1) as H.
  replace (F2R (Zpos mx) ex * F2R (Zpos my) ey)%R
    with (IZR (Zpos mx * Zpos my) / IZR 1 * powerRZ 2 (ex + ey))%R.
  - apply H; try assumption; lia.
  - unfold F2R. rewrite mult_IZR, powerRZ_add by lra. field.
Qed.

Lemma round_half_even_spec (n d : Z) :
  0 < d -> 2 * Z.abs (round_half_even n d * d - n) <= d.
Proof.
  intros Hd. unfold round_half_even.
  pose proof (Z.div_mod n d) as H. pose proof (Z.mod_pos_bound n d Hd) as Hr.
  set (q := n / d) in *. set (r := n mod d) in *. clearbody q r.
  destruct (Z.compare_spec (2 * r) d); [destruct (Z.even q)| |]; nia.
Qed.

Lemma tenths_of_error (m : positive) (e : Z) :
  (Rabs (IZR (tenths_of m e) - 10 * F2R (Zpos m) e) <= / 2)%R.
Proof.
  unfold tenths_of. destruct (Z.leb_spec 0 e) as [He|He].
  - unfold F2R. rewrite !mult_IZR, IZR_pow2 by lia.
    replace (10 * IZR (Zpos m) * powerRZ 2 e - 10 * (IZR (Zpos m) * powerRZ 2 e))%R
      with 0%R by ring.
    rewrite Rabs_R0. lra.
  - assert (Hd : 0 < 2 ^ (- e)) by (apply Z.pow_pos_nonneg; lia).
    pose proof (round_half_even_spec (10 * Zpos m) (2 ^ (- e)) Hd) as H.
    set (T := round_half_even (10 * Zpos m) (2 ^ (- e))) in *. clearbody T.
    unfold F2R.
    replace (powerRZ 2 e) with (/ powerRZ 2 (- e))%R
      by (rewrite <- powerRZ_neg'; f_equal; lia).
    rewrite <- IZR_pow2 by lia.
    set (d := 2 ^ (- e)) in *. clearbody d.
    assert (HdR : (0 < IZR d)%R) by (apply IZR_lt; lia).
    apply Rabs_le.
    assert (H1 : 2 * (T * d - 10 * Zpos m) <= d) by lia.
    assert (H2 : - d <= 2 * (T * d - 10 * Zpos m)) by lia.
    apply IZR_le in H1, H2.
    rewrite ?opp_IZR, ?mult_IZR, ?minus_IZR, ?mult_IZR in *.
    set (t := IZR T) in *. set (mr := IZR (Zpos m)) in *. set (dr := IZR d) in *.
    clearbody t mr dr.
    split.
    + apply (Rmult_le_reg_r dr); [assumption|].
      replace ((t - 10 * (mr * / dr)) * dr)%R with (t * dr - 10 * mr)%R by (field; lra).
      lra.
    + apply (Rmult_le_reg_r dr); [assumption|].
      replace ((t - 10 * (mr * / dr)) * dr)%R with (t * dr - 10 * mr)%R by (field; lra).
      lra.
Qed.

Lemma float_of_int_value (t : Z) :
  0 < t < 2 ^ 53 ->
  exists (m : positive) (e : Z),
    Prim2SF (float_of_int t) = S754_finite false m e
    /\ 2 ^ 52 <= Zpos m < 2 ^ 53
    /\ -52 <= e <= 0
    /\ F2R (Zpos m) e = IZR t.
Proof.
  intros Ht. destruct (float_of_int_pos t Ht) as [m [E [Hm Bm]]].
  assert (Hd : 0 <= Z.log2 t < 53).
  { split; [apply Z.log2_nonneg | apply Z.log2_lt_pow2; lia]. }
  exists m, (Z.log2 t + 1 - 53). split; [exact E|]. split; [exact Bm|].
  split; [lia|].
  unfold F2R. rewrite Hm, mult_IZR, IZR_pow2 by lia.
  rewrite Rmult_assoc, <- powerRZ_add by lra.
  replace (53 - (Z.log2 t + 1) + (Z.log2 t + 1 - 53)) with 0 by lia.
  cbn [powerRZ]. ring.
Qed.

(** The rate [s / t * 100] in binary64: a normal float within [2^-45] of
    the exact percentage. *)
Lemma percentage_float (s t : Z) :
  0 < s <= t -> t < 2 ^ 53 ->
  exists (m : positive) (e : Z),
    Prim2SF (float_of_int s / float_of_int t * float_of_int 100)%float
    = S754_finite false m e
    /\ 2 ^ 52 <= Zpos m < 2 ^ 53
    /\ (Rabs (F2R (Zpos m) e - 100 * (IZR s / IZR t)) <= / 35184372088832)%R.
Proof.
  intros Hs Ht.
  rewrite FloatAxioms.mul_spec, FloatAxioms.div_spec.
  destruct (float_of_int_value s) as [ms [es [-> [Bs [Hes Vs]]]]]; [lia|].
  destruct (float_of_int_value t) as [mt [et [-> [Bt [Het Vt]]]]]; [lia|].
  destruct (float_of_int_value 100) as [mc [ec [-> [Bc [Hec Vc]]]]]; [lia|].
  unfold SF64div, SF64mul.
  destruct (SFdiv_error ms mt es et) as [mx [ex [-> [Bx [Hex Dx]]]]];
    [assumption | assumption | lia | lia |].
  destruct (SFmul_error mx mc ex ec) as [my [ey [-> [By Dy]]]];
    [assumption | assumption | lia | lia |].
  exists my, ey. split; [reflexivity|]. split; [exact By|].
  rewrite Vs, Vt in Dx. rewrite Vc in Dy.
  pose proof (F2R_pos mx ex) as Px. pose proof (F2R_pos my ey) as Py.
  set (X := F2R (Zpos mx) ex) in *. set (Y := F2R (Zpos my) ey) in *.
  assert (HR : (0 < IZR s / IZR t <= 1)%R).
  { assert (0 < IZR s)%R by (apply IZR_lt; lia).
    assert (0 < IZR t)%R by (apply IZR_lt; lia).
    assert (IZR s <= IZR t)%R by (apply IZR_le; lia).
    split.
    - apply Rdiv_lt_0_compat; assumption.
    - apply (Rmult_le_reg_r (IZR t)); [assumption|].
      replace (IZR s / IZR t * IZR t)%R with (IZR s) by (field; lra). lra. }
  set (R := (IZR s / IZR t)%R) in *. clearbody X Y R.
  apply Rabs_le_between in Dx, Dy. apply Rabs_le. lra.
Qed.

(** The rate [s / t * 100], computed in binary64, is within [2^-45] of the
    exact percentage. *)
Lemma percentage_error (s t : Z) :
  0 < s <= t -> t < 2 ^ 53 ->
  exists (m : positive) (e : Z),
    Prim2SF (float_of_int s / float_of_int t * float_of_int 100)%float
    = S754_finite false m e
    /\ (Rabs (F2R (Zpos m) e - 100 * (IZR s / IZR t)) <= / 35184372088832)%R.
Proof.
  intros Hs Ht. destruct (percentage_float s t Hs Ht) as [m [e [E [_ D]]]].
  now exists m, e.
Qed.

(** The rate as printed: the tenths shown are a nearest integer to the
    exact [1000 * s / t]. *)
Lemma rate_tenths (s t : Z) :
  0 <= s <= t -> 0 < t < 2 ^ 40 ->
  exists T : Z,
    format_1f (float_of_int s / float_of_int t * float_of_int 100)%float
    = render_tenths false T
    /\ 2 * Z.abs (T * t - 1000 * s) <= t.
Proof.
  intros Hs Ht. unfold format_1f. destruct (Z.eq_dec s 0) as [->|Hs0].
  { rewrite FloatAxioms.mul_spec, FloatAxioms.div_spec, float_of_int_zero.
    destruct (float_of_int_value t) as [mt [et [-> _]]]; [lia|].
    exists 0. split; [reflexivity | lia]. }
  destruct (percentage_error s t) as [m [e [E D]]]; [lia | lia |].
  rewrite E. exists (tenths_of m e). split; [reflexivity|].
  pose proof (tenths_of_error m e) as HT.
  set (T := tenths_of m e) in *. clearbody T.
  set (Y := F2R (Zpos m) e) in *. clearbody Y.
  assert (Htr : (0 < IZR t < 1099511627776)%R).
  { split; apply IZR_lt; lia. }
  assert (Hq : (IZR s / IZR t * IZR t = IZR s)%R) by (field; lra).
  set (R := (IZR s / IZR t)%R) in *. clearbody R.
  apply Rabs_le_between in D, HT.
  assert (H1 : (IZR T - 1000 * R <= / 2 + / 2199023255552)%R) by lra.
  assert (H2 : (- (/ 2 + / 2199023255552) <= IZR T - 1000 * R)%R) by lra.
  apply (Rmult_le_compat_r (IZR t)) in H1, H2; try lra.
  assert (G1 : (2 * (IZR T * IZR t - 1000 * IZR s) < IZR t + 1)%R).
  { rewrite <- Hq. lra. }
  assert (G2 : (- (IZR t + 1) < 2 * (IZR T * IZR t - 1000 * IZR s))%R).
  { rewrite <- Hq. lra. }
  rewrite <- !mult_IZR, <- minus_IZR, <- mult_IZR, <- plus_IZR in G1, G2.
  rewrite <- opp_IZR in G2.
  apply lt_IZR in G1, G2. lia.
Qed.

(** *** Order: the tests against one half *)

(** The quotient of two normal positive floats, with the order it keeps. *)
Lemma SFdiv_round (mx my : positive) (ex ey : Z) :
  2 ^ 52 <= Zpos mx < 2 ^ 53 -> 2 ^ 52 <= Zpos my < 2 ^ 53 ->
  -400 <= ex <= 400 -> -400 <= ey <= 400 ->
  exists (m' : positive) (e' q k : Z),
    SFdiv prec emax (S754_finite false mx ex) (S754_finite false my ey)
    = S754_finite false m' e'
    /\ 2 ^ 52 <= Zpos m' < 2 ^ 53
    /\ 0 <= k <= 1
    /\ Zpos m' * 2 ^ (e' - (ex - ey - 53)) = q * 2 ^ k
    /\ ex - ey - 53 <= e' <= ex - ey - 51
    /\ (forall g, g * (2 ^ k * Zpos my) <= Zpos mx * 2 ^ 53 -> g <= q)
    /\ (forall g, Zpos mx * 2 ^ 53 <= g * (2 ^ k * Zpos my) -> q <= g).
Proof.
  intros Hx Hy Hex Hey.
  assert (Hdx : Zpos (digits2_pos mx) = 53) by (apply digits2_pos_unique; exact Hx).
  assert (Hdy : Zpos (digits2_pos my) = 53) by (apply digits2_pos_unique; exact Hy).
  unfold SFdiv, SFdiv_core_binary. cbn [xorb Zdigits2]. rewrite Hdx, Hdy.
  replace (Z.min (fexp prec emax (53 + ex - (53 + ey))) (ex - ey)) with (ex - ey - 53)
    by (unfold fexp, SpecFloat.emin, prec, emax; lia).
  replace (ex - ey - (ex - ey - 53)) with 53 by lia.
  rewrite Z.shiftl_mul_pow2 by lia.
  pose proof (Z_div_mod (Zpos mx * 2 ^ 53) (Zpos my) eq_refl) as Hdiv.
  destruct (Z.div_eucl (Zpos mx * 2 ^ 53) (Zpos my)) as [q r].
  destruct Hdiv as [Hqr Hr].
  change (2 ^ 52) with 4503599627370496 in *.
  change (2 ^ 53) with 9007199254740992 in *.
  assert (Hq : 4503599627370496 <= q < 4 * 4503599627370496) by nia.
  destruct q as [|qp|qp]; try lia.
  pose proof (digits2_pos_bounds qp) as Hdq.
  assert (Hdq1 : 52 < Zpos (digits2_pos qp)).
  { apply (Z.pow_lt_mono_r_iff 2); [lia | lia |].
    change (2 ^ 52) with 4503599627370496. lia. }
  assert (Hdq2 : Zpos (digits2_pos qp) - 1 < 54).
  { apply (Z.pow_lt_mono_r_iff 2); [lia | lia |].
    change (2 ^ 54) with (4 * 4503599627370496). lia. }
  destruct (binary_round_aux_spec (Zpos mx * 9007199254740992) (Zpos my) qp
              (new_location (Zpos my) r) (ex - ey - 53))
    as [m' [e' [q' [E [Hm' [He' [Hv [Hq' [_ [_ [R2 R2']]]]]]]]]]].
  - lia.
  - rewrite Hqr. replace (Zpos my * Zpos qp + r) with (Zpos qp * Zpos my + r) by ring.
    apply new_location_spec; lia.
  - lia.
  - lia.
  - exists m', e', q', (Zpos (digits2_pos qp) - 53).
    rewrite E. repeat split; try assumption; try lia.
Qed.

(** The product of two normal positive floats, with the order it keeps. *)
Lemma SFmul_round (mx my : positive) (ex ey : Z) :
  2 ^ 52 <= Zpos mx < 2 ^ 53 -> 2 ^ 52 <= Zpos my < 2 ^ 53 ->
  -400 <= ex <= 400 -> -400 <= ey <= 400 ->
  exists (m' : positive) (e' q k : Z),
    SFmul prec emax (S754_finite false mx ex) (S754_finite false my ey)
    = S754_finite false m' e'
    /\ 2 ^ 52 <= Zpos m' < 2 ^ 53
    /\ 52 <= k <= 53
    /\ Zpos m' * 2 ^ (e' - (ex + ey)) = q * 2 ^ k
    /\ ex + ey + k <= e' <= ex + ey + k + 1
    /\ (forall g, g * 2 ^ k <= Zpos mx * Zpos my -> g <= q)
    /\ (forall g, Zpos mx * Zpos my <= g * 2 ^ k -> q <= g).
Proof.
  intros Hx Hy Hex Hey. unfold SFmul. cbn [xorb].
  assert (HP : 2 ^ 104 <= Zpos (mx * my) < 2 ^ 106).
  { rewrite Pos2Z.inj_mul.
    change (2 ^ 52) with 4503599627370496 in *.
    change (2 ^ 53) with 9007199254740992 in *.
    change (2 ^ 104) with (4503599627370496 * 4503599627370496).
    change (2 ^ 106) with (9007199254740992 * 9007199254740992).
    nia. }
  pose proof (digits2_pos_bounds (mx * my)) as Hd.
  assert (Hd1 : 104 < Zpos (digits2_pos (mx * my))).
  { apply (Z.pow_lt_mono_r_iff 2); lia. }
  assert (Hd2 : Zpos (digits2_pos (mx * my)) - 1 < 106).
  { apply (Z.pow_lt_mono_r_iff 2); lia. }
  destruct (binary_round_aux_spec (Zpos (mx * my)) 1 (mx * my) loc_Exact (ex + ey))
    as [m' [e' [q [E [Hm' [He' [Hv [Hq [_ [_ [Rup Rlow]]]]]]]]]]];
    [lia | apply shr_inv_exact; lia | lia | lia |].
  exists m', e', q, (Zpos (digits2_pos (mx * my)) - 53).
  rewrite Pos2Z.inj_mul in Rup, Rlow.
  rewrite E. repeat split; try assumption; try lia.
  - intros g Hg. apply Rlow. lia.
  - intros g Hg. apply Rup. lia.
Qed.

Lemma float_of_int_100 :
  Prim2SF (float_of_int 100) = S754_finite false 7036874417766400 (-46).
Proof. reflexivity. Qed.

Lemma float_of_int_50 :
  Prim2SF (float_of_int 50) = S754_finite false 7036874417766400 (-47).
Proof. reflexivity. Qed.

Lemma pow2_split (a b : Z) : 0 <= a -> 0 <= b -> 2 ^ (a + b) = 2 ^ a * 2 ^ b.
Proof. intros. apply Z.pow_add_r; assumption. Qed.

(** At least half of the total: the rate computed is at least 50. *)
Lemma rate_at_least_50 (s t : Z) :
  0 < s <= t -> t <= 2 * s -> t < 2 ^ 53 ->
  (float_of_int 50 <=? float_of_int s / float_of_int t * float_of_int 100)%float = true.
Proof.
  intros Hs Hhalf Ht.
  rewrite FloatAxioms.leb_spec, FloatAxioms.mul_spec, FloatAxioms.div_spec.
  rewrite float_of_int_50, float_of_int_100.
  destruct (float_of_int_pos s) as [ms [-> [Hms Bms]]]; [lia|].
  destruct (float_of_int_pos t) as [mt [-> [Hmt Bmt]]]; [lia|].
  set (ds := Z.log2 s + 1) in *. set (dt := Z.log2 t + 1) in *.
  assert (Hds : 1 <= ds <= dt).
  { subst ds dt. pose proof (Z.log2_nonneg s).
    pose proof (Z.log2_le_mono s t). lia. }
  assert (Hdt : dt <= 53).
  { subst dt. assert (Z.log2 t < 53) by (apply Z.log2_lt_pow2; lia). lia. }
  assert (Hdt' : dt <= ds + 1).
  { subst ds dt. pose proof (Z.log2_le_mono t (2 * s)).
    rewrite Z.log2_double in * by lia. lia. }
  unfold SF64div, SF64mul.
  destruct (SFdiv_round ms mt (ds - 53) (dt - 53))
    as [m1 [e1 [q1 [k1 [-> [B1 [Hk1 [V1 [He1 [L1 _]]]]]]]]]];
    [assumption | assumption | lia | lia |].
  destruct (SFmul_round m1 7036874417766400 e1 (-46))
    as [m2 [e2 [q2 [k2 [-> [B2 [Hk2 [V2 [He2 [L2 _]]]]]]]]]];
    [assumption | lia | lia | lia |].
  apply (SFleb_normal 7036874417766400 m2 (-47) e2 (e1 + -46));
    [lia | assumption | lia | lia |].
  rewrite V2.
  (* the quotient is at least one half *)
  assert (Hq1 : 2 ^ (52 - ds + dt - k1) <= q1).
  { apply L1. rewrite Z.mul_assoc, <- pow2_split by lia.
    rewrite Hms, Hmt.
    replace (52 - ds + dt - k1 + k1) with ((53 - ds) + (dt - 1)) by lia.
    rewrite pow2_split by lia.
    replace (2 ^ 53) with (2 ^ (dt - 1) * 2 ^ (53 - dt) * 2).
    - set (A := 2 ^ (53 - ds)). set (B := 2 ^ (dt - 1)). set (C := 2 ^ (53 - dt)).
      assert (0 < A) by (apply Z.pow_pos_nonneg; lia).
      assert (0 < B) by (apply Z.pow_pos_nonneg; lia).
      assert (0 < C) by (apply Z.pow_pos_nonneg; lia).
      assert (0 < A * B * C) by (repeat apply Z.mul_pos_pos; assumption).
      clearbody A B C. nia.
    - rewrite <- pow2_split by lia.
      replace (dt - 1 + (53 - dt)) with 52 by lia. reflexivity. }
  assert (Hm1 : 2 ^ (- 1 - e1) <= Zpos m1).
  { assert (HA : 0 < 2 ^ (e1 - (ds - 53 - (dt - 53) - 53)))
      by (apply Z.pow_pos_nonneg; lia).
    apply (Z.mul_le_mono_pos_r _ _ _ HA). rewrite V1, <- pow2_split by lia.
    replace (- 1 - e1 + (e1 - (ds - 53 - (dt - 53) - 53)))
      with ((52 - ds + dt - k1) + k1) by lia.
    rewrite pow2_split by lia.
    apply Z.mul_le_mono_nonneg_r; [apply Z.pow_nonneg; lia | exact Hq1]. }
  assert (Hq2 : 25 * 2 ^ (47 - e1 - k2) <= q2).
  { apply L2. rewrite <- Z.mul_assoc, <- pow2_split by lia.
    replace (47 - e1 - k2 + k2) with ((- 1 - e1) + 48) by lia.
    rewrite pow2_split by lia.
    change 7036874417766400 with (25 * 2 ^ 48).
    assert (0 < 2 ^ 48) by (apply Z.pow_pos_nonneg; lia).
    set (P := 2 ^ 48) in *. set (Q := 2 ^ (- 1 - e1)) in *. clearbody P Q. nia. }
  replace (-47 - (e1 + -46)) with (- 1 - e1) by lia.
  change 7036874417766400 with (25 * 2 ^ 48).
  assert (HK : 0 < 2 ^ k2) by (apply Z.pow_pos_nonneg; lia).
  apply (Z.mul_le_mono_nonneg_r _ _ (2 ^ k2)) in Hq2; [|lia].
  rewrite <- Z.mul_assoc, <- pow2_split in Hq2 by lia.
  replace (47 - e1 - k2 + k2) with (48 + (- 1 - e1)) in Hq2 by lia.
  rewrite pow2_split in Hq2 by lia. lia.
Qed.

(** Two normal positive floats compare as their real values do. *)
Lemma SFleb_F2R (m1 m2 : positive) (e1 e2 : Z) :
  2 ^ 52 <= Zpos m1 < 2 ^ 53 -> 2 ^ 52 <= Zpos m2 < 2 ^ 53 ->
  SFleb (S754_finite false m1 e1) (S754_finite false m2 e2) = true
  <-> (F2R (Zpos m1) e1 <= F2R (Zpos m2) e2)%R.
Proof.
  intros H1 H2.
  rewrite (SFleb_normal m1 m2 e1 e2 (Z.min e1 e2)) by (assumption || lia).
  rewrite (F2R_scaled (Zpos m1) e1 (Z.min e1 e2)) by lia.
  rewrite (F2R_scaled (Zpos m2) e2 (Z.min e1 e2)) by lia.
  pose proof (powerRZ2_pos (Z.min e1 e2)) as HP.
  split.
  - intros H. apply Rmult_le_compat_r; [lra | apply IZR_le; exact H].
  - intros H. apply le_IZR. apply (Rmult_le_reg_r _ _ _ HP). exact H.
Qed.

Lemma F2R_50 : F2R 7036874417766400 (-47) = 50%R.
Proof.
  destruct (float_of_int_value 50) as [m [e [E [_ [_ V]]]]]; [lia|].
  rewrite float_of_int_50 in E. injection E as <- <-. exact V.
Qed.

(** Less than half of the total: the rate computed is below 50. *)
Lemma rate_below_50 (s t : Z) :
  0 <= s -> 2 * s < t -> t < 2 ^ 48 ->
  (float_of_int 50 <=? float_of_int s / float_of_int t * float_of_int 100)%float = false.
Proof.
  intros Hs Hhalf Ht. rewrite FloatAxioms.leb_spec, float_of_int_50.
  destruct (Z.eq_dec s 0) as [->|Hs0].
  { rewrite FloatAxioms.mul_spec, FloatAxioms.div_spec, float_of_int_zero.
    destruct (float_of_int_value t) as [mt [et [-> _]]]; [lia|]. reflexivity. }
  destruct (percentage_float s t) as [m [e [-> [Bm D]]]]; [lia | lia |].
  destruct (SFleb (S754_finite false 7036874417766400 (-47)) (S754_finite false m e))
    eqn:E; [exfalso | reflexivity].
  apply SFleb_F2R in E; [|lia | exact Bm]. rewrite F2R_50 in E.
  assert (Htr : (0 < IZR t < 281474976710656)%R).
  { split; apply IZR_lt; lia. }
  assert (Hsr : (2 * IZR s <= IZR t - 1)%R).
  { rewrite <- mult_IZR, <- minus_IZR. apply IZR_le. lia. }
  assert (Hq : (IZR s / IZR t * IZR t = IZR s)%R) by (field; lra).
  set (R := (IZR s / IZR t)%R) in *. set (Y := F2R (Zpos m) e) in *.
  clearbody R Y. apply Rabs_le_between in D.
  assert (H : (50 - / 35184372088832 <= 100 * R)%R) by lra.
  apply (Rmult_le_compat_r (IZR t)) in H; [|lra].
  replace (100 * R * IZR t)%R with (100 * (R * IZR t))%R in H by ring.
  rewrite Hq in H. lra.
Qed.

(** The test [ocr_rate >= 50] of line 317 decides whether at least half of
    the conversions succeeded. *)
Lemma rate_at_least_50_iff (s t : Z) :
  0 <= s <= t -> 0 < t < 2 ^ 48 ->
  (float_of_int 50 <=? float_of_int s / float_of_int t * float_of_int 100)%float
  = (t <=? 2 * s).
Proof.
  intros Hs Ht. destruct (Z.leb_spec t (2 * s)).
  - apply rate_at_least_50; lia.
  - apply rate_below_50; lia.
Qed.

Set Implicit Arguments.

(** ** The whole run *)

Section RunFacts.
Variable lower : str -> str.
Variable World : Type.
Variable convert_document : str -> World -> pyresult (str * str) * World.
Variable now_isoformat : World -> str * World.
Variable subprocess_run : list str -> Z -> World -> run_outcome * World.
Variable sys_executable : str.
Variable json_dump : report_data -> str.
Variable docling__version__ : option str.

Local Abbreviation run_categories := (test_categories convert_document now_isoformat).
Local Abbreviation run_category := (test_category convert_document now_isoformat).
Local Abbreviation run_cli := (test_cli_interface lower subprocess_run sys_executable).
Local Abbreviation save := (save_results now_isoformat json_dump docling__version__).
Local Abbreviation run :=
  (main lower convert_document now_isoformat subprocess_run sys_executable
        json_dump docling__version__).

Lemma run_category_nonempty category docs st :
  docs <> [] ->
  exists results st',
    run_category category docs st = (Return results, st')
    /\ map file_name results = map name docs
    /\ converted st' = converted st ++ map path docs
    /\ same_outside st st'.
Proof.
  intros Hne. rewrite convert_category_nonempty by assumption.
  apply convert_each_spec.
Qed.

Lemma run_categories_spec items :
  forall acc st,
    Forall (fun kv => snd kv <> []) items ->
    NoDup (dict_keys acc ++ dict_keys items) ->
    exists rs st',
      run_categories items acc st = (Return (acc ++ rs), st')
      /\ Forall2 (fun kv kr => fst kr = fst kv
                               /\ map file_name (snd kr) = map name (snd kv))
                 items rs
      /\ converted st' = converted st ++ map path (List.concat (dict_values items))
      /\ same_outside st st'.
Proof.
  induction items as [|[category docs] items IH]; intros acc st Hne Hnd.
  - exists [], st. simpl. rewrite !app_nil_r. repeat split. constructor.
  - inversion Hne as [|? ? Hdocs Hne']; subst. simpl in Hdocs.
    destruct (run_category_nonempty category st Hdocs)
      as [results [st1 [H1 [Hn1 [Hc1 [Hi1 [Hp1 Hd1]]]]]]].
    assert (Hfresh : dict_mem category acc = false).
    { apply dict_mem_false. simpl in Hnd. apply NoDup_remove_2 in Hnd.
      intros Hin. apply Hnd. apply in_or_app. now left. }
    destruct (IH (acc ++ [(category, results)]) st1 Hne')
      as [rs [st2 [H2 [HF [Hc2 [Hi2 [Hp2 Hd2]]]]]]].
    { unfold dict_keys. rewrite map_app, <- app_assoc. exact Hnd. }
    exists ((category, results) :: rs), st2.
    cbn [test_categories]. step H1.
    rewrite dict_set_fresh by assumption. rewrite H2, <- app_assoc.
    split; [reflexivity|]. split; [|split].
    + constructor; [now split | exact HF].
    + rewrite Hc2, Hc1. cbn [dict_values map List.concat].
      rewrite map_app, app_assoc. reflexivity.
    + repeat split; congruence.
Qed.

Lemma sum_len_results (items : dict (list doc_info)) (rs : dict (list outcome)) :
  Forall2 (fun kv kr => fst kr = fst kv
                        /\ map file_name (snd kr) = map name (snd kv)) items rs ->
  sum_len rs = sum_len items.
Proof.
  unfold sum_len, dict_values.
  induction 1 as [|[c docs] [c' results] items rs [_ Hn] _ IH]; simpl; [reflexivity|].
  simpl in Hn. rewrite IH.
  rewrite <- (length_map file_name results), Hn, length_map. reflexivity.
Qed.

(** The categories of the directory scan are all processed: no division
    by zero, one conversion per record, in the order of the grouping. *)
Lemma run_categories_scan listing st :
  exists all_results st',
    run_categories (get_test_documents lower listing) [] st = (Return all_results, st')
    /\ sum_len all_results = sum_len (get_test_documents lower listing)
    /\ dict_keys all_results = dict_keys (get_test_documents lower listing)
    /\ converted st' = converted st
                       ++ map path (List.concat
                                      (dict_values (get_test_documents lower listing)))
    /\ same_outside st st'.
Proof.
  destruct (well_grouped_scan lower listing) as [Hnd Hall].
  destruct (@run_categories_spec (get_test_documents lower listing) [] st)
    as [rs [st' [H [HF [Hc Hs]]]]].
  - eapply Forall_impl; [|exact Hall]. intros kv [Hne _]. exact Hne.
  - exact Hnd.
  - exists rs, st'. simpl in H. split; [exact H|].
    split; [now apply sum_len_results|]. split; [|now split].
    clear -HF. unfold dict_keys.
    induction HF as [|kv kr items rs [Hk _] _ IH]; simpl; [reflexivity|].
    now rewrite Hk, IH.
Qed.

Lemma run_cli_returns listing st :
  exists cli st',
    run_cli listing st = (Return cli, st')
    /\ converted st' = converted st /\ printed st' = printed st /\ disk st' = disk st.
Proof.
  destruct listing as [entries|].
  - rewrite test_cli_interface_eq.
    destruct (attempts_spec subprocess_run sys_executable
                (firstn 3 (filter (cli_candidate lower) entries)) st)
      as [cli [st' [H [_ [_ Hrest]]]]].
    now exists cli, st'.
  - exists [], st. repeat split.
Qed.

(** What [save_results] does to the output file. *)
Lemma save_results_spec all_results cli st :
  exists ts data st',
    data = {| test_timestamp := ts;
              docling_version := docling__version__;
              total_documents := sum_len all_results;
              categories := all_results;
              cli_results := cli;
              summary_total_successful := sum_successful all_results;
              summary_total_failed := sum_failed all_results |}
    /\ save all_results cli st
       = (fst (write_file (json_dump data) (disk st)), st')
    /\ disk st' = snd (write_file (json_dump data) (disk st))
    /\ converted st' = converted st /\ invoked st' = invoked st
    /\ printed st' = printed st.
Proof.
  unfold save_results. destruct (now_isoformat (world st)) as [ts w].
  eexists ts, _. 
  destruct (write_file _ (disk st)) as [r d] eqn:E.
  eexists. split; [reflexivity|]. rewrite E. repeat split.
Qed.

(** The run on a directory in which the scan finds a file: the categories
    are converted, the command-line exercise runs, the report is printed,
    and the run ends as [save_results] ends. *)
Lemma run_with_documents listing st :
  get_test_documents lower listing <> [] ->
  exists all_results cli report st1 st2,
    run_categories (get_test_documents lower listing) [] st = (Return all_results, st1)
    /\ run_cli listing st1 = (Return cli, st2)
    /\ generate_kmrl_report all_results cli = Return report
    /\ sum_len all_results = sum_len (get_test_documents lower listing)
    /\ run true listing st
       = match save all_results cli
                 {| world := world st2; converted := converted st2;
                    invoked := invoked st2; printed := Some report;
                    disk := disk st2 |} with
         | (Return _, st3) => (Return (Complete all_results cli), st3)
         | (Raise e, st3) => (Raise e, st3)
         end.
Proof.
  intros Hne.
  destruct (run_categories_scan listing st) as [all_results [st1 [H1 [Hsum [Hkeys _]]]]].
  destruct (run_cli_returns listing st1) as [cli [st2 [H2 _]]].
  assert (Hpos : sum_len all_results <> 0).
  { rewrite Hsum. destruct (well_grouped_scan lower listing) as [_ Hall].
    destruct (get_test_documents lower listing) as [|[c docs] rest]; [contradiction|].
    inversion Hall as [|? ? [Hdocs _] _]; subst. simpl in Hdocs.
    unfold sum_len. simpl.
    assert (0 <= fold_right (fun l acc => Z.of_nat (List.length l) + acc) 0
                   (dict_values rest)).
    { clear. induction (dict_values rest); simpl; lia. }
    destruct docs; [contradiction | simpl List.length; lia]. }
  destruct (@generate_kmrl_report_returns all_results cli Hpos) as [report [H3 _]].
  exists all_results, cli, report, st1, st2.
  split; [exact H1|]. split; [exact H2|]. split; [exact H3|]. split; [exact Hsum|].
  unfold main. cbn [negb].
  destruct (get_test_documents lower listing) as [|item rest] eqn:Edocs; [contradiction|].
  step H1. step H2. unfold lift. step H3.
  unfold bind at 1. unfold print_report.
  unfold bind at 1.
  destruct (save all_results cli _) as [[[]|e] st3]; reflexivity.
Qed.

End RunFacts.


(* ================================================================== *)
(** * The claims

    C3, C4, C5 and C6 are about functions whose statements interleave with
    [print]s; they are stated with the program with its prints, in the last
    part. *)


Lemma has_content_nonempty (s : str) : (len s >? 0) = negb (str_eqb s []).
Proof.
  destruct s as [|c s]; [reflexivity|].
  unfold str_eqb. destruct (list_eq_dec N.eq_dec (c :: s) []); [discriminate|].
  reflexivity.
Qed.

Lemma preview_of_cases (s : str) :
  preview_of s = if len s <=? 200 then s else firstn 200 s ++ lit "...".
Proof.
  unfold preview_of.
  destruct (Z.gtb_spec (len s) 200), (Z.leb_spec (len s) 200); (reflexivity || lia).
Qed.

Section Claims.
Variable lower : str -> str.
Variable World : Type.
Variable convert_document : str -> World -> pyresult (str * str) * World.
Variable now_isoformat : World -> str * World.
Variable subprocess_run : list str -> Z -> World -> run_outcome * World.
Variable sys_executable : str.
Variable json_dump : report_data -> str.
Variable docling__version__ : option str.

Local Abbreviation run :=
  (main lower convert_document now_isoformat subprocess_run sys_executable
        json_dump docling__version__).

(** C1. Classification is first-match-wins over the lower-cased file name
    and extension: [categorize], applied as the scan applies it, is the
    first matching rule of the table [classifier_rules] (images by "mal",
    "handwrite"/"handwritten", "scan", else [image_ocr]; then [.dwg],
    [.docx], [.pptx], [.csv]; else [other]).  It is a total function whose
    value is one of the nine categories, and in the grouping of the scan no
    category key is repeated and every record sits under the category of
    its own name and extension. *)
Theorem classification_first_match_wins (suffix file_name : str)
    (listing : option (list dir_entry)) :
  categorize lower (lower suffix) file_name
  = classify_by_rules (lower file_name) (lower suffix)
  /\ In (categorize lower (lower suffix) file_name) all_categories
  /\ NoDup (dict_keys (get_test_documents lower listing))
  /\ Forall (fun kv =>
               Forall (fun doc =>
                         fst kv = classify_by_rules (lower (name doc)) (extension doc))
                      (snd kv))
            (get_test_documents lower listing).
Proof.
  split; [apply categorize_by_rules|]. split; [apply categorize_in_all|].
  destruct (well_grouped_scan lower listing) as [Hnd Hall].
  split; [exact Hnd|].
  eapply Forall_impl; [|exact Hall]. intros kv [_ Hdocs].
  eapply Forall_impl; [|exact Hdocs]. intros doc Hdoc. cbv beta in Hdoc.
  now rewrite <- Hdoc, categorize_by_rules.
Qed.

(** C2 (as amended). The scan turns every entry of the directory that
    [is_file()] accepts, a regular file or a symbolic link that resolves to
    one, into exactly one record; sub-directories give none; and when
    there is such an entry the total of the printed report is their
    number. *)
Theorem scan_takes_every_file (entries : list dir_entry) (st : state World) :
  let documents := get_test_documents lower (Some entries) in
  let files := filter (fun p => is_file (p_node p)) entries in
  Permutation (List.concat (dict_values documents)) (map (record_of lower) files)
  /\ (forall p, In p entries -> p_node p = NDirectory -> ~ In p files)
  /\ (files <> [] ->
      exists report,
        printed (snd (run true (Some entries) st)) = Some report
        /\ rep_total_documents report = Z.of_nat (List.length files)).
Proof.
  intros documents files. split; [apply scan_records|]. split.
  - intros p _ Hdir Hin. apply filter_In in Hin. rewrite Hdir in Hin.
    destruct Hin as [_ Hin]. discriminate.
  - intros Hfiles.
    assert (Hcount : sum_len documents = Z.of_nat (List.length files))
      by apply scan_count.
    assert (Hne : documents <> []).
    { intros E. rewrite E in Hcount. unfold sum_len in Hcount. simpl in Hcount.
      destruct files; [contradiction | simpl in Hcount; lia]. }
    destruct (@run_with_documents lower World convert_document now_isoformat subprocess_run
                sys_executable json_dump docling__version__ _ st Hne)
      as [all_results [cli [report [st1 [st2 [_ [_ [Hrep [Hsum Hrun]]]]]]]]].
    exists report. split.
    + rewrite Hrun.
      destruct (@save_results_spec World now_isoformat json_dump docling__version__
                  all_results cli
                  {| world := world st2; converted := converted st2;
                     invoked := invoked st2; printed := Some report;
                     disk := disk st2 |})
        as [ts [data [st3 [_ [Hsave [_ [_ [_ Hprinted]]]]]]]].
      rewrite Hsave.
      destruct (fst (write_file (json_dump data) _)) as [[]|e]; exact Hprinted.
    + assert (Hpos : sum_len all_results <> 0).
      { fold documents in Hsum. rewrite Hsum, Hcount.
        destruct files; [contradiction | simpl; lia]. }
      destruct (@generate_kmrl_report_returns all_results cli Hpos)
        as [report' [Hrep' [Htotal _]]].
      rewrite Hrep in Hrep'. injection Hrep' as <-.
      fold documents in Hsum. now rewrite Htotal, Hsum.
Qed.



(** C9 (as amended). [save_results] writes the report into the output
    file in place.  When the write succeeds the file holds the whole
    report.  When it fails the exception leaves [save_results], and [main]
    with it, the file is either untouched (it could not be opened) or
    holds only the characters written before the failure, and the record
    of the conversions, of the invocations and the printed report are as
    they were. *)
Theorem report_is_written_in_place (all_results : dict (list outcome))
    (cli : list cli_result) (st : state World) :
  (exists data r st',
      save_results now_isoformat json_dump docling__version__ all_results cli st
      = (r, st')
      /\ categories data = all_results /\ cli_results data = cli
      /\ total_documents data = sum_len all_results
      /\ converted st' = converted st /\ invoked st' = invoked st
      /\ printed st' = printed st
      /\ match r with
         | Return _ => report_file (disk st') = Some (json_dump data)
         | Raise e =>
             (openable (disk st) = false /\ disk st' = disk st)
             \/ (exists k, (k < List.length (json_dump data))%nat
                           /\ report_file (disk st') = Some (firstn k (json_dump data)))
         end)
  /\ (forall listing,
         get_test_documents lower listing <> [] ->
         exists results cli' st1 report,
           printed st1 = Some report
           /\ run true listing st
              = match save_results now_isoformat json_dump docling__version__
                                   results cli' st1 with
                | (Return _, st2) => (Return (Complete results cli'), st2)
                | (Raise e, st2) => (Raise e, st2)
                end).
Proof.
  split.
  - destruct (@save_results_spec World now_isoformat json_dump docling__version__
                all_results cli st)
      as [ts [data [st' [Hdata [Hsave [Hdisk [Hc [Hi Hp]]]]]]]].
    exists data. eexists. exists st'. split; [exact Hsave|].
    subst data. cbn [categories cli_results total_documents].
    repeat (split; [first [reflexivity | assumption]|]).
    rewrite Hdisk. unfold write_file.
    destruct (openable (disk st)) eqn:Eopen; cbn [negb fst snd].
    + destruct (capacity (disk st)) as [k|]; cbn [fst snd report_file].
      * destruct (Nat.leb_spec (List.length (json_dump
                     {| test_timestamp := ts; docling_version := docling__version__;
                        total_documents := sum_len all_results;
                        categories := all_results; cli_results := cli;
                        summary_total_successful := sum_successful all_results;
                        summary_total_failed := sum_failed all_results |})) k);
          cbn [fst snd report_file]; [reflexivity|].
        right. exists k. split; [assumption | reflexivity].
      * reflexivity.
    + left. split; reflexivity.
  - intros listing Hne.
    destruct (@run_with_documents lower World convert_document now_isoformat subprocess_run
                sys_executable json_dump docling__version__ _ st Hne)
      as [results [cli' [report [st1 [st2 [_ [_ [_ [_ Hrun]]]]]]]]].
    exists results, cli'. eexists. exists report. split; [|exact Hrun]. reflexivity.
Qed.

(** C10. In the grouping of the scan every category present has a
    non-empty list; so [test_category], called on a category of the
    grouping, computes its summary without dividing by zero and returns,
    and so does the loop over all the categories of the grouping. *)
Theorem scan_groups_are_never_empty (listing : option (list dir_entry)) :
  Forall (fun kv => snd kv <> []) (get_test_documents lower listing)
  /\ (forall category docs st,
         dict_get category (get_test_documents lower listing) = Some docs ->
         docs <> []
         /\ exists results st',
             test_category convert_document now_isoformat category docs st
             = (Return results, st'))
  /\ (forall st,
         exists all_results st',
           test_categories convert_document now_isoformat
                           (get_test_documents lower listing) [] st
           = (Return all_results, st')).
Proof.
  split; [|split].
  - destruct (well_grouped_scan lower listing) as [_ Hall].
    eapply Forall_impl; [|exact Hall]. intros kv [Hne _]. exact Hne.
  - intros category docs st Hget.
    assert (Hne : docs <> []) by (eapply scan_group_nonempty; exact Hget).
    split; [exact Hne|].
    destruct (@run_category_nonempty World convert_document now_isoformat category docs st Hne)
      as [results [st' [H _]]].
    now exists results, st'.
  - intros st.
    destruct (@run_categories_scan lower World convert_document now_isoformat listing st)
      as [all_results [st' [H _]]].
    now exists all_results, st'.
Qed.

End Claims.

(* ================================================================== *)
(** * The claims on the worked run *)

(** C2, the claim as it was stated: a symbolic link to a regular file is
    no regular file of the directory, yet the scan makes a record of it
    and the report counts it. *)
Lemma symlink_becomes_a_record :
  get_test_documents ascii_lower (Some linked_directory)
  = [(lit "word_document",
      [record_of ascii_lower (entry "notes.docx" ".docx" (NSymlink NRegular) 512)])]
  /\ filter (fun p => is_regular (p_node p)) linked_directory = []
  /\ option_map rep_total_documents
       (printed (snd (sample_main (Some linked_directory) roomy_disk)))
     = Some 1.
Proof. vm_compute. repeat split. Qed.

(** C2 as amended, on the sample directory: four entries are files, the
    report counts four. *)
Lemma scan_takes_every_file_sample :
  exists report,
    printed (snd (sample_main (Some sample_directory) roomy_disk)) = Some report
    /\ rep_total_documents report
       = Z.of_nat (List.length (filter (fun p => is_file (p_node p)) sample_directory)).
Proof.
  apply (proj2 (proj2 (@scan_takes_every_file ascii_lower sample_world sample_convert
                         sample_now sample_run (lit "python3") sample_dump None
                         sample_directory (sample_state roomy_disk)))).
  vm_compute. discriminate.
Defined.


(** C9, the claim as it was stated: the device accepts five characters;
    the run ends with the error and the output file, which held an earlier
    report, is left with the first five characters of the new one. *)
Lemma failed_write_leaves_partial_report :
  fst (sample_main (Some sample_directory) full_disk) = Raise OSError
  /\ report_file full_disk = Some (lit "{total_documents: 9}")
  /\ report_file (disk (snd (sample_main (Some sample_directory) full_disk)))
     = Some (firstn 5 (lit "{total_documents: 4}")).
Proof. vm_compute. repeat split. Qed.

(** C10 on the sample directory: the category [data_file] of the grouping
    is processed without a division by zero. *)
Lemma data_file_category_is_processed :
  exists results st',
    test_category sample_convert sample_now (lit "data_file")
                  [record_of ascii_lower (entry "data.csv" ".csv" NRegular 96)]
                  (sample_state roomy_disk)
    = (Return results, st').
Proof.
  apply (proj1 (proj2 (@scan_groups_are_never_empty ascii_lower sample_world
                         sample_convert sample_now (Some sample_directory)))).
  vm_compute. reflexivity.
Defined.

(** ** Further properties of the report *)

(** With at least one outcome, the summary of [test_category] and the
    category breakdown of the report give the same rate, successful / total
    * 100 in the [.1f] format, and neither raises. *)
Theorem nonempty_category_rate (category : str) (results : list outcome) :
  results <> [] ->
  exists rate,
    rate = format_1f (float_of_int (count_successful results)
                      / float_of_int (len_results results) * float_of_int 100)%float
    /\ category_summary results
       = Return (count_successful results,
                 len_results results - count_successful results, rate)
    /\ breakdown [(category, results)]
       = Return [ {| bl_category := category;
                     bl_successful := count_successful results;
                     bl_total := len_results results;
                     bl_rate := rate;
                     bl_failed :=
                       map file_name
                         (filter (fun r => negb (conversion_successful r)) results) |} ].
Proof.
  intros Hne. eexists. split; [reflexivity|].
  assert (Hlen : len_results results <> 0) by now rewrite len_results_zero.
  split.
  - unfold category_summary. now rewrite percentage_returns.
  - rewrite breakdown_returns. cbn [map breakdown_line_of].
    destruct (Z.gtb_spec (len_results results) 0) as [_|Hle]; [reflexivity|].
    pose proof (count_successful_bounds results). unfold len_results in *. lia.
Qed.

Lemma nonempty_category_rate_sample :
  exists rate,
    rate = format_1f (float_of_int (count_successful two_of_three)
                      / float_of_int (len_results two_of_three) * float_of_int 100)%float
    /\ category_summary two_of_three
       = Return (count_successful two_of_three,
                 len_results two_of_three - count_successful two_of_three, rate)
    /\ breakdown [(lit "word_document", two_of_three)]
       = Return [ {| bl_category := lit "word_document";
                     bl_successful := count_successful two_of_three;
                     bl_total := len_results two_of_three;
                     bl_rate := rate;
                     bl_failed :=
                       map file_name
                         (filter (fun r => negb (conversion_successful r))
                                 two_of_three) |} ].
Proof. apply nonempty_category_rate. discriminate. Defined.

(** The rate a category reports is the exact percentage rounded to one
    decimal: with [T] the number of tenths printed, [T / 10] is a decimal
    with one fractional digit nearest to [successful / total * 100]. *)
Theorem category_rate_is_rounded (results : list outcome) :
  results <> [] -> len_results results < 2 ^ 40 ->
  exists T : Z,
    category_summary results
    = Return (count_successful results,
              len_results results - count_successful results,
              render_tenths false T)
    /\ 2 * Z.abs (T * len_results results - 1000 * count_successful results)
       <= len_results results.
Proof.
  intros Hne Hlt.
  assert (Hlen : len_results results <> 0) by now rewrite len_results_zero.
  pose proof (count_successful_bounds results) as Hb.
  assert (Hpos : 0 < len_results results) by (unfold len_results in *; lia).
  destruct (rate_tenths (count_successful results) (len_results results))
    as [T [HT Hnear]]; [unfold len_results in *; lia | lia |].
  exists T. split; [|exact Hnear].
  unfold category_summary. rewrite percentage_returns by exact Hlen.
  rewrite HT. reflexivity.
Qed.

Lemma category_rate_is_rounded_sample :
  exists T : Z,
    category_summary two_of_three
    = Return (count_successful two_of_three,
              len_results two_of_three - count_successful two_of_three,
              render_tenths false T)
    /\ 2 * Z.abs (T * len_results two_of_three - 1000 * count_successful two_of_three)
       <= len_results two_of_three.
Proof. apply category_rate_is_rounded; [discriminate | vm_compute; reflexivity]. Defined.

(** [has_content] is true exactly when the text has a character that is
    not whitespace. *)
Theorem has_content_iff (text : str) :
  (len (strip text) >? 0) = true <-> exists c, In c text /\ is_space c = false.
Proof.
  rewrite has_content_nonempty, negb_true_iff, str_eqb_neq.
  split.
  - intros Hne.
    destruct (forallb is_space text) eqn:E.
    + now apply strip_nil_iff in E.
    + clear Hne. induction text as [|c text IH]; [discriminate|].
      simpl in E. destruct (is_space c) eqn:Ec.
      * destruct (IH E) as [c' [Hin Hc']]. exists c'. split; [now right | exact Hc'].
      * exists c. split; [now left | exact Ec].
  - intros [c [Hin Hc]] Hnil. apply strip_nil_iff in Hnil.
    rewrite forallb_forall in Hnil. rewrite (Hnil c Hin) in Hc. discriminate.
Qed.

(** ** The scenarios of the specification *)

(** The end-to-end scenario: the four categories, 4 documents, 3
    successful, 1 failed, the drawing at 0 of 1, and a complete run. *)
Example end_to_end_scenario :
  dict_keys (get_test_documents ascii_lower (Some sample_directory))
  = [lit "word_document"; lit "data_file"; lit "scanned_document";
     lit "engineering_drawing"]
  /\ option_map
       (fun r => (rep_total_documents r, rep_total_successful r, rep_total_failed r,
                  rep_overall_rate r, rep_engineering r, rep_ready r))
       (printed (snd (sample_main (Some sample_directory) roomy_disk)))
     = Some (4, 3, 1, lit "75.0", Some (0, 1, false), true)
  /\ converted (snd (sample_main (Some sample_directory) roomy_disk))
     = [lit "test-docs/report.docx"; lit "test-docs/data.csv";
        lit "test-docs/scan_invoice.png"; lit "test-docs/drawing.dwg"]
  /\ report_file (disk (snd (sample_main (Some sample_directory) roomy_disk)))
     = Some (lit "{total_documents: 4}").
Proof. vm_compute. repeat split. Qed.

(** Three files of which two succeeded report 66.7, in the summary of the
    category and in the breakdown. *)
Example two_of_three_rate :
  category_summary two_of_three = Return (2, 1, lit "66.7")
  /\ bl_rate (breakdown_line_of (lit "word_document", two_of_three)) = lit "66.7".
Proof. vm_compute. split; reflexivity. Qed.

(** The readiness scenario is judged ready. *)
Example readiness_scenario_ready :
  option_map_result rep_ready (generate_kmrl_report readiness_scenario []) = Some true.
Proof. reflexivity. Qed.

(** A text of whitespace only, with a no-break space, has no content; the
    preview of a long text has 203 characters. *)
Example blank_text_has_no_content :
  strip [32; 160; 9; 10]%N = []
  /\ len (preview_of (repeat 120%N 500)) = 203.
Proof. vm_compute. split; reflexivity. Qed.

(* ================================================================== *)
(** * Further properties of the program *)

(** ** The grouping of the scan *)

Lemma str_in_In (c : str) (l : list str) : str_in c l = true <-> In c l.
Proof.
  unfold str_in. rewrite existsb_exists. split.
  - intros [x [Hx He]]. apply str_eqb_eq in He. now subst.
  - intros H. exists c. split; [exact H | apply str_eqb_refl].
Qed.

Lemma first_seen_snoc (l : list str) (c : str) :
  first_seen (l ++ [c])
  = if str_in c (first_seen l) then first_seen l else first_seen l ++ [c].
Proof. unfold first_seen. now rewrite fold_left_app. Qed.

Lemma first_seen_In (l : list str) (c : str) : In c (first_seen l) <-> In c l.
Proof.
  revert c. induction l as [|x l IH] using rev_ind; intros c.
  - reflexivity.
  - rewrite first_seen_snoc, in_app_iff.
    destruct (str_in x (first_seen l)) eqn:E.
    + rewrite IH. apply str_in_In in E. apply IH in E.
      split; [tauto|]. intros [H|[H|[]]]; [exact H | now subst].
    + rewrite in_app_iff, IH. reflexivity.
Qed.

Lemma first_seen_NoDup (l : list str) : NoDup (first_seen l).
Proof.
  induction l as [|x l IH] using rev_ind.
  - constructor.
  - rewrite first_seen_snoc. destruct (str_in x (first_seen l)) eqn:E; [exact IH|].
    apply NoDup_app; [exact IH | repeat constructor; intros [] |].
    intros y Hy [<-|[]]. apply str_in_In in Hy. congruence.
Qed.

Lemma dict_append_grouped (A : Type) (f : str -> list A) (c : str) (x : A)
    (keys : list str) :
  NoDup keys -> In c keys ->
  dict_append c x (map (fun k => (k, f k)) keys)
  = map (fun k => (k, if str_eqb c k then f k ++ [x] else f k)) keys.
Proof.
  induction keys as [|k keys IH]; intros Hnd Hin; [destruct Hin|].
  inversion Hnd as [|? ? Hk Hnd']; subst. cbn [map dict_append].
  destruct (str_eqb c k) eqn:E.
  - apply str_eqb_eq in E. subst k. f_equal.
    apply map_ext_in. intros k' Hk'.
    destruct (str_eqb c k') eqn:E'; [|reflexivity].
    apply str_eqb_eq in E'. now subst.
  - f_equal. apply IH; [exact Hnd'|].
    destruct Hin as [->|H]; [|exact H]. now rewrite str_eqb_refl in E.
Qed.

Section GroupFacts.
Variable lower : str -> str.

Local Abbreviation cat := (entry_category lower).
Local Abbreviation files := (filter (fun p : dir_entry => is_file (p_node p))).
Local Abbreviation recs c l :=
  (map (record_of lower) (filter (fun p => str_eqb (cat p) c) l)).

Lemma recs_snoc (c : str) (l : list dir_entry) (p : dir_entry) :
  recs c (l ++ [p])
  = if str_eqb (cat p) c then recs c l ++ [record_of lower p] else recs c l.
Proof.
  rewrite filter_app, map_app. cbn [filter].
  destruct (str_eqb (cat p) c); cbn [map]; [reflexivity | apply app_nil_r].
Qed.

Lemma recs_absent (c : str) (l : list dir_entry) :
  ~ In c (map cat l) -> recs c l = [].
Proof.
  intros H. induction l as [|p l IH]; [reflexivity|].
  cbn [filter]. destruct (str_eqb (cat p) c) eqn:E.
  - apply str_eqb_eq in E. exfalso. apply H. left. exact E.
  - apply IH. intros Hin. apply H. right. exact Hin.
Qed.

Lemma group_by_category_snoc (entries : list dir_entry) (p : dir_entry) :
  group_by_category lower (entries ++ [p])
  = scan_entry lower (group_by_category lower entries) p.
Proof.
  rewrite scan_entry_cases. unfold group_by_category. cbn zeta.
  rewrite filter_app. cbn [filter].
  destruct (is_file (p_node p)) eqn:Hfile; [|now rewrite app_nil_r].
  fold (cat p). set (fs := files entries).
  rewrite map_app. cbn [map]. rewrite first_seen_snoc.
  pose proof (first_seen_NoDup (map cat fs)) as Hnd.
  set (keys := first_seen (map cat fs)) in *.
  destruct (dict_mem (cat p) (map (fun c => (c, recs c fs)) keys)) eqn:Hmem.
  - apply dict_mem_true in Hmem.
    unfold dict_keys in Hmem. rewrite map_map, map_id in Hmem.
    assert (Hin : str_in (cat p) keys = true) by now apply str_in_In.
    rewrite Hin, dict_append_grouped by assumption.
    apply map_ext. intros c. now rewrite recs_snoc.
  - apply dict_mem_false in Hmem.
    unfold dict_keys in Hmem. rewrite map_map, map_id in Hmem.
    assert (Hin : str_in (cat p) keys = false).
    { destruct (str_in (cat p) keys) eqn:E; [|reflexivity].
      apply str_in_In in E. contradiction. }
    rewrite Hin, map_app. cbn [map]. f_equal.
    + apply map_ext_in. intros c Hc. rewrite recs_snoc.
      destruct (str_eqb (cat p) c) eqn:E; [|reflexivity].
      apply str_eqb_eq in E. subst c. contradiction.
    + rewrite recs_snoc, str_eqb_refl, recs_absent; [reflexivity|].
      intros H. apply Hmem. subst keys. now apply first_seen_In.
Qed.

Lemma scan_grouping (entries : list dir_entry) :
  get_test_documents lower (Some entries) = group_by_category lower entries.
Proof.
  unfold get_test_documents.
  induction entries as [|p entries IH] using rev_ind; [reflexivity|].
  now rewrite fold_left_app, IH, group_by_category_snoc.
Qed.

Lemma dict_get_grouped (A : Type) (f : str -> A) (c : str) (keys : list str) :
  dict_get c (map (fun k => (k, f k)) keys)
  = if str_in c keys then Some (f c) else None.
Proof.
  induction keys as [|k keys IH]; [reflexivity|].
  cbn [map dict_get str_in existsb]. fold (str_in c keys).
  destruct (str_eqb c k) eqn:E; [|exact IH].
  apply str_eqb_eq in E. now subst.
Qed.

(** The scan groups the files of the directory by category: the keys are
    the categories in the order in which the listing first shows them, and
    a category that has a file holds the records of its files in the order
    of the listing; a category without a file is no key. *)
Theorem scan_groups_in_listing_order (entries : list dir_entry) :
  let files := filter (fun p => is_file (p_node p)) entries in
  get_test_documents lower (Some entries) = group_by_category lower entries
  /\ dict_keys (get_test_documents lower (Some entries))
     = first_seen (map (entry_category lower) files)
  /\ forall category,
       dict_get category (get_test_documents lower (Some entries))
       = if existsb (fun p => str_eqb (entry_category lower p) category) files
         then Some (map (record_of lower)
                      (filter (fun p => str_eqb (entry_category lower p) category)
                              files))
         else None.
Proof.
  cbn zeta. rewrite scan_grouping. split; [reflexivity|].
  unfold group_by_category. cbn zeta. split.
  - unfold dict_keys. rewrite map_map. apply map_id.
  - intros category.
    rewrite (dict_get_grouped
               (fun c => map (record_of lower)
                           (filter (fun p => str_eqb (entry_category lower p) c)
                                   (files entries)))).
    set (fs := files entries).
    assert (Hin : str_in category (first_seen (map cat fs))
                  = existsb (fun p => str_eqb (cat p) category) fs).
    { apply eq_true_iff_eq. rewrite str_in_In, first_seen_In, in_map_iff, existsb_exists.
      split; intros [p [H1 H2]]; exists p.
      - split; [exact H2 | apply str_eqb_eq; exact H1].
      - split; [apply str_eqb_eq; exact H2 | exact H1]. }
    now rewrite Hin.
Qed.

End GroupFacts.

(** ** The gate of the imports *)

Section ImportFacts.
Variable is_ImportError : exn -> bool.
Variable is_AttributeError : exn -> bool.
Variable lower : str -> str.
Variable World : Type.
Variable convert_document : str -> World -> pyresult (str * str) * World.
Variable now_isoformat : World -> str * World.
Variable subprocess_run : list str -> Z -> World -> run_outcome * World.
Variable sys_executable : str.
Variable json_dump : report_data -> str.

Local Abbreviation check := (test_docling_import is_ImportError is_AttributeError).
Local Abbreviation program :=
  (kmrl_main is_ImportError is_AttributeError lower convert_document now_isoformat
             subprocess_run sys_executable json_dump).

Lemma on_import_error_not_true (e : exn) (out : list import_message) :
  fst (on_import_error is_ImportError e out) <> Return true.
Proof. unfold on_import_error. destruct (is_ImportError e); discriminate. Qed.

(** [test_docling_import] returns [True] exactly when the three imports
    succeed and the version, if its access fails, fails with an
    [AttributeError]; it returns [False] when [import docling] raises an
    [ImportError]; and once it has returned [False] the program stops with
    nothing converted, started, printed or written. *)
Theorem docling_import_gate (env : import_env) :
  (fst (check env) = Return true
   <-> import_docling env = Return tt
       /\ (forall e, docling_version_attr env = Raise e -> is_AttributeError e = true)
       /\ import_DocumentConverter env = Return tt
       /\ import_InputFormat env = Return tt)
  /\ (forall e, import_docling env = Raise e -> is_ImportError e = true ->
                fst (check env) = Return false)
  /\ (forall listing st,
         fst (check env) = Return false ->
         program env listing st = (Return NoDocling, st)).
Proof.
  split; [|split].
  - unfold test_docling_import, version_line. split.
    + intros H.
      destruct (import_docling env) as [[]|e0];
        [|now apply on_import_error_not_true in H].
      destruct (docling_version_attr env) as [v|e1].
      * destruct (import_DocumentConverter env) as [[]|e2];
          [|now apply on_import_error_not_true in H].
        destruct (import_InputFormat env) as [[]|e3];
          [|now apply on_import_error_not_true in H].
        repeat split. discriminate.
      * destruct (is_AttributeError e1) eqn:E1;
          [|now apply on_import_error_not_true in H].
        destruct (import_DocumentConverter env) as [[]|e2];
          [|now apply on_import_error_not_true in H].
        destruct (import_InputFormat env) as [[]|e3];
          [|now apply on_import_error_not_true in H].
        repeat split. intros e [= <-]. exact E1.
    + intros [-> [Hv [-> ->]]].
      destruct (docling_version_attr env) as [v|e1]; [reflexivity|].
      now rewrite (Hv e1 eq_refl).
  - intros e He Hi. unfold test_docling_import, on_import_error.
    now rewrite He, Hi.
  - intros listing st H. unfold kmrl_main. rewrite H. reflexivity.
Qed.

End ImportFacts.

(** ** The run from its first step to its last *)

Section MoreRunFacts.
Variable lower : str -> str.
Variable World : Type.
Variable convert_document : str -> World -> pyresult (str * str) * World.
Variable now_isoformat : World -> str * World.
Variable subprocess_run : list str -> Z -> World -> run_outcome * World.
Variable sys_executable : str.
Variable json_dump : report_data -> str.
Variable docling__version__ : option str.

Local Abbreviation convert_one := (test_document_conversion convert_document now_isoformat).
Local Abbreviation convert_each := (test_category_loop convert_document now_isoformat).
Local Abbreviation run_category := (test_category convert_document now_isoformat).
Local Abbreviation run_categories := (test_categories convert_document now_isoformat).
Local Abbreviation run_cli := (test_cli_interface lower subprocess_run sys_executable).
Local Abbreviation save := (save_results now_isoformat json_dump docling__version__).
Local Abbreviation run :=
  (main lower convert_document now_isoformat subprocess_run sys_executable
        json_dump docling__version__).

Lemma has_file_scan (listing : option (list dir_entry)) :
  has_file listing = false <-> get_test_documents lower listing = [].
Proof.
  destruct listing as [entries|]; [|split; reflexivity].
  rewrite scan_grouping. unfold group_by_category, has_file.
  induction entries as [|p entries IH].
  - split; reflexivity.
  - cbn [existsb filter]. destruct (is_file (p_node p)) eqn:E.
    + split; [discriminate|]. intros H. apply map_eq_nil in H.
      cbn [map] in H.
      assert (Hin : In (entry_category lower p)
                       (first_seen (entry_category lower p
                                    :: map (entry_category lower)
                                         (filter (fun q => is_file (p_node q)) entries)))).
      { apply first_seen_In. now left. }
      rewrite H in Hin. destruct Hin.
    + exact IH.
Qed.

Lemma scan_concat_nonempty (listing : option (list dir_entry)) :
  get_test_documents lower listing <> [] ->
  List.concat (dict_values (get_test_documents lower listing)) <> [].
Proof.
  intros Hne. destruct (well_grouped_scan lower listing) as [_ Hall].
  destruct (get_test_documents lower listing) as [|[c docs] rest]; [congruence|].
  inversion Hall as [|? ? [Hdocs _] _]; subst. cbn in *.
  destruct docs; [congruence | discriminate].
Qed.

(** On a standard output that takes every line: without docling, or
    without a file in [test-docs], [main] returns at once and leaves the
    state as it was; otherwise it converts at least one file and prints the
    report. *)
Lemma run_stops_early (docling_installed : bool)
    (listing : option (list dir_entry)) (st : state World) :
  if docling_installed && has_file listing
  then (exists report, printed (snd (run docling_installed listing st)) = Some report)
       /\ (List.length (converted st)
           < List.length (converted (snd (run docling_installed listing st))))%nat
  else run docling_installed listing st
       = (Return (if docling_installed then NoDocuments else NoDocling), st).
Proof.
  destruct docling_installed; [|reflexivity]. cbn [andb].
  destruct (has_file listing) eqn:Hfile.
  - assert (Hne : get_test_documents lower listing <> []).
    { intros H. apply has_file_scan in H. congruence. }
    destruct (@run_with_documents lower World convert_document now_isoformat
                subprocess_run sys_executable json_dump docling__version__
                listing st Hne)
      as [all_results [cli [report [st1 [st2 [H1 [H2 [H3 [H4 Hrun]]]]]]]]].
    destruct (@run_categories_scan lower World convert_document now_isoformat
                listing st)
      as [rs [st1' [H1' [_ [_ [Hc1 _]]]]]].
    rewrite H1 in H1'. injection H1' as <- <-.
    destruct (@run_cli_returns lower World subprocess_run sys_executable listing st1)
      as [cli' [st2' [H2' [Hc2 _]]]].
    rewrite H2 in H2'. injection H2' as <- <-.
    destruct (@save_results_spec World now_isoformat json_dump docling__version__
                all_results cli
                {| world := world st2; converted := converted st2;
                   invoked := invoked st2; printed := Some report;
                   disk := disk st2 |})
      as [ts [data [st3 [_ [Hsave [_ [Hc3 [_ Hp3]]]]]]]].
    rewrite Hrun, Hsave.
    assert (Hst3 : printed st3 = Some report /\ converted st3 = converted st2).
    { split; assumption. }
    assert (Hlen : (List.length (converted st) < List.length (converted st3))%nat).
    { destruct Hst3 as [_ ->]. rewrite Hc2, Hc1, length_app, length_map.
      destruct (List.concat (dict_values (get_test_documents lower listing))) eqn:E.
      - exfalso. exact (scan_concat_nonempty listing Hne E).
      - cbn [List.length]. lia. }
    destruct (fst (write_file (json_dump data)
                     (disk {| world := world st2; converted := converted st2;
                              invoked := invoked st2; printed := Some report;
                              disk := disk st2 |}))) as [[]|e];
      cbn [snd]; (split; [exists report; tauto | exact Hlen]).
  - apply has_file_scan in Hfile. unfold main. cbn [negb].
    rewrite Hfile. reflexivity.
Qed.

Lemma outcome_for_mirrors category doc (r : pyresult (str * str)) ts :
  mirrors category doc (outcome_for category doc r ts).
Proof. destruct r as [[md txt]|e]; repeat split. Qed.

Lemma convert_each_mirror category docs st :
  exists results st',
    convert_each category docs st = (Return results, st')
    /\ Forall2 (mirrors category) docs results.
Proof.
  revert st. induction docs as [|doc docs IH]; intros st.
  - exists [], st. split; [reflexivity | constructor].
  - destruct (@convert_one_spec World convert_document now_isoformat
                (path doc) category doc st) as [ts [st1 [H1 _]]].
    destruct (IH st1) as [results [st2 [H2 HF]]].
    eexists. exists st2. cbn [test_category_loop]. step H1. step H2. unfold ret.
    split; [reflexivity|]. constructor; [apply outcome_for_mirrors | exact HF].
Qed.

Lemma run_categories_mirror items :
  forall acc st,
    Forall (fun kv => snd kv <> []) items ->
    NoDup (dict_keys acc ++ dict_keys items) ->
    exists rs st',
      run_categories items acc st = (Return (acc ++ rs), st')
      /\ Forall2 (fun kv kr => fst kr = fst kv
                               /\ Forall2 (mirrors (fst kv)) (snd kv) (snd kr))
                 items rs.
Proof.
  induction items as [|[category docs] items IH]; intros acc st Hne Hnd.
  - exists [], st. simpl. rewrite app_nil_r. split; [reflexivity | constructor].
  - inversion Hne as [|? ? Hdocs Hne']; subst. simpl in Hdocs.
    destruct (convert_each_mirror category docs st) as [results [st1 [H1 HF1]]].
    rewrite <- (@convert_category_nonempty World convert_document now_isoformat
                  category docs st Hdocs) in H1.
    assert (Hfresh : dict_mem category acc = false).
    { apply dict_mem_false. simpl in Hnd. apply NoDup_remove_2 in Hnd.
      intros Hin. apply Hnd. apply in_or_app. now left. }
    destruct (IH (acc ++ [(category, results)]) st1 Hne') as [rs [st2 [H2 HF]]].
    { unfold dict_keys. rewrite map_app, <- app_assoc. exact Hnd. }
    exists ((category, results) :: rs), st2.
    cbn [test_categories]. step H1.
    rewrite dict_set_fresh by assumption. rewrite H2, <- app_assoc.
    split; [reflexivity|]. constructor; [now split | exact HF].
Qed.

(** The results mirror the documents: [main] files the outcomes under the
    categories of the scan, in the same order, and under each category the
    i-th outcome is the one of the i-th document, with its name, its size
    and that category. *)
Theorem results_mirror_documents (listing : option (list dir_entry))
    (st : state World) :
  exists all_results st',
    run_categories (get_test_documents lower listing) [] st
    = (Return all_results, st')
    /\ Forall2 (fun kv kr => fst kr = fst kv
                             /\ Forall2 (mirrors (fst kv)) (snd kv) (snd kr))
               (get_test_documents lower listing) all_results.
Proof.
  destruct (well_grouped_scan lower listing) as [Hnd Hall].
  destruct (@run_categories_mirror (get_test_documents lower listing) [] st)
    as [rs [st' [H HF]]].
  - eapply Forall_impl; [|exact Hall]. intros kv [Hne _]. exact Hne.
  - exact Hnd.
  - now exists rs, st'.
Qed.

End MoreRunFacts.

(** ** The report, line by line *)

Local Abbreviation rate_of s t :=
  (float_of_int s / float_of_int t * float_of_int 100)%float.

Lemma count_successful_app (l1 l2 : list outcome) :
  count_successful (l1 ++ l2) = count_successful l1 + count_successful l2.
Proof.
  unfold count_successful. rewrite filter_app, length_app. lia.
Qed.

Lemma len_results_app (A : Type) (l1 l2 : list A) :
  len_results (l1 ++ l2) = len_results l1 + len_results l2.
Proof. unfold len_results. rewrite length_app. lia. Qed.

Lemma ocr_fold (all_results : dict (list outcome)) (cats : list str) (a b : Z) :
  fold_left (ocr_step all_results) cats (a, b)
  = (a + count_successful (flat_map (results_of all_results) cats),
     b + len_results (flat_map (results_of all_results) cats)).
Proof.
  revert a b. induction cats as [|c cats IH]; intros a b.
  - cbn. f_equal; lia.
  - cbn [fold_left flat_map]. rewrite count_successful_app, len_results_app.
    unfold ocr_step at 2, results_of at 1 3.
    destruct (dict_get c all_results) as [results|]; rewrite IH; f_equal;
      cbn; unfold len_results; cbn; lia.
Qed.

(** The report that [generate_kmrl_report] produces when there is a
    document. *)
Lemma generate_kmrl_report_contents (all_results : dict (list outcome))
    (cli_results : list cli_result) :
  sum_len all_results <> 0 ->
  generate_kmrl_report all_results cli_results
  = Return
      {| rep_total_documents := sum_len all_results;
         rep_total_successful := sum_successful all_results;
         rep_total_failed := sum_len all_results - sum_successful all_results;
         rep_overall_rate :=
           format_1f (rate_of (sum_successful all_results) (sum_len all_results));
         rep_breakdown := map breakdown_line_of all_results;
         rep_cli :=
           match cli_results with
           | [] => None
           | _ :: _ =>
               Some (len_results (filter cli_successful cli_results),
                     len_results cli_results,
                     format_1f (rate_of (len_results (filter cli_successful cli_results))
                                        (len_results cli_results)))
           end;
         rep_critical :=
           snd (fold_left (critical_step all_results) critical_categories (true, []));
         rep_ocr :=
           if len_results (ocr_results all_results) >? 0 then
             Some (count_successful (ocr_results all_results),
                   len_results (ocr_results all_results),
                   format_1f (rate_of (count_successful (ocr_results all_results))
                                      (len_results (ocr_results all_results))),
                   (float_of_int 50
                    <=? rate_of (count_successful (ocr_results all_results))
                                (len_results (ocr_results all_results)))%float)
           else None;
         rep_engineering :=
           match dict_get (lit "engineering_drawing") all_results with
           | Some eng_results =>
               Some (count_successful eng_results, len_results eng_results,
                     count_successful eng_results >? 0)
           | None => None
           end;
         rep_ready :=
           critical_ready all_results
           && meets_threshold (sum_successful all_results) (sum_len all_results) |}.
Proof.
  intros Htotal. unfold generate_kmrl_report.
  rewrite percentage_returns by assumption. cbn [rbind].
  rewrite breakdown_returns. cbn [rbind].
  assert (Hcli :
            match cli_results with
            | [] => Return None
            | _ :: _ =>
                rbind (percentage
                         (Z.of_nat (List.length (filter cli_successful cli_results)))
                         (len_results cli_results))
                      (fun rate =>
                         Return (Some (Z.of_nat (List.length
                                                   (filter cli_successful cli_results)),
                                       len_results cli_results, format_1f rate)))
            end
            = Return
                match cli_results with
                | [] => None
                | _ :: _ =>
                    Some (len_results (filter cli_successful cli_results),
                          len_results cli_results,
                          format_1f
                            (rate_of (len_results (filter cli_successful cli_results))
                                     (len_results cli_results)))
                end).
  { destruct cli_results as [|r rs]; [reflexivity|].
    rewrite percentage_returns; [reflexivity|].
    rewrite len_results_zero. discriminate. }
  rewrite Hcli. cbn [rbind].
  pose proof (critical_fold all_results critical_categories true []) as Hcrit.
  destruct (fold_left (critical_step all_results) critical_categories (true, []))
    as [critical_success critical_lines].
  cbn [fst andb] in Hcrit. fold (critical_ready all_results) in Hcrit.
  subst critical_success.
  rewrite ocr_fold. cbn [Z.add]. fold (ocr_results all_results).
  destruct (Z.gtb_spec (len_results (ocr_results all_results)) 0) as [Hocr|Hocr].
  - rewrite percentage_returns by lia. reflexivity.
  - reflexivity.
Qed.

Lemma failed_count (results : list outcome) :
  count_successful results
  + len_results (filter (fun r => negb (conversion_successful r)) results)
  = len_results results.
Proof.
  unfold count_successful, len_results.
  pose proof (filter_length conversion_successful results). lia.
Qed.

Lemma sum_failed_eq (all_results : dict (list outcome)) :
  sum_failed all_results = sum_len all_results - sum_successful all_results.
Proof.
  unfold sum_failed, sum_len, sum_successful.
  induction (dict_values all_results) as [|l ls IH]; cbn [fold_right]; [reflexivity|].
  pose proof (failed_count l). unfold len_results in *. lia.
Qed.

Lemma breakdown_line_of_fields (item : str * list outcome) :
  bl_category (breakdown_line_of item) = fst item
  /\ bl_total (breakdown_line_of item) = len_results (snd item)
  /\ bl_successful (breakdown_line_of item) = count_successful (snd item)
  /\ bl_failed (breakdown_line_of item)
     = map file_name (filter (fun r => negb (conversion_successful r)) (snd item)).
Proof. destruct item as [category results]. repeat split. Qed.

(** The category breakdown adds up to the overall statistics: one line per
    category in the order of the results, whose totals, successes and
    failed file names sum to the three overall figures, each line listing
    as many failed files as it counts failures. *)
Theorem breakdown_adds_up (all_results : dict (list outcome))
    (cli : list cli_result) :
  sum_len all_results <> 0 ->
  exists report,
    generate_kmrl_report all_results cli = Return report
    /\ map bl_category (rep_breakdown report) = dict_keys all_results
    /\ zsum (map bl_total (rep_breakdown report)) = rep_total_documents report
    /\ zsum (map bl_successful (rep_breakdown report)) = rep_total_successful report
    /\ zsum (map (fun line => len_results (bl_failed line)) (rep_breakdown report))
       = rep_total_failed report
    /\ Forall (fun line =>
                 bl_successful line + len_results (bl_failed line) = bl_total line)
              (rep_breakdown report).
Proof.
  intros Htotal. eexists. split; [now apply generate_kmrl_report_contents|].
  cbn [rep_breakdown rep_total_documents rep_total_successful rep_total_failed].
  rewrite <- sum_failed_eq. clear Htotal.
  unfold dict_keys, sum_len, sum_successful, sum_failed, dict_values, zsum.
  induction all_results as [|[category results] rest IH].
  - cbn. repeat split. constructor.
  - destruct IH as [IH1 [IH2 [IH3 [IH4 IH5]]]].
    cbn [map fold_right fst snd]. rewrite IH1, IH2, IH3, IH4.
    cbn [breakdown_line_of bl_category bl_total bl_successful bl_failed].
    repeat split.
    + unfold len_results. now rewrite length_map.
    + constructor; [|exact IH5].
      cbn [breakdown_line_of bl_total bl_successful bl_failed].
      unfold len_results at 1. rewrite length_map. apply failed_count.
Qed.

(** The verdict does not look at the command-line results: with other
    command-line results the report is produced or not all the same, and
    only its command-line section differs. *)
Theorem verdict_ignores_cli (all_results : dict (list outcome))
    (cli cli' : list cli_result) :
  match generate_kmrl_report all_results cli,
        generate_kmrl_report all_results cli' with
  | Return r, Return r' =>
      rep_ready r' = rep_ready r
      /\ rep_total_documents r' = rep_total_documents r
      /\ rep_total_successful r' = rep_total_successful r
      /\ rep_total_failed r' = rep_total_failed r
      /\ rep_overall_rate r' = rep_overall_rate r
      /\ rep_breakdown r' = rep_breakdown r
      /\ rep_critical r' = rep_critical r
      /\ rep_ocr r' = rep_ocr r
      /\ rep_engineering r' = rep_engineering r
  | Raise e, Raise e' => e' = e /\ sum_len all_results = 0
  | _, _ => False
  end.
Proof.
  destruct (Z.eq_dec (sum_len all_results) 0) as [Hzero|Hpos].
  - rewrite !generate_kmrl_report_empty by assumption. now split.
  - rewrite !generate_kmrl_report_contents by assumption. repeat split.
Qed.

(** The OCR line of the assessment (lines 303-320): it is printed when the
    OCR categories present hold at least one result (fewer than [2^48]
    here), counts their results and their successes, and calls OCR ready
    exactly when at least half of them succeeded. *)
Theorem ocr_assessment (all_results : dict (list outcome)) (cli : list cli_result) :
  sum_len all_results <> 0 ->
  len_results (ocr_results all_results) < 2 ^ 48 ->
  exists report,
    generate_kmrl_report all_results cli = Return report
    /\ match rep_ocr report with
       | None => ocr_results all_results = []
       | Some (ocr_success, ocr_total, _, ocr_ready) =>
           ocr_success = count_successful (ocr_results all_results)
           /\ ocr_total = len_results (ocr_results all_results)
           /\ 0 < ocr_total
           /\ ocr_ready = (ocr_total <=? 2 * ocr_success)
       end.
Proof.
  intros Htotal Hocr. eexists. split; [now apply generate_kmrl_report_contents|].
  cbn [rep_ocr].
  destruct (Z.gtb_spec (len_results (ocr_results all_results)) 0) as [Hpos|Hzero].
  - repeat split; [exact Hpos|].
    apply rate_at_least_50_iff; [apply count_successful_bounds | lia].
  - apply len_results_zero. unfold len_results in *. lia.
Qed.

Lemma all_successful (all_results : dict (list outcome)) :
  sum_successful all_results = sum_len all_results ->
  Forall (fun kv => count_successful (snd kv) = len_results (snd kv)) all_results.
Proof.
  unfold sum_successful, sum_len, dict_values.
  induction all_results as [|[c l] rest IH]; cbn [map fold_right snd]; intros H.
  - constructor.
  - pose proof (count_successful_bounds l) as Hl.
    pose proof (sum_successful_bounds rest) as Hrest.
    unfold sum_successful, sum_len, dict_values, len_results in *.
    constructor; [cbn [snd]; unfold len_results; lia | apply IH; lia].
Qed.

(** The two ends of the verdict (fewer than [2^48] documents): a run
    without a single successful conversion is never judged ready, and a run
    without a failure, in which no category is empty, always is. *)
Theorem verdict_extremes (all_results : dict (list outcome)) (cli : list cli_result) :
  0 < sum_len all_results < 2 ^ 48 ->
  exists report,
    generate_kmrl_report all_results cli = Return report
    /\ (rep_total_successful report = 0 -> rep_ready report = false)
    /\ (rep_total_failed report = 0 ->
        Forall (fun kv => snd kv <> []) all_results ->
        rep_ready report = true).
Proof.
  intros Htotal. eexists. split; [apply generate_kmrl_report_contents; lia|].
  cbn [rep_total_successful rep_total_failed rep_ready].
  pose proof (sum_successful_bounds all_results) as Hb.
  split.
  - intros Hzero. apply andb_false_iff. right.
    destruct (meets_threshold (sum_successful all_results) (sum_len all_results)) eqn:E;
      [|reflexivity].
    apply meets_threshold_spec in E; lia.
  - intros Hfailed Hne. apply andb_true_iff. split.
    + apply critical_ready_iff. intros category results _ Hget.
      apply dict_get_in in Hget.
      assert (Hall : sum_successful all_results = sum_len all_results) by lia.
      apply all_successful in Hall.
      rewrite Forall_forall in Hall, Hne.
      specialize (Hall _ Hget). specialize (Hne _ Hget). cbn [snd] in *.
      rewrite Hall. destruct results; [congruence|].
      unfold len_results. cbn [List.length]. lia.
    + apply meets_threshold_spec; lia.
Qed.

Lemma len_le_sum_len (A : Type) (all_results : dict (list A)) (kv : str * list A) :
  In kv all_results -> len_results (snd kv) <= sum_len all_results.
Proof.
  unfold sum_len, dict_values, len_results.
  induction all_results as [|kv' rest IH]; intros Hin; [destruct Hin|].
  cbn [map fold_right].
  assert (Hrest : 0 <= fold_right (fun l acc => Z.of_nat (List.length l) + acc) 0
                         (map snd rest)).
  { clear. induction rest as [|x rest IH]; cbn [map fold_right]; lia. }
  destruct Hin as [->|Hin]; [lia|]. specialize (IH Hin). lia.
Qed.

Lemma format_1f_zero : format_1f (float_of_int 0) = render_tenths false 0.
Proof. reflexivity. Qed.

(** The overall rate and the rate of each category line are the exact
    percentages rounded to one decimal (fewer than [2^40] documents): they
    are printed as [T / 10] with [T] an integer nearest to
    [1000 * successful / total], and as 0.0 for a category without a
    result. *)
Theorem report_rates_are_rounded (all_results : dict (list outcome))
    (cli : list cli_result) :
  0 < sum_len all_results < 2 ^ 40 ->
  exists report T,
    generate_kmrl_report all_results cli = Return report
    /\ rep_overall_rate report = render_tenths false T
    /\ 2 * Z.abs (T * rep_total_documents report - 1000 * rep_total_successful report)
       <= rep_total_documents report
    /\ Forall (fun line =>
                 exists T',
                   bl_rate line = render_tenths false T'
                   /\ 2 * Z.abs (T' * bl_total line - 1000 * bl_successful line)
                      <= bl_total line
                   /\ (bl_total line = 0 -> T' = 0))
              (rep_breakdown report).
Proof.
  intros Htotal.
  pose proof (sum_successful_bounds all_results) as Hb.
  destruct (rate_tenths (sum_successful all_results) (sum_len all_results))
    as [T [HT Hnear]]; [lia | lia |].
  eexists. exists T. split; [apply generate_kmrl_report_contents; lia|].
  cbn [rep_overall_rate rep_total_documents rep_total_successful rep_breakdown].
  split; [exact HT|]. split; [exact Hnear|].
  apply Forall_forall. intros line Hline. apply in_map_iff in Hline.
  destruct Hline as [[category results] [<- Hin]].
  apply len_le_sum_len in Hin. cbn [snd] in Hin.
  cbn [breakdown_line_of bl_rate bl_total bl_successful].
  pose proof (count_successful_bounds results) as Hc.
  destruct (Z.gtb_spec (len_results results) 0) as [Hpos|Hzero].
  - destruct (rate_tenths (count_successful results) (len_results results))
      as [T' [HT' Hnear']]; [lia | lia |].
    exists T'. split; [exact HT'|]. split; [exact Hnear' | lia].
  - exists 0. split; [apply format_1f_zero|]. split; [lia | reflexivity].
Qed.

(** ** What the run leaves behind *)

Section EffectFacts.
Variable lower : str -> str.
Variable World : Type.
Variable convert_document : str -> World -> pyresult (str * str) * World.
Variable now_isoformat : World -> str * World.
Variable subprocess_run : list str -> Z -> World -> run_outcome * World.
Variable sys_executable : str.
Variable json_dump : report_data -> str.
Variable docling__version__ : option str.

Local Abbreviation save := (save_results now_isoformat json_dump docling__version__).
Local Abbreviation run :=
  (main lower convert_document now_isoformat subprocess_run sys_executable
        json_dump docling__version__).
Local Abbreviation run_cli := (test_cli_interface lower subprocess_run sys_executable).

(** The figures saved are the figures reported: the dictionary that
    [save_results] hands to [json.dump] holds the results unchanged and the
    three totals of the printed report, the failures counted there one by
    one being the documents less the successes. *)
Theorem saved_summary_matches_report (all_results : dict (list outcome))
    (cli : list cli_result) (st : state World) :
  sum_len all_results <> 0 ->
  exists report ts r st',
    generate_kmrl_report all_results cli = Return report
    /\ save all_results cli st = (r, st')
    /\ write_file
         (json_dump
            {| test_timestamp := ts;
               docling_version := docling__version__;
               total_documents := rep_total_documents report;
               categories := all_results;
               cli_results := cli;
               summary_total_successful := rep_total_successful report;
               summary_total_failed := rep_total_failed report |})
         (disk st)
       = (r, disk st')
    /\ rep_total_documents report
       = rep_total_successful report + rep_total_failed report.
Proof.
  intros Htotal.
  destruct (@save_results_spec World now_isoformat json_dump docling__version__
              all_results cli st)
    as [ts [data [st' [Hdata [Hsave [Hdisk _]]]]]].
  eexists. exists ts. eexists. exists st'.
  split; [now apply generate_kmrl_report_contents|].
  split; [exact Hsave|].
  cbn [rep_total_documents rep_total_successful rep_total_failed].
  rewrite <- sum_failed_eq, <- Hdata. split; [|rewrite sum_failed_eq; lia].
  rewrite Hdisk. apply surjective_pairing.
Qed.

(** On a standard output that takes every line: every file of the
    directory is handed to the converter once, category by category in the
    order of the grouping; then, when there was a file, the first three
    entries with a suffix [.txt], [.csv] or [.md] are handed to the
    command line, each with a timeout of 30. *)
Lemma run_effects (entries : list dir_entry) (st : state World) :
  converted (snd (run true (Some entries) st))
  = converted st
    ++ map path (List.concat (dict_values (group_by_category lower entries)))
  /\ invoked (snd (run true (Some entries) st))
     = invoked st
       ++ (if has_file (Some entries) then
             map (fun p => (cli_argv sys_executable p, 30))
                 (firstn 3 (filter (cli_candidate lower) entries))
           else []).
Proof.
  destruct (has_file (Some entries)) eqn:Hfile.
  - assert (Hne : get_test_documents lower (Some entries) <> []).
    { intros H. apply has_file_scan in H. congruence. }
    destruct (@run_with_documents lower World convert_document now_isoformat
                subprocess_run sys_executable json_dump docling__version__
                (Some entries) st Hne)
      as [all_results [cli [report [st1 [st2 [H1 [H2 [H3 [H4 Hrun]]]]]]]]].
    destruct (@run_categories_scan lower World convert_document now_isoformat
                (Some entries) st)
      as [rs [st1' [H1' [_ [_ [Hc1 [Hi1 _]]]]]]].
    rewrite H1 in H1'. injection H1' as <- <-.
    rewrite test_cli_interface_eq in H2.
    destruct (@attempts_spec World subprocess_run sys_executable
                (firstn 3 (filter (cli_candidate lower) entries)) st1)
      as [cli' [st2' [H2' [_ [Hi2 [Hc2 _]]]]]].
    rewrite H2 in H2'. injection H2' as <- <-.
    destruct (@save_results_spec World now_isoformat json_dump docling__version__
                all_results cli
                {| world := world st2; converted := converted st2;
                   invoked := invoked st2; printed := Some report;
                   disk := disk st2 |})
      as [ts [data [st3 [_ [Hsave [_ [Hc3 [Hi3 _]]]]]]]].
    rewrite Hrun, Hsave. cbn [converted invoked] in Hc3, Hi3.
    rewrite scan_grouping in Hc1.
    assert (Hconv : converted st3
                    = converted st
                      ++ map path (List.concat
                                     (dict_values (group_by_category lower entries))))
      by congruence.
    assert (Hinv : invoked st3
                   = invoked st
                     ++ map (fun p => (cli_argv sys_executable p, 30))
                          (firstn 3 (filter (cli_candidate lower) entries)))
      by congruence.
    destruct (fst (write_file (json_dump data)
                     (disk {| world := world st2; converted := converted st2;
                              invoked := invoked st2; printed := Some report;
                              disk := disk st2 |}))) as [[]|e];
      cbn [snd]; split; assumption.
  - apply has_file_scan with (lower := lower) in Hfile.
    unfold main. cbn [negb]. rewrite Hfile. cbn [ret snd].
    rewrite scan_grouping in Hfile. rewrite Hfile.
    cbn. now rewrite !app_nil_r.
Qed.

(** The command-line exercise looks at names only: it never asks whether
    an entry is a file, nor how large it is.  On two listings whose entries
    have the same paths, names and suffixes it does the same thing. *)
Theorem cli_looks_only_at_names (entries entries' : list dir_entry)
    (st : state World) :
  Forall2 same_names entries entries' ->
  run_cli (Some entries) st = run_cli (Some entries') st.
Proof.
  intros Hsame. rewrite !test_cli_interface_eq.
  assert (Hfilter : Forall2 same_names (filter (cli_candidate lower) entries)
                                       (filter (cli_candidate lower) entries')).
  { induction Hsame as [|p q es es' Hpq _ IH]; [constructor|].
    cbn [filter].
    assert (Hcand : cli_candidate lower p = cli_candidate lower q).
    { unfold cli_candidate. destruct Hpq as [_ [_ ->]]. reflexivity. }
    rewrite Hcand.
    destruct (cli_candidate lower q); [constructor; assumption | exact IH]. }
  assert (Hfirst : forall n, Forall2 same_names
                     (firstn n (filter (cli_candidate lower) entries))
                     (firstn n (filter (cli_candidate lower) entries'))).
  { induction Hfilter as [|p q es es' Hpq _ IH]; intros [|n]; cbn [firstn];
      constructor; [exact Hpq | apply IH]. }
  specialize (Hfirst 3%nat). revert st.
  induction Hfirst as [|p q es es' [Hstr [Hname _]] _ IH]; intros st; [reflexivity|].
  cbn [cli_loop]. unfold bind.
  assert (Hone : cli_attempt subprocess_run sys_executable p st
                 = cli_attempt subprocess_run sys_executable q st).
  { unfold cli_attempt, cli_argv. now rewrite Hstr, Hname. }
  rewrite Hone.
  destruct (cli_attempt subprocess_run sys_executable q st) as [[r|e] st1];
    [|reflexivity].
  now rewrite IH.
Qed.

End EffectFacts.

(** ** The preview *)


(** ** The verdict *)

Lemma critical_lines_fold (all_results : dict (list outcome)) (cats : list str)
    (flag : bool) (lines : list (str * bool)) :
  snd (fold_left (critical_step all_results) cats (flag, lines))
  = lines ++ flat_map (critical_line all_results) cats.
Proof.
  revert flag lines. induction cats as [|c cats IH]; intros flag lines.
  - cbn. now rewrite app_nil_r.
  - cbn [fold_left flat_map]. unfold critical_step at 2, critical_line at 1.
    destruct (dict_get c all_results) as [results|]; [|apply IH].
    destruct (count_successful results =? 0); rewrite IH, <- app_assoc; reflexivity.
Qed.

Lemma critical_lines_ready (all_results : dict (list outcome)) (cats : list str) :
  forallb snd (flat_map (critical_line all_results) cats)
  = forallb (category_ready all_results) cats.
Proof.
  induction cats as [|c cats IH]; [reflexivity|].
  cbn [flat_map forallb]. rewrite forallb_app, IH. f_equal.
  unfold critical_line, category_ready.
  destruct (dict_get c all_results) as [results|]; [|reflexivity].
  cbn. apply andb_true_r.
Qed.

(** The verdict agrees with the lines printed above it (fewer than [2^48]
    documents): the assessment lists the critical categories that are
    present, in their fixed order, each as ready when it has a successful
    conversion, and the run is judged ready exactly when no line says "not
    ready" and seven tenths of the documents were converted. *)
Theorem verdict_agrees_with_lines (all_results : dict (list outcome))
    (cli : list cli_result) :
  0 < sum_len all_results < 2 ^ 48 ->
  exists report,
    generate_kmrl_report all_results cli = Return report
    /\ rep_critical report
       = flat_map (critical_line all_results)
                  [lit "word_document"; lit "powerpoint_presentation"; lit "data_file"]
    /\ rep_ready report
       = forallb snd (rep_critical report)
         && (7 * rep_total_documents report <=? 10 * rep_total_successful report).
Proof.
  intros Htotal. eexists. split; [apply generate_kmrl_report_contents; lia|].
  cbn [rep_critical rep_ready rep_total_documents rep_total_successful].
  rewrite critical_lines_fold. cbn [app]. split; [reflexivity|].
  fold critical_categories. rewrite critical_lines_ready.
  fold (critical_ready all_results). f_equal.
  pose proof (sum_successful_bounds all_results) as Hb.
  destruct (Z.leb_spec (7 * sum_len all_results) (10 * sum_successful all_results))
    as [Hle|Hgt].
  - apply meets_threshold_spec; lia.
  - destruct (meets_threshold (sum_successful all_results) (sum_len all_results)) eqn:E;
      [|reflexivity].
    apply meets_threshold_spec in E; lia.
Qed.

Lemma no_worse_get (all_results all_results' : dict (list outcome)) (category : str) :
  Forall2 no_worse all_results all_results' ->
  match dict_get category all_results' with
  | Some results' =>
      exists results,
        dict_get category all_results = Some results
        /\ count_successful results <= count_successful results'
  | None => True
  end.
Proof.
  induction 1 as [|[c l] [c' l'] rest rest' [Hk [_ Hc]] _ IH]; [exact I|].
  cbn [fst snd] in Hk, Hc. subst c'. cbn [dict_get].
  destruct (str_eqb category c); [|exact IH].
  exists l. split; [reflexivity | exact Hc].
Qed.

Lemma no_worse_sums (all_results all_results' : dict (list outcome)) :
  Forall2 no_worse all_results all_results' ->
  sum_len all_results' = sum_len all_results
  /\ sum_successful all_results <= sum_successful all_results'.
Proof.
  unfold sum_len, sum_successful, dict_values.
  induction 1 as [|[c l] [c' l'] rest rest' [_ [Hl Hc]] _ [IH1 IH2]];
    cbn [map fold_right snd] in *; [split; reflexivity|].
  unfold len_results in Hl. lia.
Qed.

(** The verdict is monotone (fewer than [2^48] documents): when failures
    become successes, category by category, a run that was judged ready
    still is. *)
Theorem verdict_is_monotone (all_results all_results' : dict (list outcome))
    (cli : list cli_result) :
  0 < sum_len all_results < 2 ^ 48 ->
  Forall2 no_worse all_results all_results' ->
  exists report report',
    generate_kmrl_report all_results cli = Return report
    /\ generate_kmrl_report all_results' cli = Return report'
    /\ (rep_ready report = true -> rep_ready report' = true).
Proof.
  intros Htotal Hworse.
  destruct (no_worse_sums Hworse) as [Hlen Hsucc].
  pose proof (sum_successful_bounds all_results) as Hb.
  pose proof (sum_successful_bounds all_results') as Hb'.
  do 2 eexists.
  split; [apply generate_kmrl_report_contents; lia|].
  split; [apply generate_kmrl_report_contents; lia|].
  cbn [rep_ready]. rewrite !andb_true_iff. intros [Hcrit Hmeets]. split.
  - rewrite critical_ready_iff in *. intros category results' Hin Hget'.
    pose proof (no_worse_get category Hworse) as Hget. rewrite Hget' in Hget.
    destruct Hget as [results [Hget Hle]].
    specialize (Hcrit category results Hin Hget). lia.
  - rewrite meets_threshold_spec in * by lia. lia.
Qed.

(** ** The properties on the scenarios *)

(** The breakdown of the readiness scenario adds up: four lines, four
    documents, three successes, one failed file. *)
Lemma breakdown_adds_up_scenario :
  exists report,
    generate_kmrl_report readiness_scenario [] = Return report
    /\ map bl_category (rep_breakdown report) = dict_keys readiness_scenario
    /\ zsum (map bl_total (rep_breakdown report)) = rep_total_documents report
    /\ zsum (map bl_successful (rep_breakdown report)) = rep_total_successful report
    /\ zsum (map (fun line => len_results (bl_failed line)) (rep_breakdown report))
       = rep_total_failed report
    /\ Forall (fun line =>
                 bl_successful line + len_results (bl_failed line) = bl_total line)
              (rep_breakdown report).
Proof. apply breakdown_adds_up. vm_compute. discriminate. Defined.

(** One image of two read: the OCR line is printed and calls OCR ready. *)
Lemma ocr_assessment_scenario :
  exists report,
    generate_kmrl_report ocr_scenario [] = Return report
    /\ match rep_ocr report with
       | None => ocr_results ocr_scenario = []
       | Some (ocr_success, ocr_total, _, ocr_ready) =>
           ocr_success = count_successful (ocr_results ocr_scenario)
           /\ ocr_total = len_results (ocr_results ocr_scenario)
           /\ 0 < ocr_total
           /\ ocr_ready = (ocr_total <=? 2 * ocr_success)
       end.
Proof.
  apply ocr_assessment; [vm_compute; discriminate | vm_compute; reflexivity].
Defined.

(** Four documents, all converted: the run is judged ready. *)
Lemma verdict_extremes_scenario :
  exists report,
    generate_kmrl_report flawless_scenario [] = Return report
    /\ (rep_total_successful report = 0 -> rep_ready report = false)
    /\ (rep_total_failed report = 0 ->
        Forall (fun kv => snd kv <> []) flawless_scenario ->
        rep_ready report = true).
Proof. apply verdict_extremes. vm_compute. split; reflexivity. Defined.

(** The rates of the readiness scenario: 75.0 overall, 100.0 and 0.0 by
    category. *)
Lemma report_rates_are_rounded_scenario :
  exists report T,
    generate_kmrl_report readiness_scenario [] = Return report
    /\ rep_overall_rate report = render_tenths false T
    /\ 2 * Z.abs (T * rep_total_documents report - 1000 * rep_total_successful report)
       <= rep_total_documents report
    /\ Forall (fun line =>
                 exists T',
                   bl_rate line = render_tenths false T'
                   /\ 2 * Z.abs (T' * bl_total line - 1000 * bl_successful line)
                      <= bl_total line
                   /\ (bl_total line = 0 -> T' = 0))
              (rep_breakdown report).
Proof. apply report_rates_are_rounded. vm_compute. split; reflexivity. Defined.

(** The readiness scenario saved on a disk with room: 4 documents, 3
    successful, 1 failed, as printed. *)
Lemma saved_summary_matches_report_scenario :
  exists report ts r st',
    generate_kmrl_report readiness_scenario [] = Return report
    /\ save_results sample_now sample_dump None readiness_scenario []
                    (sample_state roomy_disk)
       = (r, st')
    /\ write_file
         (sample_dump
            {| test_timestamp := ts;
               docling_version := None;
               total_documents := rep_total_documents report;
               categories := readiness_scenario;
               cli_results := [];
               summary_total_successful := rep_total_successful report;
               summary_total_failed := rep_total_failed report |})
         (disk (sample_state roomy_disk))
       = (r, disk st')
    /\ rep_total_documents report
       = rep_total_successful report + rep_total_failed report.
Proof.
  apply (@saved_summary_matches_report sample_world sample_now sample_dump None
           readiness_scenario [] (sample_state roomy_disk)).
  vm_compute. discriminate.
Defined.

(** A directory called [data.csv] is handed to the command line like the
    file of that name. *)
Lemma cli_looks_only_at_names_sample :
  test_cli_interface ascii_lower sample_run (lit "python3") (Some [queued_first])
                     (sample_state roomy_disk)
  = test_cli_interface ascii_lower sample_run (lit "python3")
                       (Some [queued_directory]) (sample_state roomy_disk).
Proof.
  apply (@cli_looks_only_at_names ascii_lower sample_world sample_run (lit "python3")
           [queued_first] [queued_directory] (sample_state roomy_disk)).
  repeat constructor.
Defined.

(** The readiness scenario was judged ready; with the drawing converted as
    well it still is. *)
Lemma verdict_is_monotone_scenario :
  exists report report',
    generate_kmrl_report readiness_scenario [] = Return report
    /\ generate_kmrl_report flawless_scenario [] = Return report'
    /\ (rep_ready report = true -> rep_ready report' = true).
Proof.
  apply verdict_is_monotone.
  - vm_compute. split; reflexivity.
  - repeat constructor; vm_compute; discriminate.
Defined.

(** The readiness scenario: three lines, all ready, and 3 of 4 converted. *)
Lemma verdict_agrees_with_lines_scenario :
  exists report,
    generate_kmrl_report readiness_scenario [] = Return report
    /\ rep_critical report
       = flat_map (critical_line readiness_scenario)
                  [lit "word_document"; lit "powerpoint_presentation"; lit "data_file"]
    /\ rep_ready report
       = forallb snd (rep_critical report)
         && (7 * rep_total_documents report <=? 10 * rep_total_successful report).
Proof. apply verdict_agrees_with_lines. vm_compute. split; reflexivity. Defined.

(* ================================================================== *)
(** * The program with its prints *)

(** ** On a standard output that takes every line *)

Section QuietFacts.
Variable lower : str -> str.
Variable World : Type.
Variable convert_document : str -> World -> pyresult (str * str) * World.
Variable now_isoformat : World -> str * World.
Variable subprocess_run : list str -> Z -> World -> run_outcome * World.
Variable sys_executable : str.
Variable json_dump : report_data -> str.
Variable stdout_print : line -> World -> pyresult unit * World.
Variable is_ImportError : exn -> bool.
Variable is_AttributeError : exn -> bool.

(** The standard output takes every line, and the rest of the world does
    not see what is printed. *)
Hypothesis quiet : forall l w, stdout_print l w = (Return tt, w).

Local Abbreviation print := (Printing.print stdout_print).

Lemma state_eta (st : state World) :
  {| world := world st; converted := converted st; invoked := invoked st;
     printed := printed st; disk := disk st |} = st.
Proof. now destruct st. Qed.

Lemma print_quiet (l : line) (st : state World) : print l st = (Return tt, st).
Proof. unfold Printing.print. now rewrite quiet, state_eta. Qed.

Lemma bind_print (A : Type) (l : line) (k : unit -> M World A) (st : state World) :
  bind (print l) k st = k tt st.
Proof. unfold bind. now rewrite print_quiet. Qed.

Lemma bind_same (A B : Type) (m m' : M World A) (k k' : A -> M World B)
    (st : state World) :
  m st = m' st -> (forall a st', k a st' = k' a st') -> bind m k st = bind m' k' st.
Proof.
  intros Hm Hk. unfold bind. rewrite Hm.
  destruct (m' st) as [[a|e] st']; [apply Hk | reflexivity].
Qed.

Lemma conversion_quiet (file_path category : str) (doc : doc_info) (st : state World) :
  Printing.test_document_conversion convert_document now_isoformat stdout_print
    file_path category doc st
  = test_document_conversion convert_document now_isoformat file_path category doc st.
Proof.
  unfold Printing.test_document_conversion, test_document_conversion.
  rewrite !bind_print. unfold Printing.try_except, bind at 1, Printing.convert.
  destruct (convert_document file_path (world st)) as [[[md txt]|e] w1].
  - unfold bind at 1, Printing.now. cbn [world converted invoked printed disk].
    destruct (now_isoformat w1) as [ts w2]. rewrite !bind_print.
    destruct (len (strip txt) >? 0); rewrite bind_print; reflexivity.
  - cbn [Printing.is_Exception]. unfold bind at 1, Printing.now.
    cbn [world converted invoked printed disk].
    destruct (now_isoformat w1) as [ts w2]. rewrite !bind_print. reflexivity.
Qed.

Lemma conversions_quiet (category : str) (docs : list doc_info) (st : state World) :
  Printing.test_category_loop convert_document now_isoformat stdout_print
    category docs st
  = test_category_loop convert_document now_isoformat category docs st.
Proof.
  revert st. induction docs as [|doc docs IH]; intros st; [reflexivity|].
  cbn [Printing.test_category_loop test_category_loop].
  apply bind_same; [apply conversion_quiet|]. intros result st1.
  apply bind_same; [apply IH | reflexivity].
Qed.

Lemma category_quiet (category : str) (docs : list doc_info) (st : state World) :
  Printing.test_category convert_document now_isoformat stdout_print category docs st
  = test_category convert_document now_isoformat category docs st.
Proof.
  unfold Printing.test_category, test_category. rewrite !bind_print.
  apply bind_same; [apply conversions_quiet|]. intros results st1.
  rewrite !bind_print. unfold bind, lift, category_summary.
  destruct (percentage (count_successful results) (len_results results)) as [rate|e];
    [|reflexivity].
  now rewrite print_quiet.
Qed.

Lemma categories_quiet (items : list (str * list doc_info))
    (all_results : dict (list outcome)) (st : state World) :
  Printing.test_categories convert_document now_isoformat stdout_print
    items all_results st
  = test_categories convert_document now_isoformat items all_results st.
Proof.
  revert all_results st.
  induction items as [|[category docs] items IH]; intros all_results st; [reflexivity|].
  cbn [Printing.test_categories test_categories].
  apply bind_same; [apply category_quiet|]. intros results st1. apply IH.
Qed.


Lemma cli_attempt_quiet (file_path : dir_entry) (st : state World) :
  Printing.cli_attempt subprocess_run sys_executable stdout_print file_path st
  = cli_attempt subprocess_run sys_executable file_path st.
Proof.
  unfold Printing.cli_attempt, cli_attempt. rewrite print_quiet.
  destruct (subprocess_run (cli_argv sys_executable file_path) 30 (world st))
    as [[returncode stdout stderr| |e] w].
  - unfold Printing.try_except, Printing.on_completed.
    destruct (returncode =? 0); rewrite !bind_print; reflexivity.
  - unfold Printing.on_timeout. now rewrite bind_print.
  - unfold Printing.on_exception. now rewrite bind_print.
Qed.

Lemma cli_loop_quiet (files : list dir_entry) (st : state World) :
  Printing.cli_loop subprocess_run sys_executable stdout_print files st
  = cli_loop subprocess_run sys_executable files st.
Proof.
  revert st. induction files as [|p files IH]; intros st; [reflexivity|].
  cbn [Printing.cli_loop cli_loop].
  apply bind_same; [apply cli_attempt_quiet|]. intros r st1.
  apply bind_same; [apply IH | reflexivity].
Qed.

Lemma cli_quiet (dir : directory) (st : state World) :
  listable dir = true ->
  Printing.test_cli_interface lower subprocess_run sys_executable stdout_print dir st
  = test_cli_interface lower subprocess_run sys_executable (listing_of dir) st.
Proof.
  intros Hdir. unfold Printing.test_cli_interface, test_cli_interface.
  rewrite !bind_print. destruct dir as [|e|entries]; [|discriminate|].
  - now rewrite bind_print.
  - cbn [listing_of]. destruct (select_cli_files lower entries []) as [|p files].
    + now rewrite bind_print.
    + apply cli_loop_quiet.
Qed.

Lemma scan_quiet (dir : directory) (st : state World) :
  listable dir = true ->
  Printing.get_test_documents lower stdout_print dir st
  = (Return (get_test_documents lower (listing_of dir)), st).
Proof.
  intros Hdir. destruct dir as [|e|entries]; [|discriminate|reflexivity].
  unfold Printing.get_test_documents. now rewrite bind_print.
Qed.

Lemma breakdown_quiet (items : list (str * list outcome)) (st : state World) :
  Printing.breakdown stdout_print items st = lift (breakdown items) st.
Proof.
  revert st. induction items as [|item items IH]; intros st; [reflexivity|].
  cbn [Printing.breakdown breakdown]. rewrite breakdown_of_returns.
  unfold bind at 1, lift at 1. rewrite bind_print.
  assert (Hfailed : forall st',
             match bl_failed (breakdown_line_of item) with
             | [] => ret tt
             | _ :: _ => print (say 277 (map VStr (bl_failed (breakdown_line_of item))))
             end st' = (Return tt, st')).
  { intros st'. destruct (bl_failed (breakdown_line_of item));
      [reflexivity | apply print_quiet]. }
  unfold bind at 1. rewrite Hfailed. unfold bind at 1. rewrite IH.
  unfold lift, rbind. destruct (breakdown items); reflexivity.
Qed.

Lemma critical_loop_quiet (all_results : dict (list outcome)) (categories : list str)
    (acc : bool * list (str * bool)) (st : state World) :
  Printing.critical_loop stdout_print all_results categories acc st
  = (Return (fold_left (critical_step all_results) categories acc), st).
Proof.
  revert acc st. induction categories as [|c categories IH]; intros [flag lines] st;
    [reflexivity|].
  cbn [Printing.critical_loop fold_left]. unfold critical_step at 2.
  destruct (dict_get c all_results) as [results|]; [|apply IH].
  destruct (count_successful results =? 0); rewrite bind_print; apply IH.
Qed.

Lemma engineering_quiet (all_results : dict (list outcome)) (st : state World) :
  Printing.engineering_section stdout_print all_results st
  = (Return match dict_get (lit "engineering_drawing") all_results with
            | Some eng_results =>
                Some (count_successful eng_results, len_results eng_results,
                      count_successful eng_results >? 0)
            | None => None
            end, st).
Proof.
  unfold Printing.engineering_section.
  destruct (dict_get (lit "engineering_drawing") all_results) as [eng_results|];
    [|reflexivity].
  rewrite bind_print. unfold bind.
  destruct (count_successful eng_results >? 0); now rewrite print_quiet.
Qed.

Lemma recommendation_quiet (ready : bool) (st : state World) :
  Printing.recommendation stdout_print ready st = (Return tt, st).
Proof.
  unfold Printing.recommendation. rewrite bind_print.
  destruct ready; rewrite !bind_print; apply print_quiet.
Qed.

Lemma report_quiet (all_results : dict (list outcome)) (cli_results : list cli_result)
    (st : state World) :
  Printing.generate_kmrl_report stdout_print all_results cli_results st
  = lift (generate_kmrl_report all_results cli_results) st.
Proof.
  unfold Printing.generate_kmrl_report, generate_kmrl_report.
  rewrite !bind_print. unfold bind at 1, lift at 1.
  destruct (percentage (sum_successful all_results) (sum_len all_results))
    as [overall|e]; [|reflexivity].
  rewrite !bind_print. unfold bind at 1. rewrite breakdown_quiet.
  cbn [rbind]. unfold lift at 1.
  destruct (breakdown all_results) as [entries|e]; [|reflexivity].
  cbn [rbind]. unfold bind at 1.
  assert (Hcli : Printing.cli_section stdout_print cli_results st
                 = lift (match cli_results with
                         | [] => Return None
                         | _ :: _ =>
                             rbind (percentage
                                      (Z.of_nat (List.length
                                                   (filter cli_successful cli_results)))
                                      (len_results cli_results))
                                   (fun rate =>
                                      Return (Some (Z.of_nat
                                                      (List.length
                                                         (filter cli_successful
                                                                 cli_results)),
                                                    len_results cli_results,
                                                    format_1f rate)))
                         end) st).
  { unfold Printing.cli_section. destruct cli_results as [|r rs]; [reflexivity|].
    rewrite !bind_print. unfold bind, lift, rbind.
    destruct (percentage _ _) as [rate|e]; [now rewrite print_quiet | reflexivity]. }
  rewrite Hcli. unfold lift at 1.
  destruct (match cli_results with [] => _ | _ :: _ => _ end) as [cli|e];
    [|reflexivity].
  cbn [rbind]. rewrite bind_print. unfold bind at 1. rewrite critical_loop_quiet.
  destruct (fold_left (critical_step all_results) critical_categories (true, []))
    as [critical_success critical_lines].
  destruct (fold_left (ocr_step all_results) ocr_categories (0, 0))
    as [ocr_success ocr_total].
  unfold bind at 1, Printing.ocr_section.
  destruct (ocr_total >? 0).
  - unfold bind at 1, lift at 1.
    destruct (percentage ocr_success ocr_total) as [ocr_rate|e]; [|reflexivity].
    rewrite bind_print. cbn [rbind].
    assert (Hready : forall st',
               (if (float_of_int 50 <=? ocr_rate)%float
                then print (say 318 []) else print (say 320 [])) st'
               = (Return tt, st')).
    { intros st'. destruct (float_of_int 50 <=? ocr_rate)%float; apply print_quiet. }
    unfold bind at 1. rewrite Hready. unfold ret at 1.
    unfold bind. now rewrite engineering_quiet, recommendation_quiet.
  - unfold ret at 1. cbn [rbind].
    unfold bind. now rewrite engineering_quiet, recommendation_quiet.
Qed.

Lemma import_quiet (env : import_env) (st : state World) :
  Printing.test_docling_import stdout_print is_ImportError is_AttributeError env st
  = (fst (test_docling_import is_ImportError is_AttributeError env), st).
Proof.
  unfold Printing.test_docling_import, test_docling_import, version_line,
    on_import_error.
  rewrite !bind_print. unfold Printing.try_except at 1.
  unfold bind at 1, lift at 1.
  destruct (import_docling env) as [[]|e0].
  2: { destruct (is_ImportError e0); [|reflexivity]. now rewrite !bind_print. }
  rewrite bind_print. unfold bind at 1, Printing.try_except at 1.
  unfold bind at 1, lift at 1.
  destruct (docling_version_attr env) as [v|e1].
  - rewrite print_quiet.
    unfold bind at 1, lift at 1.
    destruct (import_DocumentConverter env) as [[]|e2].
    2: { destruct (is_ImportError e2); [|reflexivity]. now rewrite !bind_print. }
    rewrite bind_print. unfold bind at 1, lift at 1.
    destruct (import_InputFormat env) as [[]|e3].
    2: { destruct (is_ImportError e3); [|reflexivity]. now rewrite !bind_print. }
    now rewrite bind_print.
  - destruct (is_AttributeError e1).
    + rewrite print_quiet.
      unfold bind at 1, lift at 1.
      destruct (import_DocumentConverter env) as [[]|e2].
      2: { destruct (is_ImportError e2); [|reflexivity]. now rewrite !bind_print. }
      rewrite bind_print. unfold bind at 1, lift at 1.
      destruct (import_InputFormat env) as [[]|e3].
      2: { destruct (is_ImportError e3); [|reflexivity]. now rewrite !bind_print. }
      now rewrite bind_print.
    + destruct (is_ImportError e1); [|reflexivity]. now rewrite !bind_print.
Qed.

Lemma save_quiet (docling__version__ : option str) (all_results : dict (list outcome))
    (cli_results : list cli_result) (st : state World) :
  Printing.save_results now_isoformat json_dump stdout_print docling__version__
    all_results cli_results st
  = save_results now_isoformat json_dump docling__version__ all_results cli_results st.
Proof.
  unfold Printing.save_results, bind.
  destruct (save_results now_isoformat json_dump docling__version__ all_results
              cli_results st) as [[[]|e] st1]; [apply print_quiet | reflexivity].
Qed.

(** On a standard output that takes every line, and with a [test-docs]
    that is missing or can be listed, the program with its prints is the
    program above. *)
Lemma main_quiet (env : import_env) (dir : directory) (st : state World) :
  listable dir = true ->
  Printing.main lower convert_document now_isoformat subprocess_run sys_executable
    json_dump stdout_print is_ImportError is_AttributeError env dir st
  = kmrl_main is_ImportError is_AttributeError lower convert_document now_isoformat
      subprocess_run sys_executable json_dump env (listing_of dir) st.
Proof.
  intros Hdir. unfold Printing.main, kmrl_main. rewrite !bind_print.
  unfold bind at 1. rewrite import_quiet.
  destruct (fst (test_docling_import is_ImportError is_AttributeError env))
    as [[|]|e]; [|cbn [negb]; now rewrite bind_print|reflexivity].
  cbn [negb]. unfold bind at 1. rewrite scan_quiet by assumption.
  unfold main. cbn [negb].
  destruct (get_test_documents lower (listing_of dir)) as [|kv documents] eqn:E.
  - now rewrite bind_print.
  - rewrite !bind_print.
    apply bind_same; [apply categories_quiet|]. intros all_results st1.
    apply bind_same; [now apply cli_quiet|]. intros cli_results st2.
    apply bind_same; [apply report_quiet|]. intros report st3.
    apply bind_same; [reflexivity|]. intros [] st4.
    unfold bind at 1 4. rewrite save_quiet.
    destruct (save_results now_isoformat json_dump (stored_version env) all_results
                cli_results st4) as [[[]|e] st5]; [|reflexivity].
    now rewrite !bind_print.
Qed.

End QuietFacts.

(** ** One file, with its prints *)

Section PrintingFacts.
Variable World : Type.
Variable convert_document : str -> World -> pyresult (str * str) * World.
Variable now_isoformat : World -> str * World.
Variable stdout_print : line -> World -> pyresult unit * World.

Local Abbreviation print := (Printing.print stdout_print).
Local Abbreviation conv :=
  (Printing.test_document_conversion convert_document now_isoformat stdout_print).
Local Abbreviation conv_each :=
  (Printing.test_category_loop convert_document now_isoformat stdout_print).

Lemma bind_returns (A B : Type) (m : M World A) (k : A -> M World B)
    (st st' : state World) (b : B) :
  bind m k st = (Return b, st') ->
  exists a st1, m st = (Return a, st1) /\ k a st1 = (Return b, st').
Proof.
  unfold bind. destruct (m st) as [[a|e] st1]; [|discriminate].
  intros H. now exists a, st1.
Qed.

Lemma bind_raises (A B : Type) (m : M World A) (k : A -> M World B)
    (st st' : state World) (e : exn) :
  m st = (Raise e, st') -> bind m k st = (Raise e, st').
Proof. intros H. unfold bind. now rewrite H. Qed.

Lemma bind_then (A B : Type) (m : M World A) (k : A -> M World B)
    (st st1 : state World) (a : A) :
  m st = (Return a, st1) -> bind m k st = k a st1.
Proof. intros H. unfold bind. now rewrite H. Qed.

Lemma print_outside (l : line) (st st' : state World) (r : pyresult unit) :
  print l st = (r, st') ->
  converted st' = converted st /\ invoked st' = invoked st
  /\ printed st' = printed st /\ disk st' = disk st.
Proof.
  unfold Printing.print. destruct (stdout_print l (world st)) as [r' w].
  intros [= _ <-]. repeat split.
Qed.

(** The record of a failure caught at line 132. *)
Lemma handler_returns (category : str) (doc : doc_info) (e : exn)
    (st st' : state World) (result : outcome) :
  bind (Printing.now now_isoformat)
       (fun timestamp =>
          bind (print (say 143 [VStr (exn_msg e)]))
               (fun _ =>
                  bind (print (say 144 [VStr (exn_type e)]))
                       (fun _ =>
                          ret (error_info (name doc) category (size doc)
                                          (exn_msg e) (exn_type e) timestamp))))
       st
  = (Return result, st') ->
  exists timestamp,
    result = error_info (name doc) category (size doc) (exn_msg e) (exn_type e) timestamp.
Proof.
  intros H. apply bind_returns in H. destruct H as [ts [st1 [_ H]]].
  apply bind_returns in H. destruct H as [[] [st2 [_ H]]].
  apply bind_returns in H. destruct H as [[] [st3 [_ H]]].
  injection H as <- _. now exists ts.
Qed.

(** Whatever the standard output does, a record that
    [test_document_conversion] returns is the success record of what the
    converter returned, or the error record of an exception caught by the
    handler of line 132. *)
Lemma conversion_returns (file_path category : str) (doc : doc_info)
    (st st' : state World) (result : outcome) :
  conv file_path category doc st = (Return result, st') ->
  exists timestamp,
    (exists w markdown_content text_content,
        fst (convert_document file_path w) = Return (markdown_content, text_content)
        /\ result = success_info (name doc) category (size doc)
                      (len markdown_content) (len text_content)
                      (len (strip text_content) >? 0) (preview_of text_content)
                      timestamp)
    \/ (exists e,
           result = error_info (name doc) category (size doc)
                      (exn_msg e) (exn_type e) timestamp).
Proof.
  unfold Printing.test_document_conversion. intros H.
  apply bind_returns in H. destruct H as [[] [st1 [_ H]]].
  apply bind_returns in H. destruct H as [[] [st2 [_ H]]].
  apply bind_returns in H. destruct H as [[] [st3 [_ H]]].
  apply bind_returns in H. destruct H as [[] [st4 [_ H]]].
  unfold Printing.try_except in H.
  match type of H with
  | match ?body st4 with _ => _ end = _ => destruct (body st4) as [[info|e] st5] eqn:Hbody
  end.
  - injection H as <- <-.
    apply bind_returns in Hbody. destruct Hbody as [[md txt] [st6 [Hconv Hbody]]].
    apply bind_returns in Hbody. destruct Hbody as [ts [st7 [_ Hbody]]].
    apply bind_returns in Hbody. destruct Hbody as [[] [st8 [_ Hbody]]].
    apply bind_returns in Hbody. destruct Hbody as [[] [st9 [_ Hbody]]].
    apply bind_returns in Hbody. destruct Hbody as [[] [st10 [_ Hbody]]].
    apply bind_returns in Hbody. destruct Hbody as [[] [st11 [_ Hbody]]].
    apply bind_returns in Hbody. destruct Hbody as [[] [st12 [_ Hbody]]].
    injection Hbody as <- _.
    exists ts. left. exists (world st4), md, txt. split; [|reflexivity].
    unfold Printing.convert in Hconv.
    destruct (convert_document file_path (world st4)) as [r w].
    injection Hconv as -> _. reflexivity.
  - cbn [Printing.is_Exception] in H. apply handler_returns in H.
    destruct H as [ts ->]. exists ts. right. now exists e.
Qed.

Lemma print_accepted (l : line) (st : state World) :
  accepts stdout_print l -> print l st = (Return tt, st).
Proof. intros H. unfold Printing.print. now rewrite H, state_eta. Qed.

Lemma print_refused (l : line) (e : exn) (st : state World) :
  refuses stdout_print l e -> print l st = (Raise e, st).
Proof. intros H. unfold Printing.print. now rewrite H, state_eta. Qed.

Lemma bind_accepted (A : Type) (l : line) (k : unit -> M World A) (st : state World) :
  accepts stdout_print l -> bind (print l) k st = k tt st.
Proof. intros H. unfold bind. now rewrite print_accepted. Qed.

Lemma bind_refused (A : Type) (l : line) (e : exn) (k : unit -> M World A)
    (st : state World) :
  refuses stdout_print l e -> bind (print l) k st = (Raise e, st).
Proof. intros H. unfold bind. now rewrite (print_refused st H). Qed.

(** The heading of line 91 is outside the [try]: refused, the exception
    leaves the function before the converter is called. *)
Lemma heading_refused (file_path category : str) (doc : doc_info) (e : exn)
    (st : state World) :
  refuses stdout_print (say 91 [VStr (name doc)]) e ->
  conv file_path category doc st = (Raise e, st).
Proof.
  intros H. unfold Printing.test_document_conversion. now apply bind_refused.
Qed.

(** The message of line 143 is printed by the handler: refused, the
    exception leaves the function after the converter was called. *)
Lemma report_refused (file_path category : str) (doc : doc_info) (e e' : exn)
    (st : state World) :
  accepts stdout_print (say 91 [VStr (name doc)]) ->
  accepts stdout_print (say 92 [VStr category]) ->
  accepts stdout_print (say 93 [VInt (size doc)]) ->
  accepts stdout_print (say 94 [VStr (extension doc)]) ->
  fst (convert_document file_path (world st)) = Raise e ->
  refuses stdout_print (say 143 [VStr (exn_msg e)]) e' ->
  exists st',
    conv file_path category doc st = (Raise e', st')
    /\ converted st' = converted st ++ [file_path].
Proof.
  intros H91 H92 H93 H94 Hconv H143. unfold Printing.test_document_conversion.
  rewrite !bind_accepted by assumption.
  unfold Printing.try_except, bind at 1, Printing.convert.
  destruct (convert_document file_path (world st)) as [r w1]. cbn [fst] in Hconv.
  subst r. cbn [Printing.is_Exception]. unfold bind at 1, Printing.now.
  cbn [world converted invoked printed disk].
  destruct (now_isoformat w1) as [ts w2].
  eexists. split; [now apply bind_refused | reflexivity].
Qed.

(** The preview of line 126 is printed inside the [try]: refused, the
    exception is caught and recorded, although the converter returned. *)
Lemma preview_refused (file_path category : str) (doc : doc_info)
    (markdown_content text_content : str) (e' : exn) (st : state World) :
  (forall l, at_line l <> 126 -> accepts stdout_print l) ->
  fst (convert_document file_path (world st)) = Return (markdown_content, text_content) ->
  (len (strip text_content) >? 0) = true ->
  refuses stdout_print (say 126 [VStr (preview_of text_content)]) e' ->
  exists timestamp st',
    conv file_path category doc st
    = (Return (error_info (name doc) category (size doc) (exn_msg e') (exn_type e')
                          timestamp), st').
Proof.
  intros Hother Hconv Hcontent H126.
  assert (Hsay : forall n vs, n <> 126 -> accepts stdout_print (say n vs)).
  { intros n vs Hn. apply Hother. exact Hn. }
  unfold Printing.test_document_conversion.
  rewrite !bind_accepted by (apply Hsay; lia).
  unfold Printing.try_except, bind at 1, Printing.convert.
  destruct (convert_document file_path (world st)) as [r w1]. cbn [fst] in Hconv.
  subst r. unfold bind at 1, Printing.now. cbn [world converted invoked printed disk].
  destruct (now_isoformat w1) as [ts w2]. rewrite Hcontent.
  rewrite !bind_accepted by (apply Hsay; lia).
  rewrite bind_refused with (e := e') by assumption.
  cbn [Printing.is_Exception]. unfold bind at 1, Printing.now.
  cbn [world converted invoked printed disk].
  destruct (now_isoformat w2) as [ts' w3].
  rewrite !bind_accepted by (apply Hsay; lia).
  now eexists; eexists.
Qed.

End PrintingFacts.

(** ** The claims on the conversion of a file *)

Section PrintingClaims.
Variable lower : str -> str.
Variable World : Type.
Variable convert_document : str -> World -> pyresult (str * str) * World.
Variable now_isoformat : World -> str * World.
Variable stdout_print : line -> World -> pyresult unit * World.

Local Abbreviation conv :=
  (Printing.test_document_conversion convert_document now_isoformat stdout_print).
Local Abbreviation conv_each :=
  (Printing.test_category_loop convert_document now_isoformat stdout_print).

(** C3 (the code where the claim fails).  [test_document_conversion] has
    its [try] around the converter and the prints of lines 120-128 only.
    When the standard output refuses the heading of line 91, the exception
    leaves the function before the converter is called; when the converter
    fails and the standard output refuses the message of line 143, the
    exception leaves the handler; either way it leaves the loop of
    [test_category] and the documents that follow are not converted.  The
    same refusal inside the [try] (the preview of line 126) is caught and
    recorded.  On a standard output that takes every line the claim holds:
    a failure of the converter is recorded with its message and its type,
    and every document gets one attempt. *)
Theorem conversion_failure_can_escape (category : str) (doc : doc_info)
    (rest : list doc_info) (st : state World) :
  (forall e,
      refuses stdout_print (say 91 [VStr (name doc)]) e ->
      conv_each category (doc :: rest) st = (Raise e, st))
  /\ (forall e e',
         accepts stdout_print (say 91 [VStr (name doc)]) ->
         accepts stdout_print (say 92 [VStr category]) ->
         accepts stdout_print (say 93 [VInt (size doc)]) ->
         accepts stdout_print (say 94 [VStr (extension doc)]) ->
         fst (convert_document (path doc) (world st)) = Raise e ->
         refuses stdout_print (say 143 [VStr (exn_msg e)]) e' ->
         exists st',
           conv_each category (doc :: rest) st = (Raise e', st')
           /\ converted st' = converted st ++ [path doc])
  /\ (forall markdown_content text_content e',
         (forall l, at_line l <> 126 -> accepts stdout_print l) ->
         fst (convert_document (path doc) (world st))
         = Return (markdown_content, text_content) ->
         (len (strip text_content) >? 0) = true ->
         refuses stdout_print (say 126 [VStr (preview_of text_content)]) e' ->
         exists timestamp st',
           conv (path doc) category doc st
           = (Return (error_info (name doc) category (size doc)
                                 (exn_msg e') (exn_type e') timestamp), st'))
  /\ ((forall l, accepts stdout_print l) ->
      exists result results st',
        conv_each category (doc :: rest) st = (Return (result :: results), st')
        /\ map file_name (result :: results) = map name (doc :: rest)
        /\ converted st' = converted st ++ map path (doc :: rest)
        /\ forall e,
            fst (convert_document (path doc) (world st)) = Raise e ->
            exists timestamp,
              result = error_info (name doc) category (size doc)
                                  (exn_msg e) (exn_type e) timestamp).
Proof.
  split; [|split; [|split]].
  - intros e H. cbn [Printing.test_category_loop].
    apply bind_raises. now apply heading_refused.
  - intros e e' H91 H92 H93 H94 Hconv H143.
    destruct (@report_refused World convert_document now_isoformat stdout_print
                (path doc) category doc e e' st H91 H92 H93 H94 Hconv H143)
      as [st' [H Hc]].
    exists st'. split; [|exact Hc].
    cbn [Printing.test_category_loop]. now apply bind_raises.
  - intros md txt e' Hother Hconv Hcontent H126.
    now apply (@preview_refused World convert_document now_isoformat stdout_print
                 (path doc) category doc md txt e' st).
  - intros Hquiet.
    assert (quiet : forall l w, stdout_print l w = (Return tt, w))
      by (intros l w; apply Hquiet).
    rewrite (conversions_quiet convert_document now_isoformat stdout_print quiet).
    destruct (@convert_one_spec World convert_document now_isoformat
                (path doc) category doc st) as [ts [st1 [H1 [Hc1 _]]]].
    destruct (@convert_each_spec World convert_document now_isoformat category rest st1)
      as [results [st2 [H2 [Hn2 [Hc2 _]]]]].
    eexists. exists results, st2. cbn [test_category_loop]. step H1. step H2.
    unfold ret. split; [reflexivity|]. split; [|split].
    + cbn [map]. now rewrite file_name_outcome_for, Hn2.
    + rewrite Hc2, Hc1, <- app_assoc. reflexivity.
    + intros e He. rewrite He. now exists ts.
Qed.

(** C4. Whatever the standard output does, a record that
    [test_document_conversion] returns has one of two shapes: the success
    record, with the lengths of the two renderings the converter returned,
    [has_content] true exactly when the stripped text is not empty, and the
    preview (the text up to 200 characters, else its first 200 characters
    and "..."); or the error record, with the message and the type of the
    exception caught.  Both carry the name, the category, the size, the
    flag and a timestamp.  On a standard output that takes every line the
    function returns, with the success record when the converter returns
    and the error record of its exception when it raises. *)
Theorem outcome_record_fields (file_path category : str) (doc : doc_info)
    (st : state World) :
  (forall result st',
      conv file_path category doc st = (Return result, st') ->
      exists timestamp,
        (exists w markdown_content text_content,
            fst (convert_document file_path w) = Return (markdown_content, text_content)
            /\ outcome_items result
               = [("file_name"%string, VStr (name doc));
                  ("category"%string, VStr category);
                  ("file_size"%string, VInt (size doc));
                  ("conversion_successful"%string, VBool true);
                  ("markdown_length"%string, VInt (len markdown_content));
                  ("text_length"%string, VInt (len text_content));
                  ("has_content"%string, VBool (negb (str_eqb (strip text_content) [])));
                  ("preview"%string,
                   VStr (if len text_content <=? 200 then text_content
                         else firstn 200 text_content ++ lit "..."));
                  ("timestamp"%string, VStr timestamp)])
        \/ (exists e,
               outcome_items result
               = [("file_name"%string, VStr (name doc));
                  ("category"%string, VStr category);
                  ("file_size"%string, VInt (size doc));
                  ("conversion_successful"%string, VBool false);
                  ("error"%string, VStr (exn_msg e));
                  ("error_type"%string, VStr (exn_type e));
                  ("timestamp"%string, VStr timestamp)]))
  /\ ((forall l, accepts stdout_print l) ->
      exists result timestamp st',
        conv file_path category doc st = (Return result, st')
        /\ match fst (convert_document file_path (world st)) with
           | Return (markdown_content, text_content) =>
               outcome_items result
               = [("file_name"%string, VStr (name doc));
                  ("category"%string, VStr category);
                  ("file_size"%string, VInt (size doc));
                  ("conversion_successful"%string, VBool true);
                  ("markdown_length"%string, VInt (len markdown_content));
                  ("text_length"%string, VInt (len text_content));
                  ("has_content"%string, VBool (negb (str_eqb (strip text_content) [])));
                  ("preview"%string,
                   VStr (if len text_content <=? 200 then text_content
                         else firstn 200 text_content ++ lit "..."));
                  ("timestamp"%string, VStr timestamp)]
           | Raise e =>
               outcome_items result
               = [("file_name"%string, VStr (name doc));
                  ("category"%string, VStr category);
                  ("file_size"%string, VInt (size doc));
                  ("conversion_successful"%string, VBool false);
                  ("error"%string, VStr (exn_msg e));
                  ("error_type"%string, VStr (exn_type e));
                  ("timestamp"%string, VStr timestamp)]
           end).
Proof.
  split.
  - intros result st' H. apply conversion_returns in H.
    destruct H as [ts [[w [md [txt [Hw ->]]]]|[e ->]]]; exists ts.
    + left. exists w, md, txt. split; [exact Hw|].
      cbn [outcome_items]. now rewrite has_content_nonempty, preview_of_cases.
    + right. now exists e.
  - intros Hquiet.
    assert (quiet : forall l w, stdout_print l w = (Return tt, w))
      by (intros l w; apply Hquiet).
    rewrite (conversion_quiet convert_document now_isoformat stdout_print quiet).
    destruct (@convert_one_spec World convert_document now_isoformat
                file_path category doc st) as [ts [st' [H _]]].
    eexists. exists ts, st'. split; [exact H|].
    destruct (fst (convert_document file_path (world st))) as [[md txt]|e];
      cbn [outcome_for outcome_items]; [|reflexivity].
    now rewrite has_content_nonempty, preview_of_cases.
Qed.

End PrintingClaims.

(** C3 at two inputs, on a standard output in UTF-8.  The converter fails
    on [drawing.dwg] with a message that UTF-8 cannot encode: the handler's
    print raises, the second drawing is not converted, and the whole run
    ends there, with [report.docx] not converted and no report written.  A
    file has a name that UTF-8 cannot encode: the heading of line 91
    raises, and the run ends with no file converted, [data.csv] included. *)
Lemma unprintable_failure_stops_the_run :
  (exists st',
      Printing.test_category_loop quoting_convert sample_now utf8_print
        (lit "engineering_drawing") [drawing_doc; plan_doc] (sample_state roomy_disk)
      = (Raise UnicodeEncodeError, st')
      /\ converted st' = converted (sample_state roomy_disk) ++ [path drawing_doc])
  /\ fst (printing_main quoting_convert (Listed drawing_first) roomy_disk)
     = Raise UnicodeEncodeError
  /\ converted (snd (printing_main quoting_convert (Listed drawing_first) roomy_disk))
     = [lit "test-docs/drawing.dwg"]
  /\ report_file (disk (snd (printing_main quoting_convert (Listed drawing_first)
                                           roomy_disk)))
     = None
  /\ fst (printing_main sample_convert (Listed badly_named) roomy_disk)
     = Raise UnicodeEncodeError
  /\ converted (snd (printing_main sample_convert (Listed badly_named) roomy_disk))
     = [].
Proof.
  split.
  - apply (proj1 (proj2 (@conversion_failure_can_escape sample_world quoting_convert
                           sample_now utf8_print (lit "engineering_drawing")
                           drawing_doc [plan_doc] (sample_state roomy_disk)))
             {| exn_type := lit "ConversionError";
                exn_msg := lit "cannot decode " ++ [56575%N] |});
      try (intros w; reflexivity).
    reflexivity.
  - vm_compute. repeat split.
Defined.

(** C4 at two inputs: on a standard output that takes every line the
    record of [report.docx] is the success record; when the text holds a
    character that UTF-8 cannot encode, the preview cannot be printed and
    the record returned is the error record of that failure. *)
Lemma outcome_record_fields_sample :
  (exists result timestamp st',
      Printing.test_document_conversion sample_convert sample_now quiet_print
        (lit "test-docs/report.docx") (lit "word_document")
        (record_of ascii_lower (entry "report.docx" ".docx" NRegular 2048))
        (sample_state roomy_disk)
      = (Return result, st')
      /\ outcome_items result
         = [("file_name"%string, VStr (lit "report.docx"));
            ("category"%string, VStr (lit "word_document"));
            ("file_size"%string, VInt 2048);
            ("conversion_successful"%string, VBool true);
            ("markdown_length"%string, VInt 29);
            ("text_length"%string, VInt 27);
            ("has_content"%string, VBool true);
            ("preview"%string, VStr (lit "Title test-docs/report.docx"));
            ("timestamp"%string, VStr timestamp)])
  /\ fst (Printing.test_document_conversion surrogate_convert sample_now utf8_print
            (lit "test-docs/report.docx") (lit "word_document")
            (record_of ascii_lower (entry "report.docx" ".docx" NRegular 2048))
            (sample_state roomy_disk))
     = Return (error_info (lit "report.docx") (lit "word_document") 2048
                          (exn_msg UnicodeEncodeError) (lit "UnicodeEncodeError")
                          (lit "2025-01-01T09:00:00")).
Proof.
  split.
  - destruct (proj2 (@outcome_record_fields sample_world sample_convert sample_now
                       quiet_print (lit "test-docs/report.docx") (lit "word_document")
                       (record_of ascii_lower (entry "report.docx" ".docx" NRegular 2048))
                       (sample_state roomy_disk)))
      as [result [ts [st' [H Hitems]]]]; [intros l w; reflexivity|].
    exists result, ts, st'. split; [exact H|]. exact Hitems.
  - vm_compute. reflexivity.
Defined.

(** ** The claim on the rates *)

Section RateClaims.
Variable lower : str -> str.
Variable World : Type.
Variable convert_document : str -> World -> pyresult (str * str) * World.
Variable now_isoformat : World -> str * World.
Variable stdout_print : line -> World -> pyresult unit * World.

Local Abbreviation conv_each :=
  (Printing.test_category_loop convert_document now_isoformat stdout_print).

Lemma conv_each_length (category : str) (docs : list doc_info) (st st' : state World)
    (results : list outcome) :
  conv_each category docs st = (Return results, st') ->
  List.length results = List.length docs.
Proof.
  revert st st' results. induction docs as [|doc docs IH]; intros st st' results H.
  - injection H as <- _. reflexivity.
  - cbn [Printing.test_category_loop] in H.
    apply bind_returns in H. destruct H as [result [st1 [_ H]]].
    apply bind_returns in H. destruct H as [rs [st2 [Hrs H]]].
    injection H as <- _. cbn [List.length]. f_equal. exact (IH _ _ _ Hrs).
Qed.

(** C5. The success rate of a category is successful / total * 100
    rounded to one decimal (fewer than [2^40] results): [T] tenths are
    printed, [T] an integer nearest to [1000 * successful / total].  In
    [test_category] (lines 161-167) the division is not guarded, and the
    results it divides by are never none: the loop returns one result per
    document, whatever the standard output does, and [main] passes the
    groups of the scan, which are not empty; so on a standard output that
    takes every line [test_category] returns.  In the report (lines
    267-272) the division is guarded: a category without a result is
    printed as 0.0 and nothing is raised.  Two successes of three are
    printed as 66.7 in both places. *)
Theorem success_rates_are_rounded_percentages :
  (forall listing category docs st results st',
      dict_get category (get_test_documents lower listing) = Some docs ->
      conv_each category docs st = (Return results, st') ->
      len_results results < 2 ^ 40 ->
      results <> []
      /\ exists T,
          category_summary results
          = Return (count_successful results,
                    len_results results - count_successful results,
                    render_tenths false T)
          /\ 2 * Z.abs (T * len_results results - 1000 * count_successful results)
             <= len_results results)
  /\ (forall listing category docs st,
         dict_get category (get_test_documents lower listing) = Some docs ->
         len_results docs < 2 ^ 40 ->
         (forall l, accepts stdout_print l) ->
         exists results st',
           Printing.test_category convert_document now_isoformat stdout_print
             category docs st
           = (Return results, st')
           /\ List.length results = List.length docs)
  /\ (forall category results,
         len_results results < 2 ^ 40 ->
         exists T,
           breakdown_of (category, results)
           = Return {| bl_category := category;
                       bl_successful := count_successful results;
                       bl_total := len_results results;
                       bl_rate := render_tenths false T;
                       bl_failed :=
                         map file_name
                           (filter (fun r => negb (conversion_successful r)) results) |}
           /\ 2 * Z.abs (T * len_results results - 1000 * count_successful results)
              <= len_results results
           /\ (results = [] -> render_tenths false T = lit "0.0"))
  /\ category_summary two_of_three = Return (2, 1, lit "66.7")
  /\ option_map_result bl_rate (breakdown_of (lit "word_document", two_of_three))
     = Some (lit "66.7").
Proof.
  assert (Hsummary : forall (docs : list doc_info) (results : list outcome),
             docs <> [] -> List.length results = List.length docs ->
             len_results results < 2 ^ 40 ->
             results <> []
             /\ exists T,
                 category_summary results
                 = Return (count_successful results,
                           len_results results - count_successful results,
                           render_tenths false T)
                 /\ 2 * Z.abs (T * len_results results
                               - 1000 * count_successful results)
                    <= len_results results).
  { intros docs results Hdocs Hlength Hsmall.
    assert (Hne : results <> []).
    { intros ->. destruct docs; [congruence | discriminate]. }
    split; [exact Hne|].
    assert (Hlen : len_results results <> 0) by now rewrite len_results_zero.
    pose proof (count_successful_bounds results) as Hb.
    destruct (rate_tenths (count_successful results) (len_results results))
      as [T [HT Hnear]]; [lia | unfold len_results in *; lia |].
    exists T. split; [|exact Hnear].
    unfold category_summary. rewrite percentage_returns by exact Hlen.
    now rewrite HT. }
  split; [|split; [|split; [|split]]].
  - intros listing category docs st results st' Hget Hloop Hsmall.
    apply (Hsummary docs); [|now apply conv_each_length in Hloop | exact Hsmall].
    eapply scan_group_nonempty; exact Hget.
  - intros listing category docs st Hget Hsmall Hquiet.
    assert (quiet : forall l w, stdout_print l w = (Return tt, w))
      by (intros l w; apply Hquiet).
    rewrite (category_quiet convert_document now_isoformat stdout_print quiet).
    destruct (@convert_each_spec World convert_document now_isoformat category docs st)
      as [results [st' [Hloop [Hnames _]]]].
    assert (Hlength : List.length results = List.length docs).
    { rewrite <- (length_map file_name), Hnames. apply length_map. }
    destruct (Hsummary docs results) as [_ [T [HT _]]];
      [eapply scan_group_nonempty; exact Hget | exact Hlength
       | unfold len_results in *; rewrite Hlength; exact Hsmall |].
    exists results, st'. split; [|exact Hlength].
    unfold test_category. step Hloop. unfold bind, lift. now rewrite HT.
  - intros category results Hsmall.
    pose proof (count_successful_bounds results) as Hb.
    unfold breakdown_of.
    destruct (Z.gtb_spec (len_results results) 0) as [Hpos|Hzero].
    + destruct (rate_tenths (count_successful results) (len_results results))
        as [T [HT Hnear]]; [lia | lia |].
      exists T. rewrite percentage_returns by lia. cbn [rbind]. rewrite HT.
      split; [reflexivity|]. split; [exact Hnear|].
      intros ->. cbn in Hpos. lia.
    + exists 0. cbn [rbind]. split; [reflexivity|]. split; [lia | reflexivity].
  - vm_compute. reflexivity.
  - vm_compute. reflexivity.
Qed.

End RateClaims.

(** C5 on the sample directory: the category [data_file] of the scan, on
    a standard output that takes every line. *)
Lemma success_rates_sample :
  exists results st' T,
    Printing.test_category_loop sample_convert sample_now quiet_print
      (lit "data_file") [record_of ascii_lower (entry "data.csv" ".csv" NRegular 96)]
      (sample_state roomy_disk)
    = (Return results, st')
    /\ category_summary results
       = Return (count_successful results,
                 len_results results - count_successful results,
                 render_tenths false T)
    /\ 2 * Z.abs (T * len_results results - 1000 * count_successful results)
       <= len_results results.
Proof.
  eexists. eexists.
  assert (Hloop :
            Printing.test_category_loop sample_convert sample_now quiet_print
              (lit "data_file")
              [record_of ascii_lower (entry "data.csv" ".csv" NRegular 96)]
              (sample_state roomy_disk)
            = (Return _, _)) by (vm_compute; reflexivity).
  destruct (proj1 (@success_rates_are_rounded_percentages ascii_lower sample_world
                     sample_convert sample_now quiet_print)
                  (Some sample_directory) (lit "data_file") _ _ _ _
                  eq_refl Hloop eq_refl)
    as [_ [T [HT Hnear]]].
  exists T. split; [exact Hloop|]. split; [exact HT | exact Hnear].
Defined.

(** ** The report, whatever the standard output does *)

Section ReportFacts.
Variable World : Type.
Variable stdout_print : line -> World -> pyresult unit * World.

Local Abbreviation print := (Printing.print stdout_print).

(** Whenever the computation [m] returns, it returns the value of [r]. *)
Local Abbreviation yields m r :=
  (forall st a st', m st = (Return a, st') -> r = Return a).

Lemma yields_bind (A B : Type) (m : M World A) (k : A -> M World B)
    (r : pyresult A) (f : A -> pyresult B) :
  yields m r -> (forall a, yields (k a) (f a)) -> yields (bind m k) (rbind r f).
Proof.
  intros Hm Hk st b st' H. apply bind_returns in H.
  destruct H as [a [st1 [H1 H2]]]. rewrite (Hm _ _ _ H1). cbn [rbind].
  exact (Hk a _ _ _ H2).
Qed.

Lemma yields_after (A B : Type) (m : M World A) (k : M World B) (r : pyresult B) :
  yields k r -> yields (bind m (fun _ => k)) r.
Proof.
  intros Hk st b st' H. apply bind_returns in H.
  destruct H as [a [st1 [_ H2]]]. exact (Hk _ _ _ H2).
Qed.

Lemma yields_before (A B : Type) (m : M World A) (k : M World B) (r : pyresult A) :
  yields m r -> yields (bind m (fun a => bind k (fun _ => ret a))) r.
Proof.
  intros Hm st a st' H. apply bind_returns in H.
  destruct H as [a1 [st1 [H1 H2]]]. apply bind_returns in H2.
  destruct H2 as [b [st2 [_ H3]]]. injection H3 as <- _. exact (Hm _ _ _ H1).
Qed.

Lemma yields_lift (A : Type) (r : pyresult A) : yields (@lift World A r) r.
Proof. intros st a st' [= <- _]. reflexivity. Qed.

Lemma yields_ret (A : Type) (a : A) : yields (@ret World A a) (Return a).
Proof. intros st a' st' [= <- _]. reflexivity. Qed.

Lemma breakdown_yields (items : list (str * list outcome)) :
  yields (Printing.breakdown stdout_print items) (breakdown items).
Proof.
  induction items as [|item items IH]; [apply yields_ret|].
  cbn [Printing.breakdown breakdown].
  apply yields_bind; [apply yields_lift|]. intros entry.
  do 2 apply yields_after.
  apply yields_bind; [exact IH|]. intros entries. apply yields_ret.
Qed.

Lemma cli_section_yields (cli_results : list cli_result) :
  yields (Printing.cli_section stdout_print cli_results)
         (match cli_results with
          | [] => Return None
          | _ :: _ =>
              rbind (percentage
                       (Z.of_nat (List.length (filter cli_successful cli_results)))
                       (len_results cli_results))
                    (fun rate =>
                       Return (Some (Z.of_nat
                                       (List.length (filter cli_successful cli_results)),
                                     len_results cli_results, format_1f rate)))
          end).
Proof.
  unfold Printing.cli_section. destruct cli_results as [|r rs]; [apply yields_ret|].
  do 2 apply yields_after.
  apply yields_bind; [apply yields_lift|]. intros rate.
  apply yields_after. apply yields_ret.
Qed.

Lemma critical_loop_yields (all_results : dict (list outcome)) (categories : list str)
    (acc : bool * list (str * bool)) :
  yields (Printing.critical_loop stdout_print all_results categories acc)
         (Return (fold_left (critical_step all_results) categories acc)).
Proof.
  revert acc. induction categories as [|c categories IH]; intros [flag lines];
    [apply yields_ret|].
  cbn [Printing.critical_loop fold_left]. unfold critical_step at 2.
  destruct (dict_get c all_results) as [results|]; [|apply IH].
  destruct (count_successful results =? 0); apply yields_after; apply IH.
Qed.

Lemma ocr_section_yields (ocr_success ocr_total : Z) :
  yields (Printing.ocr_section stdout_print ocr_success ocr_total)
         (if ocr_total >? 0 then
            rbind (percentage ocr_success ocr_total)
                  (fun ocr_rate =>
                     Return (Some (ocr_success, ocr_total, format_1f ocr_rate,
                                   (float_of_int 50 <=? ocr_rate)%float)))
          else Return None).
Proof.
  unfold Printing.ocr_section. destruct (ocr_total >? 0); [|apply yields_ret].
  apply yields_bind; [apply yields_lift|]. intros ocr_rate.
  do 2 apply yields_after. apply yields_ret.
Qed.

Lemma engineering_section_yields (all_results : dict (list outcome)) :
  yields (Printing.engineering_section stdout_print all_results)
         (Return match dict_get (lit "engineering_drawing") all_results with
                 | Some eng_results =>
                     Some (count_successful eng_results, len_results eng_results,
                           count_successful eng_results >? 0)
                 | None => None
                 end).
Proof.
  unfold Printing.engineering_section.
  destruct (dict_get (lit "engineering_drawing") all_results) as [eng_results|];
    [|apply yields_ret].
  do 2 apply yields_after. apply yields_ret.
Qed.

(** A report that [generate_kmrl_report] prints to its last line is the
    report computed above, whatever the standard output does with the
    lines. *)
Lemma report_yields (all_results : dict (list outcome)) (cli_results : list cli_result) :
  yields (Printing.generate_kmrl_report stdout_print all_results cli_results)
         (generate_kmrl_report all_results cli_results).
Proof.
  intros st report st' H.
  unfold Printing.generate_kmrl_report in H.
  do 6 (apply bind_returns in H; destruct H as [_ [? [_ H]]]).
  apply bind_returns in H. destruct H as [overall [? [Hoverall H]]].
  apply yields_lift in Hoverall.
  do 2 (apply bind_returns in H; destruct H as [_ [? [_ H]]]).
  apply bind_returns in H. destruct H as [entries [? [Hentries H]]].
  apply breakdown_yields in Hentries.
  apply bind_returns in H. destruct H as [cli [? [Hcli H]]].
  apply cli_section_yields in Hcli.
  apply bind_returns in H; destruct H as [_ [? [_ H]]].
  apply bind_returns in H. destruct H as [critical [? [Hcritical H]]].
  apply critical_loop_yields in Hcritical.
  assert (Hfold : fold_left (critical_step all_results) critical_categories (true, [])
                  = critical) by (injection Hcritical as Hc; exact Hc).
  unfold generate_kmrl_report. cbn zeta. rewrite Hoverall, Hentries. cbn [rbind].
  rewrite Hcli. cbn [rbind]. rewrite Hfold.
  destruct critical as [critical_success critical_lines].
  destruct (fold_left (ocr_step all_results) ocr_categories (0, 0))
    as [ocr_success ocr_total].
  apply bind_returns in H. destruct H as [ocr [? [Hocr H]]].
  apply ocr_section_yields in Hocr. rewrite Hocr. cbn [rbind].
  apply bind_returns in H. destruct H as [engineering [? [Hengineering H]]].
  apply engineering_section_yields in Hengineering. injection Hengineering as <-.
  apply bind_returns in H; destruct H as [_ [? [_ H]]].
  injection H as <- _. reflexivity.
Qed.

End ReportFacts.

(** ** The claim on the verdict *)

Lemma sum_successful_concat (all_results : dict (list outcome)) :
  sum_successful all_results
  = Z.of_nat (List.length (filter conversion_successful
                                  (List.concat (dict_values all_results)))).
Proof.
  unfold sum_successful.
  induction (dict_values all_results) as [|l ls IH]; [reflexivity|].
  cbn [fold_right List.concat]. rewrite IH, filter_app, length_app.
  unfold count_successful. lia.
Qed.

Lemma count_successful_positive (results : list outcome) :
  1 <= count_successful results
  <-> exists r, In r results /\ conversion_successful r = true.
Proof.
  unfold count_successful. split.
  - intros H. destruct (filter conversion_successful results) as [|r rs] eqn:E;
      [cbn in H; lia|].
    exists r. apply filter_In. rewrite E. now left.
  - intros [r Hr]. apply filter_In in Hr.
    destruct (filter conversion_successful results); [destruct Hr|].
    cbn [List.length]. lia.
Qed.

Section VerdictClaim.
Variable World : Type.
Variable stdout_print : line -> World -> pyresult unit * World.

(** C6. The readiness judgement (for fewer than [2^48] outcomes): as soon
    as there is an outcome a report is computed; its totals are the number
    of outcomes and the number of successful ones in [all_results]; it
    judges the run ready exactly when every critical category present in
    [all_results] holds a successful outcome and ten times the successful
    outcomes are at least seven times the outcomes; and a report that
    [generate_kmrl_report] prints to its last line, whatever the standard
    output does with the lines, is that report. *)
Theorem readiness_judgment (all_results : dict (list outcome))
    (cli : list cli_result) :
  let outcomes := List.concat (dict_values all_results) in
  let successes := filter conversion_successful outcomes in
  Z.of_nat (List.length outcomes) < 2 ^ 48 ->
  (outcomes <> [] ->
   exists report, generate_kmrl_report all_results cli = Return report)
  /\ (forall report,
         generate_kmrl_report all_results cli = Return report ->
         rep_total_documents report = Z.of_nat (List.length outcomes)
         /\ rep_total_successful report = Z.of_nat (List.length successes)
         /\ (rep_ready report = true
             <-> (forall category results,
                     In category [lit "word_document"; lit "powerpoint_presentation";
                                  lit "data_file"] ->
                     dict_get category all_results = Some results ->
                     exists r, In r results /\ conversion_successful r = true)
                 /\ 7 * Z.of_nat (List.length outcomes)
                    <= 10 * Z.of_nat (List.length successes)))
  /\ (forall st report st',
         Printing.generate_kmrl_report stdout_print all_results cli st
         = (Return report, st') ->
         generate_kmrl_report all_results cli = Return report).
Proof.
  cbn zeta. rewrite <- sum_len_concat, <- sum_successful_concat. intros Htotal.
  pose proof (sum_successful_bounds all_results) as Hb.
  split; [|split; [|intros st report st' H; exact (report_yields _ _ _ _ H)]].
  - intros Hne.
    destruct (@generate_kmrl_report_returns all_results cli) as [report [Hrep _]];
      [|now exists report].
    rewrite sum_len_concat. intros H.
    destruct (List.concat (dict_values all_results)); [congruence | discriminate].
  - intros report Hreport.
    assert (Hpos : sum_len all_results <> 0).
    { intros Hzero. rewrite generate_kmrl_report_empty in Hreport by assumption.
      discriminate. }
    destruct (@generate_kmrl_report_returns all_results cli Hpos) as
      [report' [Hrep [Ht [Hs [_ [_ Hready]]]]]].
    rewrite Hreport in Hrep. injection Hrep as <-.
    split; [exact Ht|]. split; [exact Hs|].
    rewrite Hready, andb_true_iff, critical_ready_iff,
      meets_threshold_spec by lia.
    split; intros [Hcrit Hmeets]; (split; [|exact Hmeets]);
      intros category results Hin Hget.
    + apply count_successful_positive. exact (Hcrit category results Hin Hget).
    + apply count_successful_positive. exact (Hcrit category results Hin Hget).
Qed.

End VerdictClaim.

(** C6 on the readiness scenario: four outcomes, three of them successful,
    one in each critical category; the report judges the run ready. *)
Lemma readiness_judgment_scenario :
  exists report,
    generate_kmrl_report readiness_scenario [] = Return report
    /\ rep_total_documents report = 4
    /\ rep_total_successful report = 3
    /\ rep_ready report = true.
Proof.
  assert (Hsmall : Z.of_nat (List.length (List.concat (dict_values readiness_scenario)))
                   < 2 ^ 48) by reflexivity.
  destruct (readiness_judgment quiet_print readiness_scenario [] Hsmall)
    as [Hsome [Hall _]].
  destruct (Hsome ltac:(discriminate)) as [report Hreport].
  destruct (Hall report Hreport) as [Ht [Hs Hiff]].
  exists report. split; [exact Hreport|]. split; [exact Ht|]. split; [exact Hs|].
  apply Hiff. split.
  - intros category results [<-|[<-|[<-|[]]]] [= <-]; eexists;
      (split; [left; reflexivity | reflexivity]).
  - vm_compute. discriminate.
Defined.

(** ** The run, from its first print *)

Section EarlyFacts.
Variable lower : str -> str.
Variable World : Type.
Variable convert_document : str -> World -> pyresult (str * str) * World.
Variable now_isoformat : World -> str * World.
Variable subprocess_run : list str -> Z -> World -> run_outcome * World.
Variable sys_executable : str.
Variable json_dump : report_data -> str.
Variable stdout_print : line -> World -> pyresult unit * World.
Variable is_ImportError : exn -> bool.
Variable is_AttributeError : exn -> bool.

Local Abbreviation print := (Printing.print stdout_print).
Local Abbreviation check :=
  (Printing.test_docling_import stdout_print is_ImportError is_AttributeError).
Local Abbreviation program :=
  (Printing.main lower convert_document now_isoformat subprocess_run sys_executable
     json_dump stdout_print is_ImportError is_AttributeError).

Lemma untouched_refl (st : state World) : untouched st st.
Proof. repeat split. Qed.

Lemma untouched_trans (st1 st2 st3 : state World) :
  untouched st1 st2 -> untouched st2 st3 -> untouched st1 st3.
Proof.
  unfold untouched, same_outside.
  intros [-> [-> [-> ->]]] [-> [-> [-> ->]]]. repeat split.
Qed.

Lemma print_untouched (l : line) (st : state World) :
  untouched st (snd (print l st)).
Proof.
  unfold Printing.print. destruct (stdout_print l (world st)). repeat split.
Qed.

(** A step that touches nothing, followed by a run that stops early. *)
Lemma stopped_early_bind (A : Type) (m : M World A) (k : A -> M World run_end)
    (st : state World) :
  untouched st (snd (m st)) ->
  (forall a st1, m st = (Return a, st1) -> stopped_early st1 (k a st1)) ->
  stopped_early st (bind m k st).
Proof.
  intros Hm Hk. unfold bind. destruct (m st) as [[a|e] st1] eqn:E.
  - destruct (Hk a st1 eq_refl) as [Hu Hr]. split; [|exact Hr].
    eapply untouched_trans; [exact Hm | exact Hu].
  - split; [exact Hm | discriminate].
Qed.

Lemma stopped_early_print (l : line) (k : M World run_end) (st : state World) :
  (forall st1, untouched st st1 -> stopped_early st1 (k st1)) ->
  stopped_early st (bind (print l) (fun _ => k) st).
Proof.
  intros Hk. apply stopped_early_bind; [apply print_untouched|].
  intros [] st1 E. apply Hk. pose proof (print_untouched l st) as H.
  now rewrite E in H.
Qed.

Lemma stopped_early_ret (end_ : run_end) (st : state World) :
  (forall all_results cli_results, end_ <> Complete all_results cli_results) ->
  stopped_early st (ret end_ st).
Proof.
  intros H. split; [apply untouched_refl|].
  intros a c [= E]. exact (H a c E).
Qed.

(** A computation that touches nothing, however it ends. *)
Local Abbreviation quietly m := (forall st, untouched st (snd (m st))).

Lemma quietly_print (l : line) : quietly (print l).
Proof. intros st. apply print_untouched. Qed.

Lemma quietly_ret (A : Type) (a : A) : quietly (@ret World A a).
Proof. intros st. apply untouched_refl. Qed.

Lemma quietly_lift (A : Type) (r : pyresult A) : quietly (@lift World A r).
Proof. intros st. apply untouched_refl. Qed.

Lemma quietly_bind (A B : Type) (m : M World A) (k : A -> M World B) :
  quietly m -> (forall a, quietly (k a)) -> quietly (bind m k).
Proof.
  intros Hm Hk st. unfold bind. pose proof (Hm st) as H1.
  destruct (m st) as [[a|e] st1]; [|exact H1].
  eapply untouched_trans; [exact H1 | apply Hk].
Qed.

Lemma quietly_try (A : Type) (caught : exn -> bool) (body : M World A)
    (handler : exn -> M World A) :
  quietly body -> (forall e, quietly (handler e)) ->
  quietly (Printing.try_except caught body handler).
Proof.
  intros Hb Hh st. unfold Printing.try_except. pose proof (Hb st) as H1.
  destruct (body st) as [[a|e] st1]; [exact H1|].
  destruct (caught e); [|exact H1].
  eapply untouched_trans; [exact H1 | apply Hh].
Qed.

Lemma try_returns (A : Type) (caught : exn -> bool) (body : M World A)
    (handler : exn -> M World A) (st st' : state World) (a : A) :
  Printing.try_except caught body handler st = (Return a, st') ->
  body st = (Return a, st')
  \/ exists e st1, body st = (Raise e, st1) /\ caught e = true
                   /\ handler e st1 = (Return a, st').
Proof.
  unfold Printing.try_except. destruct (body st) as [[a1|e] st1]; [now left|].
  destruct (caught e) eqn:E; [|discriminate].
  intros H. right. now exists e, st1.
Qed.

Lemma check_untouched (env : import_env) : quietly (check env).
Proof.
  unfold Printing.test_docling_import.
  repeat first
    [ apply quietly_print | apply quietly_ret | apply quietly_lift
    | apply quietly_try | (apply quietly_bind; [|intros ?]) | intros ? ].
Qed.

(** The version line of lines 23-26 is printed only when reading the
    attribute returns or raises an [AttributeError]. *)
Lemma version_printed (env : import_env) (st st' : state World) :
  Printing.try_except is_AttributeError
    (bind (lift (docling_version_attr env)) (fun v => print (say 24 [VStr v])))
    (fun _ => print (say 26 [])) st
  = (Return tt, st') ->
  exists message, version_line is_AttributeError env = Return message.
Proof.
  unfold version_line, Printing.try_except, bind, lift.
  destruct (docling_version_attr env) as [v|e]; [now eexists|].
  destruct (is_AttributeError e); [now eexists | discriminate].
Qed.

(** The import check touches nothing, and it returns [True] only when the
    imports themselves succeed. *)
Lemma check_spec (env : import_env) (st : state World) :
  untouched st (snd (check env st))
  /\ (fst (check env st) = Return true ->
      fst (test_docling_import is_ImportError is_AttributeError env) = Return true).
Proof.
  split; [apply check_untouched|].
  destruct (check env st) as [r st'] eqn:E. cbn [fst]. intros ->.
  unfold Printing.test_docling_import in E.
  apply (@bind_returns World) in E. destruct E as [_ [st1 [_ E]]].
  apply (@bind_returns World) in E. destruct E as [_ [st2 [_ E]]].
  apply try_returns in E. destruct E as [E|[e [st3 [_ [_ E]]]]].
  2: { apply (@bind_returns World) in E. destruct E as [_ [st4 [_ E]]].
       apply (@bind_returns World) in E. destruct E as [_ [st5 [_ E]]].
       discriminate. }
  apply (@bind_returns World) in E. destruct E as [i1 [st3 [H1 E]]].
  apply (@bind_returns World) in E. destruct E as [_ [st4 [_ E]]].
  apply (@bind_returns World) in E. destruct E as [[] [st5 [Hv E]]].
  apply (@bind_returns World) in E. destruct E as [i2 [st6 [H2 E]]].
  apply (@bind_returns World) in E. destruct E as [_ [st7 [_ E]]].
  apply (@bind_returns World) in E. destruct E as [i3 [st8 [H3 E]]].
  apply version_printed in Hv. destruct Hv as [message Hv].
  injection H1 as H1 _. injection H2 as H2 _. injection H3 as H3 _.
  unfold test_docling_import. rewrite H1, Hv, H2, H3. reflexivity.
Qed.

Lemma no_file_no_documents (entries : list dir_entry) :
  has_file (Some entries) = false ->
  fold_left (scan_entry lower) entries [] = [].
Proof.
  intros H. apply (has_file_scan lower (Some entries)) in H. exact H.
Qed.

Lemma program_stops_early (env : import_env) (dir : directory) (st : state World) :
  fst (test_docling_import is_ImportError is_AttributeError env) <> Return true
  \/ has_file (listing_of dir) = false ->
  stopped_early st (program env dir st).
Proof.
  intros Hearly. unfold Printing.main.
  apply stopped_early_print; intros st1 _.
  apply stopped_early_print; intros st2 _.
  apply stopped_early_print; intros st3 _.
  apply stopped_early_bind; [apply check_spec|].
  intros docling_installed st4 Hcheck.
  destruct docling_installed; cbn [negb].
  2: { apply stopped_early_print. intros ? _. now apply stopped_early_ret. }
  destruct Hearly as [Himport|Hfile].
  { exfalso. apply Himport. apply (proj2 (check_spec env st3)).
    now rewrite Hcheck. }
  destruct dir as [|e|entries]; cbn [Printing.get_test_documents].
  - apply stopped_early_bind.
    + unfold bind. pose proof (print_untouched (say 45 []) st4) as H.
      destruct (print (say 45 []) st4) as [[[]|?] ?]; exact H.
    + intros documents st5 E. unfold bind in E.
      destruct (print (say 45 []) st4) as [[[]|?] ?]; [|discriminate].
      injection E as <- <-.
      apply stopped_early_print. intros ? _. now apply stopped_early_ret.
  - apply stopped_early_bind; [apply untouched_refl | discriminate].
  - apply stopped_early_bind; [apply untouched_refl|].
    intros documents st5 [= <- <-].
    rewrite (no_file_no_documents _ Hfile).
    apply stopped_early_print. intros ? _. now apply stopped_early_ret.
Qed.


(** Without docling, or without a file in [test-docs] (no such path, a
    path that cannot be listed, an empty directory, or one with
    sub-directories only), [main] stops before the tests, whatever the
    standard output does: it converts nothing, starts no subprocess, writes
    nothing, and does not complete (it returns early, or raises).
    Otherwise, on a standard output that takes every line, it converts at
    least one file and prints the report. *)
Theorem main_stops_early (env : import_env) (dir : directory) (st : state World) :
  (fst (test_docling_import is_ImportError is_AttributeError env) <> Return true
   \/ has_file (listing_of dir) = false ->
   stopped_early st (program env dir st))
  /\ ((forall l w, stdout_print l w = (Return tt, w)) ->
      fst (test_docling_import is_ImportError is_AttributeError env) = Return true ->
      has_file (listing_of dir) = true ->
      (exists report, printed (snd (program env dir st)) = Some report)
      /\ (List.length (converted st)
          < List.length (converted (snd (program env dir st))))%nat).
Proof.
  split; [apply program_stops_early|].
  intros Hquiet Himport Hfile.
  assert (Hdir : listable dir = true).
  { destruct dir; [reflexivity | discriminate | reflexivity]. }
  rewrite (@main_quiet lower World convert_document now_isoformat subprocess_run
             sys_executable json_dump stdout_print is_ImportError is_AttributeError
             Hquiet env dir st Hdir).
  unfold kmrl_main. rewrite Himport.
  pose proof (@run_stops_early lower World convert_document now_isoformat
                subprocess_run sys_executable json_dump (stored_version env)
                true (listing_of dir) st) as H.
  cbn [andb] in H. rewrite Hfile in H. exact H.
Qed.

(** What [main] does with the converter and with the command line, on a
    standard output that takes every line and with docling importable,
    however the converter and the command line behave and whether or not
    the report can be written: every file of the directory is handed to the
    converter once, category by category in the order of the grouping;
    then, when there was a file, the first three entries with a suffix
    [.txt], [.csv] or [.md] are handed to the command line, each with a
    timeout of 30. *)
Theorem main_effects (env : import_env) (entries : list dir_entry)
    (st : state World) :
  (forall l w, stdout_print l w = (Return tt, w)) ->
  fst (test_docling_import is_ImportError is_AttributeError env) = Return true ->
  converted (snd (program env (Listed entries) st))
  = converted st
    ++ map path (List.concat (dict_values (group_by_category lower entries)))
  /\ invoked (snd (program env (Listed entries) st))
     = invoked st
       ++ (if has_file (Some entries) then
             map (fun p => (cli_argv sys_executable p, 30))
                 (firstn 3 (filter (cli_candidate lower) entries))
           else []).
Proof.
  intros Hquiet Himport.
  rewrite (@main_quiet lower World convert_document now_isoformat subprocess_run
             sys_executable json_dump stdout_print is_ImportError is_AttributeError
             Hquiet env (Listed entries) st eq_refl).
  unfold kmrl_main. rewrite Himport.
  exact (@run_effects lower World convert_document now_isoformat subprocess_run
           sys_executable json_dump (stored_version env) entries st).
Qed.

End EarlyFacts.

(** The sample directory on a standard output that takes every line. *)
Lemma main_effects_sample :
  let run :=
    Printing.main ascii_lower sample_convert sample_now sample_run (lit "python3")
      sample_dump quiet_print named_ImportError named_AttributeError sample_env
      (Listed sample_directory) (sample_state roomy_disk) in
  converted (snd run)
  = converted (sample_state roomy_disk)
    ++ map path (List.concat (dict_values (group_by_category ascii_lower
                                              sample_directory)))
  /\ invoked (snd run)
     = invoked (sample_state roomy_disk)
       ++ (if has_file (Some sample_directory) then
             map (fun p => (cli_argv (lit "python3") p, 30))
                 (firstn 3 (filter (cli_candidate ascii_lower) sample_directory))
           else []).
Proof.
  cbn zeta. apply main_effects; [intros l w; reflexivity | reflexivity].
Defined.
